(** * Botivate HR Support: company onboarding and provisioning workflow

    A shallow embedding of the React front end that drives company
    onboarding:

    - [frontend/src/pages/OnboardingPage.jsx]: the two-step page that
      registers a company, sends the user to Google for consent and
      finalises the workspace (module [Onboarding]);
    - [OAuthCallbackPage], the page Google redirects back to
      (module [OAuthCallback]);
    - the browser as the user drives these two pages: routes, clicks and
      redirects (module [Browser]);
    - [frontend/src/api.js], the API client with its interceptors
      (module [Api]), and the five-step wizard
      [OnboardingPage({ isPublic })] built on it (module [Wizard]);
    - the credential provisioner of the backend, which is not among the
      sources and is modelled from the design (module [Provisioner]);
    - the session of a signed-in user: [AuthContext], the protected
      routes, the login page and the layout's logout (modules [Auth]
      and [Login]), and the notification bell (module [Bell]).

    Browser storage is a finite map from keys to strings.  Every handler
    runs in a small state-and-exception monad over the component state and
    the world (storage, current location, the replies the backend is going
    to give, and the trace of observable effects).  A handler runs to
    its end before the next action starts; [console.log] and
    [console.error] calls are not modelled. *)

From Stdlib Require Import Ascii String NArith Sorted.
From stdpp Require Import gmap strings list fin_maps pretty.

Open Scope string_scope.

(** ** JavaScript values as the pages use them *)

Module Js.

(** [!!s] for a string: only the empty string is falsy. *)
Definition truthy (s : string) : bool :=
  match s with
  | EmptyString => false
  | String _ _ => true
  end.

(** Truthiness of a value that is a string or [null]/[undefined]. *)
Definition truthy_opt (o : option string) : bool :=
  match o with
  | Some s => truthy s
  | None => false
  end.

(** [a || b] on strings-or-undefined, as in
    [error.response?.data?.detail || "fallback"]. *)
Definition or_else (o : option string) (fallback : string) : string :=
  match o with
  | Some s => if truthy s then s else fallback
  | None => fallback
  end.

Fixpoint drop_spaces (s : string) : string :=
  match s with
  | String a s' => if Ascii.is_space a then drop_spaces s' else s
  | EmptyString => EmptyString
  end.

(** [String.prototype.trim], on the ASCII white space characters. *)
Definition trim (s : string) : string :=
  String.rev (drop_spaces (String.rev (drop_spaces s))).

Definition hex_digit (n : N) : ascii :=
  match n with
  | 0 => "0" | 1 => "1" | 2 => "2" | 3 => "3" | 4 => "4" | 5 => "5"
  | 6 => "6" | 7 => "7" | 8 => "8" | 9 => "9" | 10 => "A" | 11 => "B"
  | 12 => "C" | 13 => "D" | 14 => "E" | _ => "F"
  end%N%char.

(** Characters [encodeURIComponent] leaves alone:
    [A-Z a-z 0-9 - _ . ! ~ * ' ( )]. *)
Definition uri_unreserved (a : ascii) : bool :=
  let n := N_of_ascii a in
  ((65 <=? n) && (n <=? 90) || (97 <=? n) && (n <=? 122)
   || (48 <=? n) && (n <=? 57))%N
  || match a with
     | "-" | "_" | "." | "!" | "~" | "*" | "'" | "(" | ")" => true
     | _ => false
     end%char.

(** [encodeURIComponent], byte by byte (the strings are UTF-8 bytes). *)
Fixpoint encodeURIComponent (s : string) : string :=
  match s with
  | EmptyString => EmptyString
  | String a s' =>
      if uri_unreserved a then String a (encodeURIComponent s')
      else
        let n := N_of_ascii a in
        String "%" (String (hex_digit (n / 16)) (String (hex_digit (n mod 16))
          (encodeURIComponent s')))
  end.

(** A [File] picked in a file input. *)
Record File := mkFile { file_name : string; file_bytes : string }.

(** [new URLSearchParams(location.search)]: the query pairs in order;
    [get] answers with the first value for the name, or [null]. *)
Definition URLSearchParams := list (string * string).

Fixpoint params_get (name : string) (ps : URLSearchParams) : option string :=
  match ps with
  | [] => None
  | (k, v) :: ps' => if String.eqb k name then Some v else params_get name ps'
  end.

End Js.

Export Js.

(** ** The world outside the components *)

(** Request bodies the pages send. *)
Inductive Body :=
  | BCompany (name industry hr_name hr_email : string)
  | BCompanyFull (name industry hr_name hr_email hr_email_password
                  support_email support_phone support_whatsapp
                  support_message : string)
  | BDatabase (title : string) (description : option string)
              (db_type spreadsheet_id : string) (sheet_name : option string)
  | BPolicyText (title : string) (description : option string)
                (policy_type content : string)
  | BPolicyDocument (title description : string) (file : File)
  | BOAuthExchange (code company_id : string)
  | BEmpty.

(** [res.data], with the fields the pages read. *)
Record Data := mkData {
  data_id : string;
  data_name : string;
  passwords_generated : nat;
  emails_sent : nat
}.

(** What awaiting a request gives: the promise resolves with a response,
    or rejects with an error that may carry [response.status] and
    [response.data.detail]. *)
Inductive Reply :=
  | Resolved (data : Data)
  | Rejected (status : option nat) (detail : option string).

Inductive ToastKind := ToastError | ToastSuccess | ToastLoading.

(** Observable effects, in the order they happen. *)
Inductive Event :=
  | EvPost (url : string) (body : Body) (reply : Reply)
  | EvToast (kind : ToastKind) (message : string)
  | EvSetItem (key value : string)
  | EvRemoveItem (key : string)
  | EvNavigate (path : string)
  | EvLocationHref (url : string).

Record World := mkWorld {
  localStorage : gmap string string;
  location : string;
  backend : list Reply;
  trace : list Event
}.

Definition log (e : Event) (w : World) : World :=
  mkWorld (localStorage w) (location w) (backend w) (trace w ++ [e]).

(** The reply the next request gets; with no reply left the request fails
    without a response. *)
Definition next_reply (w : World) : Reply :=
  match backend w with
  | r :: _ => r
  | [] => Rejected None None
  end.

(** The requests in a trace. *)
Definition is_post (e : Event) : bool :=
  match e with
  | EvPost _ _ _ => true
  | _ => false
  end.

Definition posts (t : list Event) : list Event := filter is_post t.

Definition KEY_COMPANY : string := "botivate_onboarding_company".
Definition KEY_GOOGLE : string := "botivate_google_connected".
Definition KEY_FORM : string := "botivate_onboarding_form".

(** ** Handlers as programs *)

(** A handler over component state [C]: it either returns a value or
    throws the error of a rejected request, and threads the component
    state and the world. *)
Definition M (C A : Type) : Type := C * World → (option string + A) * (C * World).

Section Monad.
Context {C : Type}.

Definition ret {A} (a : A) : M C A := λ s, (inr a, s).

Definition bind {A B} (m : M C A) (f : A → M C B) : M C B :=
  λ s, match m s with
       | (inr a, s') => f a s'
       | (inl e, s') => (inl e, s')
       end.

Definition throw {A} (e : option string) : M C A := λ s, (inl e, s).

(** [try { m } catch (error) { h error }] *)
Definition try_catch {A} (m : M C A) (h : option string → M C A) : M C A :=
  λ s, match m s with
       | (inl e, s') => h e s'
       | r => r
       end.

(** [try { m } finally { f }]: [f] runs on both exits. *)
Definition finally {A} (m : M C A) (f : M C unit) : M C A :=
  λ s, match m s with
       | (r, s') =>
           match f s' with
           | (inr _, s'') => (r, s'')
           | (inl e, s'') => (inl e, s'')
           end
       end.

Definition getState : M C C := λ s, (inr (fst s), s).
Definition setState (f : C → C) : M C unit := λ s, (inr tt, (f (fst s), snd s)).
Definition getWorld : M C World := λ s, (inr (snd s), s).
Definition setWorld (f : World → World) : M C unit :=
  λ s, (inr tt, (fst s, f (snd s))).

Definition emit (e : Event) : M C unit := setWorld (log e).

Definition toast_error (msg : string) : M C unit := emit (EvToast ToastError msg).
Definition toast_success (msg : string) : M C unit := emit (EvToast ToastSuccess msg).
Definition toast_loading (msg : string) : M C unit := emit (EvToast ToastLoading msg).

Definition localStorage_getItem (k : string) : M C (option string) :=
  λ s, (inr (localStorage (snd s) !! k), s).

Definition localStorage_setItem (k v : string) : M C unit :=
  setWorld (λ w, log (EvSetItem k v)
    (mkWorld (<[k:=v]> (localStorage w)) (location w) (backend w) (trace w))).

Definition localStorage_removeItem (k : string) : M C unit :=
  setWorld (λ w, log (EvRemoveItem k)
    (mkWorld (delete k (localStorage w)) (location w) (backend w) (trace w))).

(** [navigate(path)] of react-router. *)
Definition navigate (path : string) : M C unit :=
  setWorld (λ w, log (EvNavigate path)
    (mkWorld (localStorage w) path (backend w) (trace w))).

(** [window.location.href = url]: the browser leaves the application. *)
Definition set_location_href (url : string) : M C unit :=
  setWorld (λ w, log (EvLocationHref url)
    (mkWorld (localStorage w) url (backend w) (trace w))).

(** [await axios.post(url, body)]: the backend's next reply decides. *)
Definition axios_post (url : string) (body : Body) : M C Data :=
  λ s,
    let w := snd s in
    let r := next_reply w in
    let w' := log (EvPost url body r)
                (mkWorld (localStorage w) (location w) (tail (backend w)) (trace w)) in
    match r with
    | Resolved d => (inr d, (fst s, w'))
    | Rejected _ detail => (inl detail, (fst s, w'))
    end.

End Monad.

Notation "'do' x ← m ; k" := (bind m (λ x, k))
  (at level 10, x name, m at level 100, k at level 200,
   format "'[v' 'do'  x  ←  m ; '/' k ']'").
Notation "m >> k" := (bind m (λ _, k))
  (at level 100, k at level 200, right associativity).

(** [JSON.stringify] and [JSON.parse] on the onboarding form are the
    runtime's; [JSON_parse] answers [None] where [JSON.parse] throws.  The
    only snapshots in the store are the ones the page wrote from a form,
    so a text that parses is read back as a form. *)
Class JsonCodec (T : Type) := {
  JSON_stringify : T → string;
  JSON_parse : string → option T
}.

(** ** The onboarding page, [frontend/src/pages/OnboardingPage.jsx] *)

Module Onboarding.

Record FormData := mkFormData {
  companyName : string;
  industry : string;
  contactName : string;
  contactEmail : string;
  policiesText : string;
  dbUrl : string;
  policyFile : option File
}.

(** The component's [useState] cells. *)
Record Component := mkComponent {
  step : nat;
  formData : FormData;
  globalCompanyId : option string;
  googleConnected : bool;
  isLoading : bool
}.

Definition initialFormData : FormData := mkFormData "" "" "" "" "" "" None.

(** The state of a freshly mounted page, before its effect runs. *)
Definition initial : Component := mkComponent 1 initialFormData None false false.

Definition setStep (n : nat) : M Component unit :=
  setState (λ c, mkComponent n (formData c) (globalCompanyId c) (googleConnected c) (isLoading c)).
Definition setFormData (fd : FormData) : M Component unit :=
  setState (λ c, mkComponent (step c) fd (globalCompanyId c) (googleConnected c) (isLoading c)).
Definition setGlobalCompanyId (id : option string) : M Component unit :=
  setState (λ c, mkComponent (step c) (formData c) id (googleConnected c) (isLoading c)).
Definition setGoogleConnected (b : bool) : M Component unit :=
  setState (λ c, mkComponent (step c) (formData c) (globalCompanyId c) b (isLoading c)).
Definition setIsLoading (b : bool) : M Component unit :=
  setState (λ c, mkComponent (step c) (formData c) (globalCompanyId c) (googleConnected c) b).

(** The workflow states of the design, and the one a component shows:
    the page renders step 1 when [step === 1]; otherwise it renders the
    consent button until [googleConnected], and the resource fields
    after. *)
Inductive WorkflowStep :=
  | CollectingProfile
  | AwaitingAuthorization
  | ConfiguringResources
  | Provisioning
  | Complete.

Definition currentStep (c : Component) : WorkflowStep :=
  if Nat.eqb (step c) 1 then CollectingProfile
  else if googleConnected c then ConfiguringResources
  else AwaitingAuthorization.

Definition API : string := "http://localhost:8000/api/companies".
Definition register_url : string := API ++ "/register".
Definition databases_url (companyId : string) : string :=
  API ++ "/" ++ companyId ++ "/databases".
Definition policies_text_url (companyId : string) : string :=
  API ++ "/" ++ companyId ++ "/policies/text".
Definition policies_document_url (companyId : string) : string :=
  API ++ "/" ++ companyId ++ "/policies/document".
Definition provision_url (companyId dbId : string) : string :=
  API ++ "/" ++ companyId ++ "/databases/" ++ dbId ++ "/provision".

(** A template literal prints [null] for a missing company id. *)
Definition id_text (id : option string) : string :=
  match id with Some s => s | None => "null" end.

Definition MSG_REQUIRED : string := "Please fill required fields.".
Definition MSG_REGISTRATION_FAILED : string :=
  "Registration failed. Check if email/company already exists.".
Definition MSG_GRANT_FIRST : string :=
  "Please grant Google Workspace access before proceeding.".
Definition MSG_READY : string := "Company registered and workspace ready!".
Definition MSG_CONFIGURATION_FAILED : string :=
  "Configuration failed. Check backend logs.".

(** [!formData.companyName || !formData.contactEmail] *)
Definition profile_incomplete (fd : FormData) : bool :=
  negb (truthy (companyName fd)) || negb (truthy (contactEmail fd)).

Section WithJson.
Context `{JsonCodec FormData}.

(** [JSON.parse(str)] inside a [try]: a syntax error is thrown. *)
Definition JSON_parse_or_throw (str : option string) : M Component FormData :=
  match str with
  | Some text =>
      match JSON_parse text with
      | Some parsedForm => ret parsedForm
      | None => throw None
      end
  | None => throw None
  end.

(** The mount effect: "Restore state if returning from Google OAuth". *)
Definition restore : M Component unit :=
  do returningCompanyId ← localStorage_getItem KEY_COMPANY;
  do googleFlag ← localStorage_getItem KEY_GOOGLE;
  let isGoogle := bool_decide (googleFlag = Some "true") in
  do savedFormStr ← localStorage_getItem KEY_FORM;
  if truthy_opt returningCompanyId && isGoogle then
    setGlobalCompanyId returningCompanyId >>
    setGoogleConnected true >>
    (if truthy_opt savedFormStr then
       try_catch
         (do parsedForm ← JSON_parse_or_throw savedFormStr;
          setFormData parsedForm)
         (λ e, ret tt)
     else ret tt) >>
    setStep 2
  else ret tt.

Definition handleNext : M Component unit :=
  do c ← getState;
  let formData := formData c in
  if Nat.eqb (step c) 1 && profile_incomplete formData
  then toast_error MSG_REQUIRED
  else if negb (truthy_opt (globalCompanyId c)) then
    setIsLoading true >>
    finally
      (try_catch
         (let companyPayload :=
            BCompany (companyName formData) (industry formData)
                     (contactName formData) (contactEmail formData) in
          do compRes ← axios_post register_url companyPayload;
          let newCompanyId := data_id compRes in
          setGlobalCompanyId (Some newCompanyId) >>
          localStorage_setItem KEY_COMPANY newCompanyId >>
          localStorage_setItem KEY_FORM (JSON_stringify formData) >>
          setStep 2)
         (λ error, toast_error (or_else error MSG_REGISTRATION_FAILED)))
      (setIsLoading false)
  else setStep 2.

Definition clientId : string :=
  "561628688869-uhibvk67hslomtphrq8hp4ha1ktviefl.apps.googleusercontent.com".
Definition scopes : string :=
  "https://mail.google.com/ https://www.googleapis.com/auth/spreadsheets https://www.googleapis.com/auth/drive".
Definition redirect : string := "http://localhost:5173/oauth/callback".
Definition oauthUrl : string :=
  "https://accounts.google.com/o/oauth2/v2/auth?client_id=" ++ clientId
  ++ "&redirect_uri=" ++ redirect ++ "&response_type=code&scope="
  ++ encodeURIComponent scopes ++ "&access_type=offline&prompt=consent".

Definition handleGoogleOAuth : M Component unit :=
  do c ← getState;
  if negb (truthy_opt (globalCompanyId c)) then ret tt
  else
    localStorage_setItem KEY_FORM (JSON_stringify (formData c)) >>
    set_location_href oauthUrl.

Definition handleSubmit : M Component unit :=
  do c ← getState;
  let formData := formData c in
  let globalCompanyId := id_text (globalCompanyId c) in
  if negb (googleConnected c) then toast_error MSG_GRANT_FIRST
  else
    setIsLoading true >>
    finally
      (try_catch
         (do dbId ←
            (if truthy (dbUrl formData) then
               do dbRes ← axios_post (databases_url globalCompanyId)
                 (BDatabase "Primary Employee DB" None "google_sheets"
                            (dbUrl formData) None);
               ret (Some (data_id dbRes))
             else ret None);
          (if truthy (trim (policiesText formData)) then
             do _ ← axios_post (policies_text_url globalCompanyId)
               (BPolicyText "General HR Policies" None "text"
                            (policiesText formData));
             ret tt
           else ret tt) >>
          (match policyFile formData with
           | Some file =>
               do _ ← axios_post (policies_document_url globalCompanyId)
                 (BPolicyDocument (file_name file)
                                  "Uploaded during onboarding" file);
               ret tt
           | None => ret tt
           end) >>
          (match dbId with
           | Some id =>
               if truthy id then
                 do provRes ← axios_post (provision_url globalCompanyId id) BEmpty;
                 ret tt
               else ret tt
           | None => ret tt
           end) >>
          localStorage_removeItem KEY_COMPANY >>
          localStorage_removeItem KEY_GOOGLE >>
          localStorage_removeItem KEY_FORM >>
          toast_success MSG_READY >>
          navigate "/login")
         (λ error, toast_error (or_else error MSG_CONFIGURATION_FAILED)))
      (setIsLoading false).

End WithJson.

(** The request [handleSubmit] binds the database with. *)
Definition database_request (c : Component) (reply : Reply) : Event :=
  EvPost (databases_url (id_text (globalCompanyId c)))
         (BDatabase "Primary Employee DB" None "google_sheets" (dbUrl (formData c)) None)
         reply.

(** Among the events of one finalize, a request to the provisioner (the
    one without a body) comes with a database locator in the form and
    after the binding request, which opened the finalize and resolved;
    it is for the id the binding returned. *)
Definition provision_follows_binding (c : Component) (evs : list Event) : Prop :=
  ∀ url r,
    EvPost url BEmpty r ∈ evs →
    ∃ d,
      truthy (dbUrl (formData c)) = true
      ∧ head evs = Some (database_request c (Resolved d))
      ∧ url = provision_url (id_text (globalCompanyId c)) (data_id d).

(** With a database locator in the form, a finalize that reaches the
    login page opened with a binding request that resolved. *)
Definition success_needs_binding (c : Component) (evs : list Event) : Prop :=
  truthy (dbUrl (formData c)) = true →
  EvNavigate "/login" ∈ evs →
  ∃ d, head evs = Some (database_request c (Resolved d)).

(** A rejected request ends the finalize: nothing follows it but the
    report of the failure. *)
Definition stops_at_rejection (evs : list Event) : Prop :=
  ∀ url body status detail,
    EvPost url body (Rejected status detail) ∈ evs →
    ∃ before,
      evs = (before ++ [EvPost url body (Rejected status detail);
                        EvToast ToastError (or_else detail MSG_CONFIGURATION_FAILED)])%list.

(** The form of step 2 calls [handleSubmit] from its [onSubmit], and
    the browser submits a form only when the constraints of its inputs
    hold: the database input is [required] (and of type [url]), so the
    page finalizes only with that field filled in. *)
Definition form_submits (c : Component) : bool :=
  truthy (dbUrl (formData c)).

(** The request [handleSubmit] asks the provisioner with, for the
    connection [dbId]. *)
Definition provision_request (c : Component) (dbId : string) (reply : Reply) : Event :=
  EvPost (provision_url (id_text (globalCompanyId c)) dbId) BEmpty reply.

End Onboarding.

(** ** The page Google redirects back to, [OAuthCallbackPage] *)

Module OAuthCallback.

Definition exchange_url : string :=
  "http://localhost:8000/api/companies/oauth-exchange".

Definition MSG_DENIED : string := "Google Authentication failed or was cancelled.".
Definition MSG_NO_CODE : string := "No authorization code found in URL.".
Definition MSG_LOST_CONTEXT : string := "Lost session context. Please try again.".
Definition MSG_CONNECTING : string := "Connecting your Google Workspace...".
Definition MSG_CONNECTED : string := "Google connected successfully!".
Definition MSG_EXCHANGE_FAILED : string := "Failed to establish secure connection.".

(** The page has no state of its own. *)
Definition processOAuth (params : URLSearchParams) : M unit unit :=
  let code := params_get "code" params in
  let error := params_get "error" params in
  if truthy_opt error then
    toast_error MSG_DENIED >> navigate "/onboarding"
  else if negb (truthy_opt code) then
    toast_error MSG_NO_CODE >> navigate "/onboarding"
  else
    do companyId ← localStorage_getItem KEY_COMPANY;
    if negb (truthy_opt companyId) then
      toast_error MSG_LOST_CONTEXT >> navigate "/onboarding"
    else
      try_catch
        (toast_loading MSG_CONNECTING >>
         do _ ← axios_post exchange_url
           (BOAuthExchange (default "" code) (default "" companyId));
         toast_success MSG_CONNECTED >>
         localStorage_setItem KEY_GOOGLE "true" >>
         navigate "/onboarding")
        (λ err,
          toast_error (or_else err MSG_EXCHANGE_FAILED) >>
          navigate "/onboarding").

(** The failures of [complete] in the design, told apart by what the
    page reports. *)
Inductive Failure :=
  | AuthorizationDenied
  | AuthorizationCodeAbsent
  | AuthorizationMissingContext.

Definition failure_message (f : Failure) : string :=
  match f with
  | AuthorizationDenied => MSG_DENIED
  | AuthorizationCodeAbsent => MSG_NO_CODE
  | AuthorizationMissingContext => MSG_LOST_CONTEXT
  end.

(** [complete] fails with [f] from world [w] to [w']: the failure is
    reported, the user is sent back to the onboarding page, and nothing
    else happens. *)
Definition fails_with (f : Failure) (w w' : World) : Prop :=
  trace w' =
    (trace w ++ [EvToast ToastError (failure_message f); EvNavigate "/onboarding"])%list.

(** The failure the checks of [processOAuth] stop at, in their order:
    error indicator, then code, then company id. *)
Definition callback_failure (params : URLSearchParams) : Failure :=
  if truthy_opt (params_get "error" params) then AuthorizationDenied
  else if truthy_opt (params_get "code" params) then AuthorizationMissingContext
  else AuthorizationCodeAbsent.

(** The world after a failed callback. *)
Definition turned_back (w : World) (f : Failure) : World :=
  mkWorld (localStorage w) "/onboarding" (backend w)
          (trace w ++ [EvToast ToastError (failure_message f);
                       EvNavigate "/onboarding"])%list.

End OAuthCallback.

(** ** The browser: pages, clicks and redirects *)

Module Browser.
Import Onboarding.

Inductive Page :=
  | OnboardingPage (c : Component)
  | LoginPage
  | Elsewhere.

Record App := mkApp { page : Page; world : World }.

(** What the user or the browser can do next. *)
Inductive Action :=
  | OpenOnboarding
  | OpenLogin
  | TypeForm (fd : FormData)
  | ClickNext
  | ClickBack
  | ClickSignInWithGoogle
  | SubmitFinalize
  | ProviderRedirectsBack (params : URLSearchParams)
  | ClickRegisterHere.

Definition at_location (path : string) (w : World) : World :=
  mkWorld (localStorage w) path (backend w) (trace w).

Section WithJson.
Context `{JsonCodec FormData}.

(** The router renders a fresh [OnboardingPage] and its effect runs. *)
Definition mount_onboarding (w : World) : App :=
  let '(_, (c, w')) := restore (initial, w) in
  mkApp (OnboardingPage c) w'.

(** The page that is showing once a handler of the onboarding page
    is done: the component lives on unless the location changed. *)
Definition after_handler (r : (option string + unit) * (Component * World)) : App :=
  let '(_, (c, w)) := r in
  if String.eqb (location w) "/onboarding" then mkApp (OnboardingPage c) w
  else if String.eqb (location w) "/login" then mkApp LoginPage w
  else mkApp Elsewhere w.

(** One action.  A control that the current page does not render
    cannot be used: "Next Step" is on step 1; on the other step the
    Google button shows until [googleConnected], "Back" and
    "Finalize Integration" after.  The browser's own validation of
    [required] inputs is not modelled, the handlers' checks are. *)
Definition app_step (a : Action) (s : App) : App :=
  let w := world s in
  match a, page s with
  | OpenOnboarding, _ => mount_onboarding (at_location "/onboarding" w)
  | OpenLogin, _ => mkApp LoginPage (at_location "/login" w)
  | TypeForm fd, OnboardingPage c =>
      after_handler (setFormData fd (c, w))
  | ClickNext, OnboardingPage c =>
      if Nat.eqb (step c) 1 then after_handler (handleNext (c, w)) else s
  | ClickBack, OnboardingPage c =>
      if negb (Nat.eqb (step c) 1) && googleConnected c
      then after_handler (setStep 1 (c, w)) else s
  | ClickSignInWithGoogle, OnboardingPage c =>
      if negb (Nat.eqb (step c) 1) && negb (googleConnected c)
      then after_handler (handleGoogleOAuth (c, w)) else s
  | SubmitFinalize, OnboardingPage c =>
      if negb (Nat.eqb (step c) 1) && googleConnected c
      then after_handler (handleSubmit (c, w)) else s
  | ProviderRedirectsBack params, _ =>
      let '(_, (_, w')) :=
        OAuthCallback.processOAuth params (tt, at_location "/oauth/callback" w) in
      if String.eqb (location w') "/onboarding" then mount_onboarding w'
      else mkApp Elsewhere w'
  | ClickRegisterHere, LoginPage =>
      let '(_, (_, w')) :=
        (localStorage_removeItem KEY_COMPANY >>
         localStorage_removeItem KEY_GOOGLE >>
         localStorage_removeItem KEY_FORM >>
         navigate "/onboarding") (tt, w) in
      mount_onboarding w'
  | _, _ => s
  end.

Definition run (actions : list Action) (s : App) : App :=
  fold_left (λ s a, app_step a s) actions s.

(** A browser that has not opened the application yet. *)
Definition start (w : World) : App := mkApp Elsewhere w.

End WithJson.

(** The workflow step on screen, when the onboarding page is showing. *)
Definition showing (s : App) : option WorkflowStep :=
  match page s with
  | OnboardingPage c => Some (currentStep c)
  | _ => None
  end.

(** The actions that stay on the onboarding page: typing, "Next Step"
    and "Back". *)
Definition page_local (a : Action) : Prop :=
  match a with
  | TypeForm _ | ClickNext | ClickBack => True
  | _ => False
  end.

(** The company id a mounted page holds is the one in the store. *)
Definition company_persisted (s : App) : Prop :=
  match page s with
  | OnboardingPage c =>
      truthy_opt (globalCompanyId c) = true →
      localStorage (world s) !! KEY_COMPANY = globalCompanyId c
  | _ => True
  end.

(** The requests to the company registrar in a trace. *)
Definition is_register (e : Event) : bool :=
  match e with
  | EvPost url _ _ => String.eqb url register_url
  | _ => false
  end.

Definition registrations (t : list Event) : list Event := filter is_register t.

End Browser.

(** ** The API client, [frontend/src/api.js] *)

Module Api.

Definition KEY_TOKEN : string := "botivate_token".
Definition KEY_USER : string := "botivate_user".

(** [api.post]: the response interceptor signs the user out on a 401
    before the rejection reaches the caller.  The [Authorization] header
    the request interceptor adds is not part of the model. *)
Definition post {C} (url : string) (body : Body) : M C Data :=
  λ s,
    let w := snd s in
    let r := next_reply w in
    let w' := log (EvPost url body r)
                (mkWorld (localStorage w) (location w) (tail (backend w)) (trace w)) in
    match r with
    | Resolved d => (inr d, (fst s, w'))
    | Rejected status detail =>
        if bool_decide (status = Some 401) then
          (localStorage_removeItem KEY_TOKEN >>
           localStorage_removeItem KEY_USER >>
           set_location_href "/login" >>
           throw detail) (fst s, w')
        else (inl detail, (fst s, w'))
    end.

(** What the interceptor adds to the trace on a rejection. *)
Definition signed_out (status : option nat) : list Event :=
  if bool_decide (status = Some 401)
  then [EvRemoveItem KEY_TOKEN; EvRemoveItem KEY_USER; EvLocationHref "/login"]
  else [].

Definition BASE : string := "/api".

Definition register_url : string := BASE ++ "/companies/register".
Definition policies_text_url (companyId : string) : string :=
  BASE ++ "/companies/" ++ companyId ++ "/policies/text".
Definition policies_document_url (companyId : string) : string :=
  BASE ++ "/companies/" ++ companyId ++ "/policies/document".
Definition databases_url (companyId : string) : string :=
  BASE ++ "/companies/" ++ companyId ++ "/databases".
Definition provision_url (companyId dbId : string) : string :=
  BASE ++ "/companies/" ++ companyId ++ "/databases/" ++ dbId ++ "/provision".

End Api.

(** ** The five-step wizard, [OnboardingPage({ isPublic })] *)

Module Wizard.

Record Company := mkCompany {
  name : string;
  industry : string;
  hr_name : string;
  hr_email : string;
  hr_email_password : string;
  support_email : string;
  support_phone : string;
  support_whatsapp : string;
  support_message : string
}.

Record TextPolicy := mkTextPolicy {
  title : string;
  description : string;
  content : string
}.

Record DbConfig := mkDbConfig {
  db_title : string;
  db_description : string;
  db_type : string;
  spreadsheet_id : string;
  sheet_name : string
}.

Record Component := mkComponent {
  step : nat;
  loading : bool;
  companyId : string;
  registrationDone : bool;
  company : Company;
  textPolicies : list TextPolicy;
  docFiles : list File;
  dbConfig : DbConfig;
  dbConnectionId : string
}.

(** [user?.company_id || ''] seeds the company id. *)
Definition initial (user_company_id : option string) : Component :=
  mkComponent 0 false (or_else user_company_id "") false
    (mkCompany "" "" "" "" "" "" "" "" "")
    [mkTextPolicy "" "" ""]
    []
    (mkDbConfig "Employee Database" "Main employee data" "google_sheets" "" "")
    "".

Definition setStep (n : nat) : M Component unit :=
  setState (λ c, mkComponent n (loading c) (companyId c) (registrationDone c)
    (company c) (textPolicies c) (docFiles c) (dbConfig c) (dbConnectionId c)).
Definition setLoading (b : bool) : M Component unit :=
  setState (λ c, mkComponent (step c) b (companyId c) (registrationDone c)
    (company c) (textPolicies c) (docFiles c) (dbConfig c) (dbConnectionId c)).
Definition setCompanyId (id : string) : M Component unit :=
  setState (λ c, mkComponent (step c) (loading c) id (registrationDone c)
    (company c) (textPolicies c) (docFiles c) (dbConfig c) (dbConnectionId c)).
Definition setRegistrationDone (b : bool) : M Component unit :=
  setState (λ c, mkComponent (step c) (loading c) (companyId c) b
    (company c) (textPolicies c) (docFiles c) (dbConfig c) (dbConnectionId c)).
Definition setCompany (x : Company) : M Component unit :=
  setState (λ c, mkComponent (step c) (loading c) (companyId c) (registrationDone c)
    x (textPolicies c) (docFiles c) (dbConfig c) (dbConnectionId c)).
Definition setTextPolicies (x : list TextPolicy) : M Component unit :=
  setState (λ c, mkComponent (step c) (loading c) (companyId c) (registrationDone c)
    (company c) x (docFiles c) (dbConfig c) (dbConnectionId c)).
Definition setDocFiles (x : list File) : M Component unit :=
  setState (λ c, mkComponent (step c) (loading c) (companyId c) (registrationDone c)
    (company c) (textPolicies c) x (dbConfig c) (dbConnectionId c)).
Definition setDbConfig (x : DbConfig) : M Component unit :=
  setState (λ c, mkComponent (step c) (loading c) (companyId c) (registrationDone c)
    (company c) (textPolicies c) (docFiles c) x (dbConnectionId c)).
Definition setDbConnectionId (id : string) : M Component unit :=
  setState (λ c, mkComponent (step c) (loading c) (companyId c) (registrationDone c)
    (company c) (textPolicies c) (docFiles c) (dbConfig c) id).

Definition dquote : string := String "034"%char EmptyString.

Definition company_body (x : Company) : Body :=
  BCompanyFull (name x) (industry x) (hr_name x) (hr_email x) (hr_email_password x)
    (support_email x) (support_phone x) (support_whatsapp x) (support_message x).

(** Step 1: register the company. *)
Definition handleRegisterCompany : M Component unit :=
  do c ← getState;
  setLoading true >>
  finally
    (try_catch
       (do res ← Api.post Api.register_url (company_body (company c));
        setCompanyId (data_id res) >>
        toast_success ("Company " ++ dquote ++ data_name res ++ dquote
                       ++ " registered! ID: " ++ data_id res) >>
        setStep 1)
       (λ err, toast_error (or_else err "Registration failed")))
    (setLoading false).

(** Step 2: text policies. *)
Definition addTextPolicy : M Component unit :=
  do c ← getState;
  setTextPolicies (textPolicies c ++ [mkTextPolicy "" "" ""]).

(** [textPolicies.filter((_, i) => i !== idx)] *)
Definition removeTextPolicy (idx : nat) : M Component unit :=
  do c ← getState;
  setTextPolicies (take idx (textPolicies c) ++ drop (S idx) (textPolicies c)).

Inductive PolicyField := FTitle | FDescription | FContent.

Definition set_field (field : PolicyField) (value : string) (p : TextPolicy) : TextPolicy :=
  match field with
  | FTitle => mkTextPolicy value (description p) (content p)
  | FDescription => mkTextPolicy (title p) value (content p)
  | FContent => mkTextPolicy (title p) (description p) value
  end.

(** [updated[idx][field] = value]: past the end of the list
    [updated[idx]] is [undefined] and the assignment throws a
    [TypeError], before [setTextPolicies]. *)
Definition updateTextPolicy (idx : nat) (field : PolicyField) (value : string)
  : M Component unit :=
  do c ← getState;
  if Nat.ltb idx (length (textPolicies c))
  then setTextPolicies (alter (set_field field value) idx (textPolicies c))
  else throw None.

(** The [for ... of] loop with an [await] in its body: the first
    rejection leaves the loop. *)
Fixpoint for_of {C A} (l : list A) (body : A → M C unit) : M C unit :=
  match l with
  | [] => ret tt
  | x :: l' => body x >> for_of l' body
  end.

(** The body of the loop over the text policies: an entry without a
    title or without content is passed over. *)
Definition save_policy (companyId : string) (policy : TextPolicy) : M Component unit :=
  if truthy (title policy) && truthy (content policy) then
    do _ ← Api.post (Api.policies_text_url companyId)
      (BPolicyText (title policy) (Some (description policy)) "text"
                   (content policy));
    ret tt
  else ret tt.

Definition handleSaveTextPolicies : M Component unit :=
  do c ← getState;
  setLoading true >>
  finally
    (try_catch
       (for_of (textPolicies c) (save_policy (companyId c)) >>
        toast_success "Text policies saved!" >>
        setStep 2)
       (λ err, toast_error "Failed to save policies"))
    (setLoading false).

(** Step 3: policy documents. *)
Definition handleFileChange (files : list File) : M Component unit :=
  do c ← getState;
  setDocFiles (docFiles c ++ files).

Fixpoint extension_chars (s : string) : bool :=
  match s with
  | EmptyString => true
  | String a s' =>
      match a with
      | "/" | "." => false
      | _ => extension_chars s'
      end%char
  end.

(** [name.replace(/\.[^/.]+$/, '')]: drop the last extension. *)
Fixpoint strip_extension (s : string) : string :=
  match s with
  | EmptyString => EmptyString
  | String a s' =>
      if Ascii.eqb a "." && truthy s' && extension_chars s' then EmptyString
      else String a (strip_extension s')
  end.

Definition document_body (file : File) : Body :=
  BPolicyDocument (strip_extension (file_name file)) "" file.

(** The body of the loop over the picked files. *)
Definition upload_document (companyId : string) (file : File) : M Component unit :=
  do _ ← Api.post (Api.policies_document_url companyId) (document_body file);
  ret tt.

Definition handleUploadDocs : M Component unit :=
  do c ← getState;
  setLoading true >>
  finally
    (try_catch
       (for_of (docFiles c) (upload_document (companyId c)) >>
        toast_success "Documents uploaded!" >>
        setStep 3)
       (λ err, toast_error "Upload failed"))
    (setLoading false).

(** Step 4: the employee database. *)
Definition handleConnectDB : M Component unit :=
  do c ← getState;
  let dbConfig := dbConfig c in
  setLoading true >>
  finally
    (try_catch
       (let payload :=
          BDatabase (db_title dbConfig) (Some (db_description dbConfig))
            (db_type dbConfig) (spreadsheet_id dbConfig)
            (if truthy (sheet_name dbConfig) then Some (sheet_name dbConfig) else None) in
        do res ← Api.post (Api.databases_url (companyId c)) payload;
        setDbConnectionId (data_id res) >>
        toast_success "Database connected & schema analyzed by AI!" >>
        setStep 4)
       (λ err, toast_error (or_else err "Connection failed")))
    (setLoading false).

(** Step 5: provision the employees. *)
Definition handleProvision : M Component unit :=
  do c ← getState;
  setLoading true >>
  finally
    (try_catch
       (do res ← Api.post (Api.provision_url (companyId c) (dbConnectionId c)) BEmpty;
        toast_success ("Done! " ++ pretty (passwords_generated res)
                       ++ " passwords generated, " ++ pretty (emails_sent res)
                       ++ " emails sent.") >>
        setRegistrationDone true)
       (λ err, toast_error (or_else err "Provisioning failed")))
    (setLoading false).

(** The uploads the loop of [handleUploadDocs] gets to, each with the
    reply it receives: the loop takes the files in order, one reply
    each, and does not go past a rejected upload. *)
Fixpoint attempted (files : list File) (replies : list Reply) : list (File * Reply) :=
  match files with
  | [] => []
  | file :: files' =>
      let r := match replies with r :: _ => r | [] => Rejected None None end in
      (file, r) :: match r with
                   | Resolved _ => attempted files' (tail replies)
                   | Rejected _ _ => []
                   end
  end.

Definition resolved (r : Reply) : bool :=
  match r with
  | Resolved _ => true
  | Rejected _ _ => false
  end.

Definition all_resolved (l : list (File * Reply)) : bool :=
  forallb (λ x, resolved (snd x)) l.

Definition upload_event (companyId : string) (x : File * Reply) : Event :=
  EvPost (Api.policies_document_url companyId) (document_body (fst x)) (snd x).

(** The request to the provisioner is the one without a body. *)
Definition is_provision (e : Event) : bool :=
  match e with
  | EvPost _ BEmpty _ => true
  | _ => false
  end.

(** No request to the provisioner among the events. *)
Definition quiet (evs : list Event) : Prop :=
  Forall (λ e, is_provision e = false) evs.

(** A database connection [dbId] of company [companyId] exists: a
    request to bind a database has resolved with that id. *)
Definition database_bound (t : list Event) (companyId dbId : string) : Prop :=
  ∃ body d, EvPost (Api.databases_url companyId) body (Resolved d) ∈ t
            ∧ data_id d = dbId.

(** Every request to the provisioner in the trace is for a database
    connection that existed by then. *)
Definition provisions_after_binding (t : list Event) : Prop :=
  ∀ before url r after,
    t = (before ++ EvPost url BEmpty r :: after)%list →
    ∃ companyId dbId,
      url = Api.provision_url companyId dbId
      ∧ database_bound before companyId dbId.

(** What a handler of the wizard does to the component and the trace. *)
Definition does (h : M Component unit) (c : Component) (w : World)
    (P : Component → list Event → Prop) : Prop :=
  ∃ c' w' evs,
    h (c, w) = (inr tt, (c', w')) ∧ trace w' = (trace w ++ evs)%list ∧ P c' evs.

(** *** The wizard as the user drives it *)

(** The wizard is showing with its state, or the browser has left it. *)
Record App := mkApp { mounted : option Component; world : World }.

Inductive Action :=
  | EditCompany (x : Company)
  | ClickRegister
  | ClickAddPolicy
  | ClickRemovePolicy (idx : nat)
  | TypePolicy (idx : nat) (field : PolicyField) (value : string)
  | ClickSavePolicies
  | PickFiles (files : list File)
  | ClickUpload
  | EditDbConfig (x : DbConfig)
  | ClickConnect
  | ClickProvision
  | ClickBack.

Definition after_handler (before : World)
    (r : (option string + unit) * (Component * World)) : App :=
  let '(_, (c, w)) := r in
  if String.eqb (location w) (location before) then mkApp (Some c) w
  else mkApp None w.

(** Each step renders its own controls: step [k] of the source is
    shown when [step === k]; "Back" is on steps 1 to 3; the provision
    button is on step 4 until [registrationDone]. *)
Definition app_step (a : Action) (s : App) : App :=
  match mounted s with
  | None => s
  | Some c =>
      let w := world s in
      let on (k : nat) (h : M Component unit) : App :=
        if Nat.eqb (step c) k then after_handler w (h (c, w)) else s in
      match a with
      | EditCompany x => on 0 (setCompany x)
      | ClickRegister => on 0 handleRegisterCompany
      | ClickAddPolicy => on 1 addTextPolicy
      | ClickRemovePolicy idx =>
          if Nat.ltb 1 (length (textPolicies c)) && Nat.ltb idx (length (textPolicies c))
          then on 1 (removeTextPolicy idx) else s
      | TypePolicy idx field value =>
          if Nat.ltb idx (length (textPolicies c))
          then on 1 (updateTextPolicy idx field value) else s
      | ClickSavePolicies => on 1 handleSaveTextPolicies
      | PickFiles files => on 2 (handleFileChange files)
      | ClickUpload => on 2 handleUploadDocs
      | EditDbConfig x => on 3 (setDbConfig x)
      | ClickConnect => on 3 handleConnectDB
      | ClickProvision =>
          if negb (registrationDone c) then on 4 handleProvision else s
      | ClickBack =>
          match step c with
          | 1 => on 1 (setStep 0)
          | 2 => on 2 (setStep 1)
          | 3 => on 3 (setStep 2)
          | _ => s
          end
      end
  end.

Definition run (actions : list Action) (s : App) : App :=
  fold_left (λ s a, app_step a s) actions s.

(** What holds of the wizard along every run: the provisioner was only
    asked for connections that existed, and on the last step the
    component holds the id of a connection that exists. *)
Definition provisioning_guarded (s : App) : Prop :=
  provisions_after_binding (trace (world s))
  ∧ match mounted s with
    | Some c =>
        step c = 4 →
        database_bound (trace (world s)) (companyId c) (dbConnectionId c)
    | None => True
    end.

(** The wizard opens on a trace that is still empty. *)
Definition start (user_company_id : option string)
    (store : gmap string string) (path : string) (replies : list Reply) : App :=
  mkApp (Some (initial user_company_id)) (mkWorld store path replies []).

End Wizard.

(** ** The credential provisioner behind [provisionCredentials] *)

Module Provisioner.

(** Modelled from the spec: the employee records the backend resolves
    from the bound source, and the result of provisioning them (the
    backend is not among the sources). *)
Record Employee := mkEmployee { employeeRef : string; address : string }.

Record DeliveryFailure := mkDeliveryFailure {
  failure_employeeRef : string;
  reason : string
}.

Record ProvisioningResult := mkProvisioningResult {
  result_companyId : string;
  result_databaseId : string;
  generatedCount : nat;
  deliveredCount : nat;
  failures : list DeliveryFailure
}.

(** Modelled from the spec: the backend's credential provisioner is not
    among the sources (only its caller is).  For each employee record
    resolved from the bound source one credential is generated and one
    delivery attempt is made; the result counts the credentials
    generated and delivered and lists, for each failed delivery, the
    employee reference and the reason.  [generate] makes the credential
    and [deliver] attempts the delivery, answering the reason on
    failure.  This is the step for one employee. *)
Definition provision_one
    (generate : Employee → string)
    (deliver : Employee → string → option string)
    (acc : ProvisioningResult) (e : Employee) : ProvisioningResult :=
  let credential := generate e in
  match deliver e credential with
  | None =>
      mkProvisioningResult (result_companyId acc) (result_databaseId acc)
        (S (generatedCount acc)) (S (deliveredCount acc)) (failures acc)
  | Some why =>
      mkProvisioningResult (result_companyId acc) (result_databaseId acc)
        (S (generatedCount acc)) (deliveredCount acc)
        (failures acc ++ [mkDeliveryFailure (employeeRef e) why])
  end.

(** Modelled from the spec: the provisioner goes through the employee
    records of the bound source, one credential and one delivery attempt
    each, and returns the aggregate. *)
Definition provisionCredentials
    (generate : Employee → string)
    (deliver : Employee → string → option string)
    (companyId databaseId : string) (employees : list Employee)
    : ProvisioningResult :=
  fold_left (provision_one generate deliver) employees
    (mkProvisioningResult companyId databaseId 0 0 []).

(** A failure names an employee of the source and the reason its
    delivery failed. *)
Definition failure_of
    (generate : Employee → string)
    (deliver : Employee → string → option string)
    (employees : list Employee) (f : DeliveryFailure) : Prop :=
  ∃ e, e ∈ employees
       ∧ failure_employeeRef f = employeeRef e
       ∧ deliver e (generate e) = Some (reason f).

End Provisioner.

(** ** A stand-in for the runtime's JSON in the worked examples *)

Module SampleCodec.
Import Onboarding.

Fixpoint split_bar (cur : string) (s : string) : list string :=
  match s with
  | EmptyString => [String.rev cur]
  | String a s' =>
      if Ascii.eqb a "|" then String.rev cur :: split_bar EmptyString s'
      else split_bar (String a cur) s'
  end.

(** The six text fields of a form, separated by bars; a text is a
    snapshot when it has exactly six fields. *)
Definition stringify (fd : FormData) : string :=
  companyName fd ++ "|" ++ industry fd ++ "|" ++ contactName fd ++ "|"
  ++ contactEmail fd ++ "|" ++ policiesText fd ++ "|" ++ dbUrl fd.

Definition parse (s : string) : option FormData :=
  match split_bar EmptyString s with
  | [a; b; c; d; e; f] => Some (mkFormData a b c d e f None)
  | _ => None
  end.

Definition codec : JsonCodec FormData :=
  {| JSON_stringify := stringify; JSON_parse := parse |}.

End SampleCodec.

(** ** Worked examples: sessions of the Acme company *)

Module Scenarios.
Import Onboarding Browser.

Definition acme : FormData :=
  mkFormData "Acme" "" "Jane Doe" "a@acme.com" "" "" None.

Definition company_C1 : Reply := Resolved (mkData "C1" "Acme" 0 0).
Definition company_C2 : Reply := Resolved (mkData "C2" "Acme" 0 0).

(** The backend turning down a second registration of the same company. *)
Definition already_exists : Reply :=
  Rejected (Some 400) (Some "Company already exists").

(** A browser with an empty store, and the replies the backend will give. *)
Definition fresh (replies : list Reply) : App :=
  start (mkWorld ∅ "" replies []).

(** The user registers Acme and reaches the consent button. *)
Definition register_acme : list Action :=
  [OpenOnboarding; TypeForm acme; ClickNext].

Definition denied : URLSearchParams := [("error", "access_denied")].
Definition granted : URLSearchParams := [("code", "X")].

(** The user goes to Google and declines. *)
Definition decline : list Action :=
  [ClickSignInWithGoogle; ProviderRedirectsBack denied].

(** Back on the onboarding page, the user fills in the profile again
    and presses "Next Step". *)
Definition start_over : list Action := [TypeForm acme; ClickNext].

Definition run_sample : list Action → App → App := run (H := SampleCodec.codec).

(** A store left behind by a granted authorization, with the given form
    snapshot, and a component with a stale step. *)
Definition granted_store (snapshot : string) : gmap string string :=
  <[KEY_FORM:=snapshot]> (<[KEY_GOOGLE:="true"]> (<[KEY_COMPANY:="C1"]> ∅)).

Definition returning (snapshot : string) : World :=
  mkWorld (granted_store snapshot) "/onboarding" [] [].

Definition stale : Component := mkComponent 1 acme None false true.

(** The page after Acme is registered: step 2, consent pending. *)
Definition awaiting : Component := mkComponent 2 acme (Some "C1") false false.

(** The page after the consent was granted, with the database field
    left empty and no policies. *)
Definition connected : Component := mkComponent 2 acme (Some "C1") true false.

(** Two policy documents picked on the wizard's document step; the
    backend turns the first upload down and would take the second. *)
Definition handbook : File := mkFile "handbook.pdf" "%PDF-1".
Definition leave_policy : File := mkFile "leave.policy.txt" "Leave".

Definition on_documents : Wizard.Component :=
  Wizard.mkComponent 2 false "C1" false
    (Wizard.mkCompany "Acme" "" "Jane Doe" "a@acme.com" "" "" "" "" "")
    [Wizard.mkTextPolicy "" "" ""]
    [handbook; leave_policy]
    (Wizard.mkDbConfig "Employee Database" "Main employee data" "google_sheets" "" "")
    "".

Definition first_upload_fails : World :=
  mkWorld ∅ "/register"
    [Rejected (Some 500) None; Resolved (mkData "P2" "" 0 0)] [].

(** The replies of the end-to-end example, and the form with the sheet
    filled in. *)
Definition exchanged : Reply := Resolved (mkData "" "" 0 0).
Definition database_D1 : Reply := Resolved (mkData "D1" "Primary Employee DB" 0 0).
Definition provisioned : Reply := Resolved (mkData "" "" 10 9).

Definition acme_with_sheet : FormData :=
  mkFormData "Acme" "" "Jane Doe" "a@acme.com" "" "S1" None.

(** Ten employees of the bound source; the delivery to E7 fails. *)
Definition ten_employees : list Provisioner.Employee :=
  map (λ n, Provisioner.mkEmployee ("E" ++ pretty n) ("e" ++ pretty n ++ "@acme.com"))
      (seq 1 10).

Definition one_password (e : Provisioner.Employee) : string :=
  "pw-" ++ Provisioner.employeeRef e.

Definition refuse_E7 (e : Provisioner.Employee) (credential : string) : option string :=
  if String.eqb (Provisioner.employeeRef e) "E7" then Some "invalid_email" else None.

(** The connected page with the sheet filled in, and the backend about
    to bind it as D1 and to provision its employees. *)
Definition with_sheet : Component :=
  mkComponent 2 acme_with_sheet (Some "C1") true false.

Definition binding_then_provisioning : World :=
  mkWorld (granted_store "Acme||Jane Doe|a@acme.com||") "/onboarding"
          [database_D1; provisioned] [].

(** The store while the consent is pending: the company id and the form
    snapshot, no granted flag. *)
Definition pending : World :=
  mkWorld (<[KEY_FORM:="Acme||Jane Doe|a@acme.com||"]> (<[KEY_COMPANY:="C1"]> ∅))
          "/oauth/callback" [] [].

(** A callback page opened with an empty store. *)
Definition no_context : World := mkWorld ∅ "/oauth/callback" [] [].

End Scenarios.

(** ** The session of a signed-in user, [AuthContext] *)

Module Auth.

(** [response.data] of a login, with the fields the front end reads. *)
Record User := mkUser {
  access_token : string;
  role : string;
  employee_name : string;
  company_id : string
}.

(** The [useState] cells of [AuthProvider]. *)
Record Context := mkContext { user : option User; loading : bool }.

Definition initial : Context := mkContext None true.

Definition setUser (u : option User) : M Context unit :=
  setState (λ c, mkContext u (loading c)).
Definition setLoading (b : bool) : M Context unit :=
  setState (λ c, mkContext (user c) b).

(** What awaiting [authAPI.login(credentials)] gives. *)
Inductive LoginReply :=
  | LoginResolved (userData : User)
  | LoginRejected (status : option nat) (detail : option string).

Section WithJson.
Context `{JsonCodec User}.

(** The mount effect: "Check for existing session".  [JSON.parse] is
    not inside a [try]: on a text that does not parse the effect
    throws before [setLoading(false)]. *)
Definition restore : M Context unit :=
  do storedUser ← localStorage_getItem Api.KEY_USER;
  do token ← localStorage_getItem Api.KEY_TOKEN;
  (if truthy_opt storedUser && truthy_opt token then
     match JSON_parse (default "" storedUser) with
     | Some parsed => setUser (Some parsed)
     | None => throw None
     end
   else ret tt) >>
  setLoading false.

(** [await authAPI.login(credentials)] with the reply [r] of the
    backend: the request goes through the client of [api.js], whose
    response interceptor signs the user out on a 401 before the
    rejection reaches the caller.  The reply is given to the function,
    and the request is not entered in the trace. *)
Definition authAPI_login (r : LoginReply) : M Context User :=
  match r with
  | LoginResolved userData => ret userData
  | LoginRejected status detail =>
      if bool_decide (status = Some 401) then
        localStorage_removeItem Api.KEY_TOKEN >>
        localStorage_removeItem Api.KEY_USER >>
        set_location_href "/login" >>
        throw detail
      else throw detail
  end.

(** [login] *)
Definition login (r : LoginReply) : M Context User :=
  do userData ← authAPI_login r;
  localStorage_setItem Api.KEY_TOKEN (access_token userData) >>
  localStorage_setItem Api.KEY_USER (JSON_stringify userData) >>
  setUser (Some userData) >>
  ret userData.

End WithJson.

(** [logout] *)
Definition logout : M Context unit :=
  localStorage_removeItem Api.KEY_TOKEN >>
  localStorage_removeItem Api.KEY_USER >>
  setUser None.

(** [handleLogout] of the layout. *)
Definition handleLogout : M Context unit :=
  logout >> navigate "/login".

(** The routes of the application, as the router matched them. *)
Inductive Route := RLogin | RRegister | ROnboarding | RChat | ROther.

(** What a route renders: the spinner of [ProtectedRoute], a
    [<Navigate to=... />], or a page. *)
Inductive Element :=
  | Spinner
  | Navigate (to : string)
  | ShowLoginPage
  | ShowOnboardingPage (isPublic : bool)
  | ShowChatPage.

(** [ProtectedRoute] and [AppRoutes] of the application's entry. *)
Definition ProtectedRoute (c : Context) (children : Element) : Element :=
  if loading c then Spinner
  else match user c with
       | None => Navigate "/login"
       | Some _ => children
       end.

Definition AppRoutes (r : Route) (c : Context) : Element :=
  match r with
  | RLogin => match user c with Some _ => Navigate "/chat" | None => ShowLoginPage end
  | RRegister => ShowOnboardingPage true
  | ROnboarding => ProtectedRoute c (ShowOnboardingPage false)
  | RChat => ProtectedRoute c ShowChatPage
  | ROther => Navigate (match user c with Some _ => "/chat" | None => "/login" end)
  end.

(** The route [navigate] leads to. *)
Definition route_of (path : string) : Route :=
  if String.eqb path "/login" then RLogin
  else if String.eqb path "/register" then RRegister
  else if String.eqb path "/onboarding" then ROnboarding
  else if String.eqb path "/chat" then RChat
  else ROther.

(** The pages behind [ProtectedRoute]. *)
Definition protected (e : Element) : bool :=
  match e with
  | ShowOnboardingPage false | ShowChatPage => true
  | _ => false
  end.

End Auth.

(** ** The login page of the signed-in application, [LoginPage] *)

Module Login.

Record Form := mkForm {
  form_role : string;
  form_company_id : string;
  form_employee_id : string;
  form_password : string
}.

(** The page's [useState] cells, and the context [useAuth()] gives it. *)
Record Component := mkComponent {
  auth : Auth.Context;
  loading : bool;
  showSupport : bool;
  form : Form
}.

Definition setLoading (b : bool) : M Component unit :=
  setState (λ c, mkComponent (auth c) b (showSupport c) (form c)).
Definition setShowSupport (b : bool) : M Component unit :=
  setState (λ c, mkComponent (auth c) (loading c) b (form c)).

(** A function of the context, called from the page. *)
Definition useAuth {A} (m : M Auth.Context A) : M Component A :=
  λ s,
    match m (auth (fst s), snd s) with
    | (r, (context, w)) =>
        (r, (mkComponent context (loading (fst s)) (showSupport (fst s)) (form (fst s)), w))
    end.

Section WithJson.
Context `{JsonCodec Auth.User}.

(** [handleSubmit] with the reply [r] the login request gets; the page
    goes by the role chosen in the form. *)
Definition handleSubmit (r : Auth.LoginReply) : M Component unit :=
  do c ← getState;
  let form := form c in
  setLoading true >>
  finally
    (try_catch
       (do userData ← useAuth (Auth.login r);
        toast_success ("Welcome, " ++ Auth.employee_name userData ++ "!") >>
        if String.eqb (form_role form) "hr" || String.eqb (form_role form) "admin"
        then navigate "/onboarding"
        else navigate "/chat")
       (λ err,
         toast_error (or_else err "Login failed. Check your credentials.") >>
         setShowSupport true))
    (setLoading false).

End WithJson.

End Login.

(** ** The notification bell, [frontend/src/components/NotificationBell.jsx] *)

Module Bell.

Record Notification := mkNotification {
  id : string;
  is_read : bool;
  title : string;
  message : string;
  notification_type : string
}.

Record Component := mkComponent {
  notifications : list Notification;
  isOpen : bool
}.

Definition setNotifications (f : list Notification → list Notification)
  : M Component unit :=
  setState (λ c, mkComponent (f (notifications c)) (isOpen c)).

(** [notifications.filter((n) => !n.is_read).length] *)
Definition unreadCount (c : Component) : nat :=
  length (List.filter (λ n, negb (is_read n)) (notifications c)).

(** [notificationAPI.markRead(id)] posts to this address, without a body. *)
Definition markRead_url (id : string) : string :=
  Api.BASE ++ "/notifications/" ++ id ++ "/read".

(** [{ ...n, is_read: true }] *)
Definition read (n : Notification) : Notification :=
  mkNotification (id n) true (title n) (message n) (notification_type n).

(** [markRead]: the empty [catch] fails silently. *)
Definition markRead (id' : string) : M Component unit :=
  try_catch
    (do _ ← Api.post (markRead_url id') BEmpty;
     setNotifications (map (λ n, if String.eqb (id n) id' then read n else n)))
    (λ _, ret tt).

(** The unread notifications with the given id. *)
Definition unread_with (id' : string) (l : list Notification) : nat :=
  length (List.filter (λ n, String.eqb (id n) id' && negb (is_read n)) l).

End Bell.

(** ** The session behind the onboarding page *)

Module Session.
Import Onboarding OAuthCallback Browser.

(** The place of a request in the finalize: database binding, text
    policy, policy document, provisioning. *)
Definition request_rank (e : Event) : nat :=
  match e with
  | EvPost _ (BDatabase _ _ _ _ _) _ => 0
  | EvPost _ (BPolicyText _ _ _ _) _ => 1
  | EvPost _ (BPolicyDocument _ _ _) _ => 2
  | EvPost _ BEmpty _ => 3
  | _ => 4
  end.

(** The request goes to the endpoint of its kind under the company
    [companyId]; events that are no requests pass. *)
Definition addressed_to (companyId : string) (e : Event) : Prop :=
  match e with
  | EvPost url (BDatabase _ _ _ _ _) _ => url = databases_url companyId
  | EvPost url (BPolicyText _ _ _ _) _ => url = policies_text_url companyId
  | EvPost url (BPolicyDocument _ _ _) _ => url = policies_document_url companyId
  | EvPost url BEmpty _ => ∃ dbId, url = provision_url companyId dbId
  | EvPost _ _ _ => False
  | _ => True
  end.

(** The finalize got to [navigate('/login')]. *)
Definition reaches_login (evs : list Event) : bool :=
  existsb (λ e, match e with EvNavigate path => String.eqb path "/login" | _ => false end)
          evs.

(** A request that was not rejected; events that are no requests pass. *)
Definition answered (e : Event) : bool :=
  match e with
  | EvPost _ _ (Rejected _ _) => false
  | _ => true
  end.

(** The store with the three session keys removed. *)
Definition cleared (store : gmap string string) : gmap string string :=
  delete KEY_FORM (delete KEY_GOOGLE (delete KEY_COMPANY store)).

(** The callback gets as far as the exchange, and the exchange resolves. *)
Definition exchange_succeeds (params : URLSearchParams) (w : World) : bool :=
  negb (truthy_opt (params_get "error" params))
  && truthy_opt (params_get "code" params)
  && truthy_opt (localStorage w !! KEY_COMPANY)
  && Wizard.resolved (next_reply w).

(** What holds of a mounted onboarding page between two actions: the
    browser is on its route, no request is pending, and a page that
    shows the resource fields holds a company id and has the granted
    flag behind it in the store. *)
Definition session_backed (s : App) : Prop :=
  match page s with
  | OnboardingPage c =>
      location (world s) = "/onboarding"
      ∧ isLoading c = false
      ∧ (googleConnected c = true →
         truthy_opt (globalCompanyId c) = true
         ∧ localStorage (world s) !! KEY_GOOGLE = Some "true")
  | _ => True
  end.

End Session.

(** ** What a request through the client leaves behind *)

Module Client.

(** The store after the response interceptor has signed the user out. *)
Definition signed_out_store (store : gmap string string) : gmap string string :=
  delete Api.KEY_USER (delete Api.KEY_TOKEN store).

(** [error.response?.status === 401] *)
Definition unauthorized (r : Reply) : bool :=
  match r with
  | Rejected status _ => bool_decide (status = Some 401)
  | Resolved _ => false
  end.

(** The world once [api.post(url, body)] has been awaited: the request
    is in the trace with its reply, and a 401 has signed the user out. *)
Definition after_post (url : string) (body : Body) (w : World) : World :=
  let r := next_reply w in
  mkWorld (if unauthorized r then signed_out_store (localStorage w) else localStorage w)
          (if unauthorized r then "/login" else location w)
          (tail (backend w))
          (trace w ++ EvPost url body r
             :: match r with
                | Rejected status _ => Api.signed_out status
                | Resolved _ => []
                end).

(** What awaiting a reply gives the caller. *)
Definition awaited (r : Reply) : option string + unit :=
  match r with
  | Resolved _ => inr tt
  | Rejected _ detail => inl detail
  end.

End Client.

(** ** The wizard between two actions *)

Module WizardFacts.
Import Wizard.
Export Client.

(** A text policy the loop of [handleSaveTextPolicies] sends. *)
Definition complete (policy : TextPolicy) : bool :=
  truthy (title policy) && truthy (content policy).

(** The body [handleSaveTextPolicies] sends for a policy. *)
Definition policy_body (policy : TextPolicy) : Body :=
  BPolicyText (title policy) (Some (description policy)) "text" (content policy).

(** The items a loop with one request per item gets to, each with the
    reply it receives: in order, one reply each, none after a rejected
    one. *)
Fixpoint tried {A} (items : list A) (replies : list Reply) : list (A * Reply) :=
  match items with
  | [] => []
  | x :: items' =>
      let r := match replies with r :: _ => r | [] => Rejected None None end in
      (x, r) :: match r with
                | Resolved _ => tried items' (tail replies)
                | Rejected _ _ => []
                end
  end.

(** The request for a policy, with the reply it got. *)
Definition policy_event (companyId : string) (x : TextPolicy * Reply) : Event :=
  EvPost (Api.policies_text_url companyId) (policy_body (fst x)) (snd x).

(** The fields of the wizard no request handler writes, and the busy
    flag it clears on its way out. *)
Definition kept (c c' : Component) : Prop :=
  loading c' = false
  ∧ company c' = company c
  ∧ textPolicies c' = textPolicies c
  ∧ docFiles c' = docFiles c
  ∧ dbConfig c' = dbConfig c.

(** The store and the location after a handler: as they were, or signed
    out by the interceptor. *)
Definition store_kept (w w' : World) : Prop :=
  localStorage w' = localStorage w ∧ location w' = location w.

(** The interceptor has signed the user out between [w] and [w']. *)
Definition store_signed_out (w w' : World) : Prop :=
  localStorage w' = signed_out_store (localStorage w) ∧ location w' = "/login".

(** What a request handler of the wizard that may advance to step [k]
    does to the component and the store: the step only advances with
    the store untouched, and a sign-out leaves the step alone. *)
Definition frame (k : nat) (c : Component) (w : World)
    (c' : Component) (w' : World) : Prop :=
  kept c c'
  ∧ registrationDone c' = registrationDone c
  ∧ (store_kept w w' ∧ (step c' = step c ∨ step c' = k)
     ∨ store_signed_out w w' ∧ step c' = step c).

(** A provisioning request that resolved. *)
Definition resolved_provision (e : Event) : bool :=
  match e with
  | EvPost _ BEmpty (Resolved _) => true
  | _ => false
  end.

(** The provisioning requests in a trace that resolved. *)
Definition provisioned_count (t : list Event) : nat :=
  length (List.filter resolved_provision t).

(** What holds of the wizard between two actions. *)
Definition settled (s : App) : Prop :=
  match mounted s with
  | Some c => loading c = false ∧ textPolicies c ≠ [] ∧ (step c ≤ 4)%nat
  | None => True
  end.

(** The employees are provisioned at most once: a provisioning request
    has resolved exactly when the wizard shows its final screen. *)
Definition provisioned_once (s : App) : Prop :=
  (provisioned_count (trace (world s)) ≤ 1)%nat
  ∧ match mounted s with
    | Some c =>
        provisioned_count (trace (world s)) = if registrationDone c then 1 else 0
    | None => True
    end.

(** The wizard keeps nothing in the store: the store is the one it
    started with, or that one signed out, with the browser sent to the
    login page. *)
Definition store_of (store : gmap string string) (s : App) : Prop :=
  localStorage (world s) = store
  ∨ localStorage (world s) = signed_out_store store
    ∧ location (world s) = "/login".

(** While the wizard is showing, the browser is on its route. *)
Definition stays (path : string) (s : App) : Prop :=
  match mounted s with
  | Some _ => location (world s) = path
  | None => True
  end.


(** All of it together, for a wizard opened on [store] at [path]. *)
Definition wizard_inv (store : gmap string string) (path : string) (s : App) : Prop :=
  settled s ∧ provisioned_once s ∧ store_of store s ∧ stays path s.

End WizardFacts.

(** ** Stand-ins and sessions for the worked examples of the session *)

Module SampleUserCodec.
Import Auth.

(** The four fields of a user, separated by bars. *)
Definition stringify (u : User) : string :=
  access_token u ++ "|" ++ role u ++ "|" ++ employee_name u ++ "|" ++ company_id u.

Definition parse (s : string) : option User :=
  match SampleCodec.split_bar EmptyString s with
  | [a; b; c; d] => Some (mkUser a b c d)
  | _ => None
  end.

Definition codec : JsonCodec User :=
  {| JSON_stringify := stringify; JSON_parse := parse |}.

End SampleUserCodec.

Module Sessions.
Import Onboarding Browser Scenarios.

(** The browser before Acme is registered, the backend about to answer
    with C1, and then with the exchange. *)
Definition before_acme : World := mkWorld ∅ "" [company_C1] [].
Definition before_consent : World := mkWorld ∅ "" [company_C1; exchanged] [].

(** The profile step with Acme typed in and no company id yet. *)
Definition typed : Component := mkComponent 1 acme None false false.

Definition registrar_answers : World := mkWorld ∅ "/onboarding" [company_C1] [].

(** A store left behind by a granted authorization of Acme. *)
Definition granted_acme : World := returning "Acme||Jane Doe|a@acme.com||".

(** The wizard opened by a visitor, the backend failing once. *)
Definition failing_once : Wizard.App :=
  Wizard.start None ∅ "/register" [Rejected (Some 500) None].


(** Jane, signed in as HR of C1, and a browser whose token the backend
    no longer accepts. *)
Definition jane : Auth.User := Auth.mkUser "tok-1" "hr" "Jane Doe" "C1".

Definition signed_in : Auth.Context := Auth.mkContext (Some jane) false.

Definition expired : World :=
  mkWorld (<[Api.KEY_USER:="tok-1|hr|Jane Doe|C1"]> (<[Api.KEY_TOKEN:="tok-1"]> ∅))
          "/chat" [Rejected (Some 401) (Some "Token expired")] [].

End Sessions.

(** * Properties of the workflow *)

(** Unfold the handler combinators and compute. *)
Ltac run_handler :=
  repeat (progress (unfold bind, ret, throw, try_catch, finally, getState, setState,
    getWorld, setWorld, emit, toast_error, toast_success, toast_loading,
    localStorage_getItem, localStorage_setItem, localStorage_removeItem,
    navigate, set_location_href, log; simpl)).

(** ** Resuming after the redirect *)

Section Resumption.
Import Onboarding.
Context `{JsonCodec FormData}.

Lemma restore_granted (c : Component) (w : World) (cid : string) :
  localStorage w !! KEY_COMPANY = Some cid →
  cid ≠ "" →
  localStorage w !! KEY_GOOGLE = Some "true" →
  ∃ fd, restore (c, w) = (inr tt, (mkComponent 2 fd (Some cid) true (isLoading c), w))
        ∧ (fd = formData c
           ∨ ∃ text, localStorage w !! KEY_FORM = Some text ∧ JSON_parse text = Some fd).
Proof.
  intros Hcid Hne Hgoogle.
  unfold restore, bind, localStorage_getItem; simpl.
  rewrite Hcid, Hgoogle; simpl.
  destruct cid as [|a cid']; [congruence|]; simpl.
  destruct (localStorage w !! KEY_FORM) as [text|] eqn:Hform; simpl.
  - destruct text as [|b text']; simpl.
    + exists (formData c). split; [reflexivity | by left].
    + unfold try_catch, bind; simpl.
      destruct (JSON_parse (String b text')) as [fd|] eqn:Hparse; simpl.
      * exists fd. split; [reflexivity|]. right. eauto.
      * exists (formData c). split; [reflexivity | by left].
  - exists (formData c). split; [reflexivity | by left].
Qed.

(** C1. Whenever the durable store holds a company id and the granted
    flag, the mount effect puts the page on the resource-configuration
    screen, whatever the component held before (its [step] included)
    and whatever else the store holds; the store is left as it was. *)
Theorem resume_yields_ConfiguringResources (c : Component) (w : World) (cid : string) :
  localStorage w !! KEY_COMPANY = Some cid →
  cid ≠ "" →
  localStorage w !! KEY_GOOGLE = Some "true" →
  ∃ c', restore (c, w) = (inr tt, (c', w))
        ∧ currentStep c' = ConfiguringResources
        ∧ globalCompanyId c' = Some cid
        ∧ googleConnected c' = true.
Proof.
  intros Hcid Hne Hgoogle.
  destruct (restore_granted c w cid Hcid Hne Hgoogle) as (fd & Hrun & _).
  eexists. split; [exact Hrun|]. repeat split.
Qed.

(** C10. When the stored form snapshot does not parse, the mount effect
    swallows the failure: the page still takes the company id from the
    store, still shows the workspace as connected and still moves to
    step 2, with the form fields of a fresh page; the store is left as
    it was. *)
Theorem corrupt_snapshot_is_swallowed (w : World) (cid snapshot : string) :
  localStorage w !! KEY_COMPANY = Some cid →
  cid ≠ "" →
  localStorage w !! KEY_GOOGLE = Some "true" →
  localStorage w !! KEY_FORM = Some snapshot →
  JSON_parse snapshot = None →
  restore (initial, w)
  = (inr tt, (mkComponent 2 initialFormData (Some cid) true false, w))
  ∧ currentStep (mkComponent 2 initialFormData (Some cid) true false)
    = ConfiguringResources.
Proof.
  intros Hcid Hne Hgoogle Hform Hparse.
  destruct (restore_granted initial w cid Hcid Hne Hgoogle) as (fd & Hrun & Hfd).
  split; [|reflexivity].
  rewrite Hrun. destruct Hfd as [-> | (text & Htext & Hsome)]; [reflexivity|].
  rewrite Hform in Htext. injection Htext as <-. congruence.
Qed.

End Resumption.

(** ** Registering the company: [handleNext] *)

Section Registration.
Import Onboarding.
Context `{JsonCodec FormData}.

Lemma handleNext_invalid (c : Component) (w : World) :
  step c = 1 →
  profile_incomplete (formData c) = true →
  handleNext (c, w) = (inr tt, (c, log (EvToast ToastError MSG_REQUIRED) w)).
Proof.
  intros Hstep Hbad. unfold handleNext, bind, getState; simpl.
  rewrite Hstep, Hbad; simpl.
  destruct c; reflexivity.
Qed.

(** With a company id at hand the registrar is left alone. *)
Lemma handleNext_known (c : Component) (w : World) :
  Nat.eqb (step c) 1 && profile_incomplete (formData c) = false →
  truthy_opt (globalCompanyId c) = true →
  handleNext (c, w)
  = (inr tt, (mkComponent 2 (formData c) (globalCompanyId c) (googleConnected c)
                          (isLoading c), w)).
Proof.
  intros Hok Hid. unfold handleNext, bind, getState; simpl.
  rewrite Hok, Hid; simpl.
  destruct w; reflexivity.
Qed.

(** Without one, exactly one request goes to the registrar; its reply
    decides the rest. *)
Lemma handleNext_registers (c : Component) (w : World) :
  Nat.eqb (step c) 1 && profile_incomplete (formData c) = false →
  truthy_opt (globalCompanyId c) = false →
  let fd := formData c in
  let post := EvPost register_url
    (BCompany (companyName fd) (industry fd) (contactName fd) (contactEmail fd))
    (next_reply w) in
  handleNext (c, w)
  = match next_reply w with
    | Resolved d =>
        (inr tt,
         (mkComponent 2 fd (Some (data_id d)) (googleConnected c) false,
          mkWorld (<[KEY_FORM:=JSON_stringify fd]> (<[KEY_COMPANY:=data_id d]> (localStorage w)))
                  (location w) (tail (backend w))
                  (trace w ++ [post; EvSetItem KEY_COMPANY (data_id d);
                               EvSetItem KEY_FORM (JSON_stringify fd)])%list))
    | Rejected _ detail =>
        (inr tt,
         (mkComponent (step c) fd (globalCompanyId c) (googleConnected c) false,
          mkWorld (localStorage w) (location w) (tail (backend w))
                  (trace w ++ [post;
                               EvToast ToastError (or_else detail MSG_REGISTRATION_FAILED)])%list))
    end.
Proof.
  intros Hok Hid. unfold handleNext, bind, getState; simpl.
  rewrite Hok, Hid; simpl.
  unfold finally, try_catch, bind, axios_post; simpl.
  destruct (next_reply w) as [d | st detail]; simpl;
    unfold log; simpl; rewrite <- ?app_assoc; reflexivity.
Qed.

(** C8. On the profile step, a profile with an empty company name or an
    empty contact e-mail is turned down on the spot: the handler only
    reports the validation error, sends no request and changes neither
    the component nor the store.  A profile with both fields filled in
    passes: with a company id at hand the page moves to step 2, and
    without one the registration request is sent and the page moves to
    step 2 when it resolves. *)
Theorem handleNext_validation (c : Component) (w : World) :
  step c = 1 →
  (profile_incomplete (formData c) = true →
   handleNext (c, w) = (inr tt, (c, log (EvToast ToastError MSG_REQUIRED) w)))
  ∧ (profile_incomplete (formData c) = false →
     ∃ c' w',
       handleNext (c, w) = (inr tt, (c', w'))
       ∧ if truthy_opt (globalCompanyId c)
         then step c' = 2 ∧ w' = w
         else ∃ rest,
                trace w'
                = (trace w ++
                   EvPost register_url
                     (BCompany (companyName (formData c)) (industry (formData c))
                               (contactName (formData c)) (contactEmail (formData c)))
                     (next_reply w) :: rest)%list
                ∧ ((∃ d, next_reply w = Resolved d) → step c' = 2)).
Proof.
  intros Hstep. split.
  - intros Hbad. by apply handleNext_invalid.
  - intros Hgood.
    assert (Nat.eqb (step c) 1 && profile_incomplete (formData c) = false) as Hok
      by (rewrite Hgood; apply andb_false_r).
    destruct (truthy_opt (globalCompanyId c)) eqn:Hid.
    + rewrite (handleNext_known c w Hok Hid). eauto.
    + pose proof (handleNext_registers c w Hok Hid) as Hrun. simpl in Hrun.
      rewrite Hrun. destruct (next_reply w) as [d | st detail]; simpl.
      * do 2 eexists. split; [reflexivity|]. simpl. eexists. split; [reflexivity|]. done.
      * do 2 eexists. split; [reflexivity|]. simpl. eexists. split; [reflexivity|].
        intros [d Hd]. discriminate.
Qed.

End Registration.

(** ** Coming back from the provider: [processOAuth] *)

Section Callback.
Import Onboarding OAuthCallback Browser.
Context `{JsonCodec FormData}.

Lemma processOAuth_failure (params : URLSearchParams) (w : World) :
  truthy_opt (params_get "error" params) = true
  ∨ truthy_opt (params_get "code" params) = false
  ∨ truthy_opt (localStorage w !! KEY_COMPANY) = false →
  processOAuth params (tt, w)
  = (inr tt, (tt, turned_back w (callback_failure params))).
Proof.
  intros Hcase. unfold processOAuth, callback_failure, turned_back.
  destruct (truthy_opt (params_get "error" params)) eqn:Herr; simpl.
  - run_handler. by rewrite <- app_assoc.
  - destruct (truthy_opt (params_get "code" params)) eqn:Hcode; simpl.
    + destruct Hcase as [? | [? | Hctx]]; try discriminate.
      run_handler. rewrite Hctx; simpl. by rewrite <- app_assoc.
    + run_handler. by rewrite <- app_assoc.
Qed.

Lemma turned_back_fails_with (w : World) (f : Failure) : fails_with f w (turned_back w f).
Proof. reflexivity. Qed.

(** With a code, no error indicator and a company id in the store, the
    code is exchanged; the granted flag is set only when the exchange
    resolves. *)
Lemma processOAuth_exchange (params : URLSearchParams) (w : World) (code cid : string) :
  truthy_opt (params_get "error" params) = false →
  params_get "code" params = Some code → code ≠ "" →
  localStorage w !! KEY_COMPANY = Some cid → cid ≠ "" →
  let exchange := EvPost exchange_url (BOAuthExchange code cid) (next_reply w) in
  processOAuth params (tt, w)
  = (inr tt,
     (tt,
      match next_reply w with
      | Resolved _ =>
          mkWorld (<[KEY_GOOGLE:="true"]> (localStorage w)) "/onboarding"
                  (tail (backend w))
                  (trace w ++ [EvToast ToastLoading MSG_CONNECTING; exchange;
                               EvToast ToastSuccess MSG_CONNECTED;
                               EvSetItem KEY_GOOGLE "true";
                               EvNavigate "/onboarding"])%list
      | Rejected _ detail =>
          mkWorld (localStorage w) "/onboarding" (tail (backend w))
                  (trace w ++ [EvToast ToastLoading MSG_CONNECTING; exchange;
                               EvToast ToastError (or_else detail MSG_EXCHANGE_FAILED);
                               EvNavigate "/onboarding"])%list
      end)).
Proof.
  intros Herr Hcode Hne Hcid Hne'. unfold processOAuth.
  rewrite Herr, Hcode. destruct code as [|a code']; [done|]. simpl.
  run_handler. rewrite Hcid. destruct cid as [|b cid']; [done|]. simpl.
  unfold axios_post, next_reply; simpl.
  destruct (backend w) as [|[d | status detail] replies]; run_handler;
    by rewrite <- !app_assoc.
Qed.

(** The step a freshly mounted onboarding page shows is read off the
    store: resource configuration when the store holds a company id and
    the granted flag, the profile step otherwise. *)
Lemma mount_shows (w : World) :
  showing (mount_onboarding w)
  = Some (if truthy_opt (localStorage w !! KEY_COMPANY)
             && bool_decide (localStorage w !! KEY_GOOGLE = Some "true")
          then ConfiguringResources else CollectingProfile).
Proof.
  unfold mount_onboarding, restore, bind, localStorage_getItem; simpl.
  destruct (truthy_opt (localStorage w !! KEY_COMPANY)); simpl; [|reflexivity].
  destruct (bool_decide (localStorage w !! KEY_GOOGLE = Some "true")); simpl;
    [|reflexivity].
  destruct (truthy_opt (localStorage w !! KEY_FORM)); simpl; [|reflexivity].
  unfold try_catch, bind, JSON_parse_or_throw.
  destruct (localStorage w !! KEY_FORM) as [text|]; simpl; [|reflexivity].
  destruct (JSON_parse text); reflexivity.
Qed.

(** C4, as the code has it. A callback that carries an error indicator
    fails with [AuthorizationDenied]: the page reports the denial and
    sends the user back to the onboarding page, no request is sent and
    the store, the company id with it, is left as it was.  The
    onboarding page then mounts afresh and reads its step off the
    store: the profile step, unless the store already holds the granted
    flag. *)
Theorem denied_callback_preserves_session (params : URLSearchParams) (w : World) :
  truthy_opt (params_get "error" params) = true →
  ∃ w',
    processOAuth params (tt, w) = (inr tt, (tt, w'))
    ∧ fails_with AuthorizationDenied w w'
    ∧ localStorage w' = localStorage w
    ∧ backend w' = backend w
    ∧ location w' = "/onboarding"
    ∧ showing (mount_onboarding w')
      = Some (if truthy_opt (localStorage w !! KEY_COMPANY)
                 && bool_decide (localStorage w !! KEY_GOOGLE = Some "true")
              then ConfiguringResources else CollectingProfile).
Proof.
  intros Herr. exists (turned_back w AuthorizationDenied).
  rewrite processOAuth_failure by auto.
  unfold callback_failure. rewrite Herr.
  split; [reflexivity|]. split; [apply turned_back_fails_with|].
  do 3 (split; [reflexivity|]).
  by rewrite mount_shows.
Qed.

(** C5, as the code has it. A callback that arrives when the store
    holds no company id fails without touching the store and without
    sending a request.  The checks run in the order error indicator,
    code, company id: the failure is [AuthorizationMissingContext] when
    the callback carries a code and no error indicator, and it is the
    denial or the missing code otherwise. *)
Theorem callback_without_context_fails (params : URLSearchParams) (w : World) :
  truthy_opt (localStorage w !! KEY_COMPANY) = false →
  ∃ w',
    processOAuth params (tt, w) = (inr tt, (tt, w'))
    ∧ localStorage w' = localStorage w
    ∧ backend w' = backend w
    ∧ fails_with (if truthy_opt (params_get "error" params) then AuthorizationDenied
                  else if truthy_opt (params_get "code" params)
                       then AuthorizationMissingContext
                       else AuthorizationCodeAbsent) w w'.
Proof.
  intros Hctx. exists (turned_back w (callback_failure params)).
  rewrite processOAuth_failure by auto.
  split; [reflexivity|]. do 2 (split; [reflexivity|]).
  apply turned_back_fails_with.
Qed.

End Callback.

(** ** Finalising: [handleSubmit] *)

Section Finalize.
Import Onboarding.
Context `{JsonCodec FormData}.

(** [handleSubmit] either ends on the login page, or leaves the store
    and the location alone; the company id the component holds is never
    touched. *)
Lemma handleSubmit_outcome (c : Component) (w : World) :
  ∃ c' w',
    handleSubmit (c, w) = (inr tt, (c', w'))
    ∧ globalCompanyId c' = globalCompanyId c
    ∧ (location w' = "/login"
       ∨ localStorage w' = localStorage w ∧ location w' = location w).
Proof.
  unfold handleSubmit. run_handler.
  destruct (googleConnected c); simpl; [|eauto 10].
  unfold axios_post; simpl.
  destruct (truthy (dbUrl (formData c))); simpl;
  destruct (truthy (trim (policiesText (formData c)))); simpl;
  destruct (policyFile (formData c)); simpl;
  unfold next_reply; simpl;
  destruct (backend w) as [|[d1|? ?] [|[d2|? ?] [|[d3|? ?] [|[d4|? ?] ?]]]]; simpl;
  try (destruct (truthy (data_id d1)); simpl);
  eauto 10.
Qed.

Lemma handleSubmit_events (c : Component) (w : World) :
  ∃ c' w' evs,
    handleSubmit (c, w) = (inr tt, (c', w'))
    ∧ trace w' = (trace w ++ evs)%list
    ∧ provision_follows_binding c evs
    ∧ success_needs_binding c evs
    ∧ stops_at_rejection evs
    ∧ ((∃ url body status detail, EvPost url body (Rejected status detail) ∈ evs) →
       localStorage w' = localStorage w ∧ location w' = location w).
Proof.
  unfold handleSubmit, provision_follows_binding, success_needs_binding,
    stops_at_rejection, database_request.
  run_handler.
  destruct (googleConnected c); simpl.
  2: { do 3 eexists. split; [reflexivity|]. split; [reflexivity|].
       split; [|split; [|split]].
       - intros url r Hin. apply list_elem_of_singleton in Hin. discriminate.
       - intros _ Hin. apply list_elem_of_singleton in Hin. discriminate.
       - intros url body st det Hin. apply list_elem_of_singleton in Hin. discriminate.
       - intros (url & body & st & det & Hin).
         apply list_elem_of_singleton in Hin. discriminate. }
  unfold axios_post; simpl.
  destruct (truthy (dbUrl (formData c))); simpl;
  destruct (truthy (trim (policiesText (formData c)))); simpl;
  destruct (policyFile (formData c)); simpl;
  unfold next_reply; simpl;
  destruct (backend w) as [|[d1|? ?] [|[d2|? ?] [|[d3|? ?] [|[d4|? ?] ?]]]]; simpl;
  try (destruct (truthy (data_id d1)); simpl);
  (do 3 eexists; split; [reflexivity|]; simpl;
   split; [rewrite <- ?app_assoc; simpl; reflexivity|];
   split; [|split; [|split]];
   [ intros url r Hin;
     repeat (apply elem_of_cons in Hin as [Hin|Hin];
             [try discriminate; injection Hin as -> ->;
              eexists; repeat split; reflexivity|]);
     by apply elem_of_nil in Hin
   | intros Hdb Hin; try discriminate Hdb;
     repeat (apply elem_of_cons in Hin as [Hin|Hin];
             [try discriminate; eexists; reflexivity|]);
     by apply elem_of_nil in Hin
   | intros url body st det Hin;
     repeat (apply elem_of_cons in Hin as [Hin|Hin];
             [try discriminate; injection Hin as -> -> -> ->;
              first [by exists [] | by eexists [_] | by eexists [_; _]
                    | by eexists [_; _; _] | by eexists [_; _; _; _]]|]);
     by apply elem_of_nil in Hin
   | intros (url & body & st & det & Hin);
     repeat (apply elem_of_cons in Hin as [Hin|Hin];
             [try discriminate; split; reflexivity|]);
     by apply elem_of_nil in Hin ]).
Qed.

(** With a database and no policies the finalize binds, provisions the
    connection the binding gave and, when both resolve, succeeds. *)
Lemma handleSubmit_database_only (c : Component) (w : World) (d p : Data)
    (rest : list Reply) :
  googleConnected c = true →
  form_submits c = true →
  truthy (trim (policiesText (formData c))) = false →
  policyFile (formData c) = None →
  backend w = Resolved d :: Resolved p :: rest →
  truthy (data_id d) = true →
  ∃ c' w',
    handleSubmit (c, w) = (inr tt, (c', w'))
    ∧ posts (trace w')
      = (posts (trace w) ++ [database_request c (Resolved d);
                             provision_request c (data_id d) (Resolved p)])%list
    ∧ location w' = "/login"
    ∧ backend w' = rest.
Proof.
  intros Hg Hdb Htext Hfile Hreplies Hid.
  unfold form_submits in Hdb.
  unfold handleSubmit, database_request, provision_request. run_handler.
  rewrite Hg, Hdb, Htext, Hfile; simpl.
  unfold axios_post, next_reply; simpl. rewrite Hreplies; simpl. rewrite Hid; simpl.
  do 2 eexists. split; [reflexivity|]. simpl.
  split; [|by split].
  rewrite <- !app_assoc. unfold posts. by rewrite filter_app.
Qed.

End Finalize.

(** ** The browser: what holds along every run *)

Section Runs.
Import Onboarding Browser.
Context `{JsonCodec FormData}.

Lemma after_handler_persisted r c w :
  (truthy_opt (globalCompanyId c) = true →
   localStorage w !! KEY_COMPANY = globalCompanyId c) →
  company_persisted (after_handler (r, (c, w))).
Proof.
  intros Hc. unfold after_handler, company_persisted.
  destruct (String.eqb (location w) "/onboarding"); simpl; [exact Hc|].
  destruct (String.eqb (location w) "/login"); exact I.
Qed.

Lemma mount_persisted (w : World) : company_persisted (mount_onboarding w).
Proof.
  unfold mount_onboarding, company_persisted, restore. run_handler.
  destruct (truthy_opt (localStorage w !! KEY_COMPANY)) eqn:Hcid; simpl;
    [|discriminate].
  destruct (bool_decide (localStorage w !! KEY_GOOGLE = Some "true")); simpl;
    [|discriminate].
  destruct (truthy_opt (localStorage w !! KEY_FORM)); simpl; [|done].
  unfold JSON_parse_or_throw.
  destruct (localStorage w !! KEY_FORM) as [text|]; simpl; [|done].
  destruct (JSON_parse text); done.
Qed.

Lemma handleNext_persisted (c : Component) (w : World) :
  (truthy_opt (globalCompanyId c) = true →
   localStorage w !! KEY_COMPANY = globalCompanyId c) →
  company_persisted (after_handler (handleNext (c, w))).
Proof.
  intros Hc.
  destruct (Nat.eqb (step c) 1 && profile_incomplete (formData c)) eqn:Hok.
  - apply andb_prop in Hok as [Hstep Hbad]. apply Nat.eqb_eq in Hstep.
    rewrite (handleNext_invalid c w Hstep Hbad). by apply after_handler_persisted.
  - destruct (truthy_opt (globalCompanyId c)) eqn:Hid.
    + rewrite (handleNext_known c w Hok Hid). apply after_handler_persisted; simpl.
      intros _. by apply Hc.
    + pose proof (handleNext_registers c w Hok Hid) as Hrun. simpl in Hrun.
      rewrite Hrun. destruct (next_reply w); apply after_handler_persisted; simpl.
      * intros _. rewrite lookup_insert_ne by done. apply lookup_insert_eq.
      * by rewrite Hid.
Qed.

Lemma handleGoogleOAuth_run (c : Component) (w : World) :
  handleGoogleOAuth (c, w)
  = (inr tt,
     (c, if truthy_opt (globalCompanyId c)
         then mkWorld (<[KEY_FORM:=JSON_stringify (formData c)]> (localStorage w))
                      oauthUrl (backend w)
                      (trace w ++ [EvSetItem KEY_FORM (JSON_stringify (formData c));
                                   EvLocationHref oauthUrl])%list
         else w)).
Proof.
  unfold handleGoogleOAuth. run_handler.
  destruct (truthy_opt (globalCompanyId c)); simpl.
  - by rewrite <- app_assoc.
  - by destruct w.
Qed.

(** Every step keeps the company id of the page in the store. *)
Lemma app_step_persisted (a : Action) (s : App) :
  company_persisted s → company_persisted (app_step a s).
Proof.
  intros Hs. destruct s as [pg w]. unfold app_step; simpl.
  destruct a; destruct pg as [c| |];
    try exact Hs; try apply mount_persisted; try exact I;
    try (match goal with
         | |- context [OAuthCallback.processOAuth ?p ?x] =>
             destruct (OAuthCallback.processOAuth p x) as [r [[] w']];
             destruct (String.eqb (location w') "/onboarding");
             [apply mount_persisted | exact I]
         end).
  - by apply (after_handler_persisted (inr tt)).
  - destruct (Nat.eqb (step c) 1); [|exact Hs]. by apply handleNext_persisted.
  - destruct (negb (Nat.eqb (step c) 1) && googleConnected c); [|exact Hs].
    by apply (after_handler_persisted (inr tt)).
  - destruct (negb (Nat.eqb (step c) 1) && negb (googleConnected c)); [|exact Hs].
    rewrite handleGoogleOAuth_run. apply after_handler_persisted.
    intros Hid. rewrite Hid; simpl. rewrite lookup_insert_ne by done. by apply Hs.
  - destruct (negb (Nat.eqb (step c) 1) && googleConnected c); [|exact Hs].
    destruct (handleSubmit_outcome c w) as (c' & w' & -> & Hgid & Hout).
    unfold after_handler, company_persisted.
    destruct Hout as [Hlogin | [Hls Hloc]].
    + rewrite Hlogin. exact I.
    + destruct (String.eqb (location w') "/onboarding"); simpl.
      * rewrite Hgid, Hls. exact Hs.
      * destruct (String.eqb (location w') "/login"); exact I.
Qed.

Lemma run_persisted (actions : list Action) (s : App) :
  company_persisted s → company_persisted (run actions s).
Proof.
  revert s. induction actions as [|a actions IH]; intros s Hs; [exact Hs|].
  simpl. apply IH. by apply app_step_persisted.
Qed.

End Runs.

(** ** Leaving for the provider, and registering once *)

Section Redirect.
Import Onboarding Browser.
Context `{JsonCodec FormData}.

(** C2. On every page the browser can reach, [handleGoogleOAuth]
    navigates away only with the resumption state in the durable store:
    the company id the page holds is in the store when the handler
    starts, the form snapshot is written next, and only then is the
    location set to the provider's address; the trace shows the write
    before the navigation.  With no company id at hand the handler does
    nothing and the browser stays. *)
Theorem redirect_after_persist (actions : list Action) (w0 : World) (c : Component) :
  page (run actions (start w0)) = OnboardingPage c →
  let w := world (run actions (start w0)) in
  let snapshot := JSON_stringify (formData c) in
  ∃ w',
    handleGoogleOAuth (c, w) = (inr tt, (c, w'))
    ∧ if truthy_opt (globalCompanyId c)
      then localStorage w !! KEY_COMPANY = globalCompanyId c
           ∧ trace w' = (trace w ++ [EvSetItem KEY_FORM snapshot;
                                     EvLocationHref oauthUrl])%list
           ∧ localStorage w' !! KEY_COMPANY = globalCompanyId c
           ∧ localStorage w' !! KEY_FORM = Some snapshot
           ∧ location w' = oauthUrl
      else w' = w.
Proof.
  intros Hpage w snapshot.
  pose proof (run_persisted actions (start w0) I) as Hinv.
  unfold company_persisted in Hinv. rewrite Hpage in Hinv. fold w in Hinv.
  rewrite handleGoogleOAuth_run. eexists. split; [reflexivity|].
  destruct (truthy_opt (globalCompanyId c)) eqn:Hid; [|reflexivity].
  simpl. split; [by apply Hinv|]. split; [reflexivity|].
  split; [rewrite lookup_insert_ne by done; by apply Hinv|].
  split; [apply lookup_insert_eq | reflexivity].
Qed.

Lemma registrations_snoc_other (t : list Event) (e : Event) :
  is_register e = false → registrations (t ++ [e]) = registrations t.
Proof.
  intros He. unfold registrations. rewrite filter_app.
  rewrite (filter_cons_False _ e []) by (rewrite He; auto).
  apply app_nil_r.
Qed.

(** One step that stays on a page holding a company id: the id stays,
    the store stays, and the registrar is not called. *)
Lemma page_local_step (a : Action) (c : Component) (w : World) :
  page_local a →
  location w = "/onboarding" →
  truthy_opt (globalCompanyId c) = true →
  ∃ c' w',
    app_step a (mkApp (OnboardingPage c) w) = mkApp (OnboardingPage c') w'
    ∧ globalCompanyId c' = globalCompanyId c
    ∧ location w' = "/onboarding"
    ∧ registrations (trace w') = registrations (trace w)
    ∧ localStorage w' = localStorage w.
Proof.
  intros Hlocal Hloc Hid. destruct a; try contradiction; unfold app_step; simpl.
  - unfold after_handler, setFormData, setState; simpl. rewrite Hloc; simpl. eauto 10.
  - destruct (Nat.eqb (step c) 1) eqn:Hstep; [|eauto 10].
    destruct (profile_incomplete (formData c)) eqn:Hbad.
    + apply Nat.eqb_eq in Hstep. rewrite (handleNext_invalid c w Hstep Hbad).
      unfold after_handler; simpl. rewrite Hloc; simpl.
      do 2 eexists. split; [reflexivity|]. repeat split; try done.
      by apply registrations_snoc_other.
    + rewrite handleNext_known by (by rewrite ?Hstep, ?Hbad).
      unfold after_handler. rewrite Hloc; simpl. eauto 10.
  - destruct (negb (Nat.eqb (step c) 1) && googleConnected c); [|eauto 10].
    unfold after_handler, setStep, setState; simpl. rewrite Hloc; simpl. eauto 10.
Qed.

(** C3, as the code has it. A page that holds a company id never calls
    the registrar again: along any sequence of typing, "Back" and
    "Next Step" the registrar receives no request and the company id of
    the page and of the store stay as they are.  A page holds the id
    once its registration has resolved, and again after it is mounted
    from a store that holds the id and the granted flag. *)
Theorem registration_short_circuits (c : Component) (w : World) (actions : list Action) :
  truthy_opt (globalCompanyId c) = true →
  location w = "/onboarding" →
  Forall page_local actions →
  (∃ c' w',
     run actions (mkApp (OnboardingPage c) w) = mkApp (OnboardingPage c') w'
     ∧ globalCompanyId c' = globalCompanyId c
     ∧ registrations (trace w') = registrations (trace w)
     ∧ localStorage w' !! KEY_COMPANY = localStorage w !! KEY_COMPANY)
  ∧ (∀ cid, localStorage w !! KEY_COMPANY = Some cid → cid ≠ "" →
            localStorage w !! KEY_GOOGLE = Some "true" →
            ∃ c', mount_onboarding w = mkApp (OnboardingPage c') w
                  ∧ globalCompanyId c' = Some cid).
Proof.
  intros Hid Hloc Hacts. split.
  - revert c w Hid Hloc. induction Hacts as [|a actions Ha _ IH]; intros c w Hid Hloc.
    + simpl. eauto 10.
    + destruct (page_local_step a c w Ha Hloc Hid)
        as (c1 & w1 & Hstep & Hid1 & Hloc1 & Hreg1 & Hls1).
      simpl. rewrite Hstep.
      destruct (IH c1 w1) as (c2 & w2 & Hrun & Hid2 & Hreg2 & Hls2);
        [by rewrite Hid1 | done |].
      exists c2, w2. split; [exact Hrun|].
      split; [congruence|]. split; [congruence|]. by rewrite Hls2, Hls1.
  - intros cid Hcid Hne Hgoogle.
    destruct (restore_granted initial w cid Hcid Hne Hgoogle) as (fd & Hrun & _).
    unfold mount_onboarding. rewrite Hrun. eauto.
Qed.

End Redirect.

(** ** The wizard: uploads, binding and provisioning *)

Section WizardRequests.
Import Wizard.

Lemma api_post_run {C} (url : string) (body : Body) (c : C) (w : World) :
  ∃ w',
    Api.post url body (c, w)
    = (match next_reply w with
       | Resolved d => inr d
       | Rejected _ detail => inl detail
       end, (c, w'))
    ∧ trace w'
      = (trace w ++ EvPost url body (next_reply w)
           :: match next_reply w with
              | Resolved _ => []
              | Rejected status _ => Api.signed_out status
              end)%list
    ∧ backend w' = tail (backend w).
Proof.
  unfold Api.post; simpl.
  destruct (next_reply w) as [d | status detail]; simpl.
  - eexists. split; [reflexivity|]. split; reflexivity.
  - unfold Api.signed_out. destruct (bool_decide (status = Some 401)); simpl.
    + run_handler. eexists. split; [reflexivity|]. simpl.
      split; [|reflexivity]. by rewrite <- !app_assoc.
    + eexists. split; [reflexivity|]. split; reflexivity.
Qed.

Lemma posts_app (t1 t2 : list Event) : posts (t1 ++ t2) = (posts t1 ++ posts t2)%list.
Proof. apply filter_app. Qed.

Lemma posts_signed_out (status : option nat) : posts (Api.signed_out status) = [].
Proof. unfold Api.signed_out. by destruct (bool_decide (status = Some 401)). Qed.

Lemma signed_out_no_provision (status : option nat) :
  Forall (λ e, is_provision e = false) (Api.signed_out status).
Proof.
  unfold Api.signed_out. destruct (bool_decide (status = Some 401));
    repeat constructor.
Qed.

(** The uploads go through the files in order and form a prefix. *)
Lemma attempted_prefix (files : list File) (replies : list Reply) :
  map fst (attempted files replies) = take (length (attempted files replies)) files.
Proof.
  revert replies. induction files as [|file files IH]; intros replies; [reflexivity|].
  simpl. f_equal.
  destruct (match replies with r :: _ => r | [] => Rejected None None end); simpl.
  - apply IH.
  - by rewrite take_0.
Qed.



Lemma attempted_length (files : list File) (replies : list Reply) :
  (length (attempted files replies) ≤ length files)%nat.
Proof.
  rewrite <- (length_map fst), attempted_prefix, length_take. lia.
Qed.

(** The loop of [handleUploadDocs]. *)
Lemma upload_loop (companyId : string) (files : list File) (c : Component) (w : World) :
  ∃ r w' evs,
    for_of files (upload_document companyId) (c, w) = (r, (c, w'))
    ∧ trace w' = (trace w ++ evs)%list
    ∧ posts evs = map (upload_event companyId) (attempted files (backend w))
    ∧ Forall (λ e, is_provision e = false) evs
    ∧ if all_resolved (attempted files (backend w)) then r = inr tt
      else ∃ detail, r = inl detail.
Proof.
  revert w. induction files as [|file files IH]; intros w.
  - exists (inr tt), w, []. simpl. rewrite app_nil_r. repeat split. constructor.
  - simpl. unfold bind at 1. unfold upload_document at 1. unfold bind at 1.
    destruct (api_post_run (Api.policies_document_url companyId) (document_body file) c w)
      as (w1 & -> & Htrace1 & Hbackend1).
    fold (next_reply w). destruct (next_reply w) as [d | status detail] eqn:Hreply.
    + simpl. destruct (IH w1) as (r & w2 & evs & -> & Htrace2 & Hposts & Hprov & Hres).
      exists r, w2, (EvPost (Api.policies_document_url companyId) (document_body file)
                       (Resolved d) :: evs).
      split; [reflexivity|].
      split; [rewrite Htrace2, Htrace1; by rewrite <- app_assoc|].
      rewrite Hbackend1 in Hposts, Hres.
      split; [unfold posts; rewrite filter_cons_True by done; fold (posts evs);
              by rewrite Hposts|].
      split; [by constructor | exact Hres].
    + simpl. exists (inl detail), w1,
        (EvPost (Api.policies_document_url companyId) (document_body file)
           (Rejected status detail) :: Api.signed_out status).
      split; [reflexivity|]. split; [exact Htrace1|].
      split; [unfold posts; rewrite filter_cons_True by done;
              fold (posts (Api.signed_out status)); by rewrite posts_signed_out|].
      split; [constructor; [done | apply signed_out_no_provision] | eauto].
Qed.




(** *** Provisioning comes after the binding *)

Lemma database_bound_app (t evs : list Event) (companyId dbId : string) :
  database_bound t companyId dbId → database_bound (t ++ evs) companyId dbId.
Proof.
  intros (body & d & Hin & Hid). exists body, d. split; [|exact Hid].
  apply elem_of_app. by left.
Qed.

Lemma provisions_after_binding_quiet (t evs : list Event) :
  provisions_after_binding t → quiet evs → provisions_after_binding (t ++ evs).
Proof.
  intros Ht Hquiet before url r after Heq.
  apply app_eq_inv in Heq as [(k & Ht' & Hk) | (k & Hbefore & Hevs)].
  - destruct k as [|e k]; simpl in Hk.
    + subst evs. inversion Hquiet; subst. discriminate.
    + injection Hk as <- _. by apply (Ht before url r k).
  - subst evs. apply Forall_app in Hquiet as [_ Hquiet].
    inversion Hquiet; subst. discriminate.
Qed.

Lemma provisions_after_binding_provision (t rest : list Event)
    (companyId dbId : string) (r : Reply) :
  provisions_after_binding t →
  database_bound t companyId dbId →
  quiet rest →
  provisions_after_binding
    (t ++ EvPost (Api.provision_url companyId dbId) BEmpty r :: rest).
Proof.
  intros Ht Hbound Hquiet before url r' after Heq.
  apply app_eq_inv in Heq as [(k & Ht' & Hk) | (k & Hbefore & Hevs)].
  - destruct k as [|e k]; simpl in Hk.
    + injection Hk as Hurl _ _. rewrite app_nil_r in Ht'. subst before url. eauto.
    + injection Hk as <- _. by apply (Ht before url r' k).
  - destruct k as [|e k]; simpl in Hevs.
    + injection Hevs as Hurl _ _. rewrite app_nil_r in Hbefore. subst before url. eauto.
    + injection Hevs as _ Hrest. subst rest.
      apply Forall_app in Hquiet as [_ Hquiet]. inversion Hquiet; subst. discriminate.
Qed.

Lemma save_loop (companyId : string) (policies : list TextPolicy)
    (c : Component) (w : World) :
  ∃ r w' evs,
    for_of policies (save_policy companyId) (c, w) = (r, (c, w'))
    ∧ trace w' = (trace w ++ evs)%list ∧ quiet evs.
Proof.
  revert w. induction policies as [|policy policies IH]; intros w.
  - exists (inr tt), w, []. simpl. rewrite app_nil_r. repeat split. constructor.
  - simpl. unfold bind at 1. unfold save_policy at 1.
    destruct (truthy (title policy) && truthy (content policy)).
    + unfold bind at 1.
      destruct (api_post_run (Api.policies_text_url companyId)
                  (BPolicyText (title policy) (Some (description policy)) "text"
                     (content policy)) c w) as (w1 & -> & Htrace1 & _).
      destruct (next_reply w) as [d | status detail]; simpl.
      * destruct (IH w1) as (r & w2 & evs & -> & Htrace2 & Hquiet).
        do 3 eexists. split; [reflexivity|].
        split; [rewrite Htrace2, Htrace1; by rewrite <- app_assoc|].
        by constructor.
      * do 3 eexists. split; [reflexivity|]. split; [exact Htrace1|].
        constructor; [done | apply signed_out_no_provision].
    + simpl. destruct (IH w) as (r & w2 & evs & -> & Htrace2 & Hquiet). eauto 10.
Qed.

Lemma quiet_snoc (evs : list Event) (e : Event) :
  quiet evs → is_provision e = false → quiet (evs ++ [e]).
Proof. intros. apply Forall_app. split; [done | by constructor]. Qed.

Lemma handleRegisterCompany_does (c : Component) (w : World) :
  does handleRegisterCompany c w
    (λ c' evs, quiet evs ∧ (step c' = step c ∨ step c' = 1)).
Proof.
  unfold does, handleRegisterCompany.
  unfold bind at 1, getState at 1; simpl.
  unfold bind at 1, setLoading at 1, setState at 1; simpl.
  unfold finally, try_catch. unfold bind at 1.
  match goal with
  | |- context [Api.post ?u ?b (?c1, w)] =>
      destruct (api_post_run u b c1 w) as (w1 & -> & Htrace & _)
  end.
  destruct (next_reply w) as [d | status detail]; run_handler.
  - do 3 eexists. split; [reflexivity|]. simpl.
    split; [rewrite Htrace; by rewrite <- !app_assoc|].
    split; [repeat constructor | by right].
  - do 3 eexists. split; [reflexivity|]. simpl.
    split; [rewrite Htrace; by rewrite <- !app_assoc|].
    split; [|by left]. simpl. constructor; [done|].
    apply quiet_snoc; [apply signed_out_no_provision | done].
Qed.

Lemma handleSaveTextPolicies_does (c : Component) (w : World) :
  does handleSaveTextPolicies c w
    (λ c' evs, quiet evs ∧ (step c' = step c ∨ step c' = 2)).
Proof.
  unfold does, handleSaveTextPolicies.
  unfold bind at 1, getState at 1; simpl.
  unfold bind at 1, setLoading at 1, setState at 1; simpl.
  unfold finally, try_catch. unfold bind at 1.
  match goal with
  | |- context [for_of ?l ?b (?c1, w)] =>
      destruct (save_loop (companyId c) l c1 w) as (r & w1 & evs & -> & Htrace & Hquiet)
  end.
  destruct r as [detail | []]; run_handler.
  - do 3 eexists. split; [reflexivity|]. simpl.
    split; [rewrite Htrace; by rewrite <- !app_assoc|].
    split; [by apply quiet_snoc | by left].
  - do 3 eexists. split; [reflexivity|]. simpl.
    split; [rewrite Htrace; by rewrite <- !app_assoc|].
    split; [by apply quiet_snoc | by right].
Qed.

Lemma handleUploadDocs_does (c : Component) (w : World) :
  does handleUploadDocs c w
    (λ c' evs, quiet evs ∧ (step c' = step c ∨ step c' = 3)).
Proof.
  unfold does, handleUploadDocs.
  unfold bind at 1, getState at 1; simpl.
  unfold bind at 1, setLoading at 1, setState at 1; simpl.
  unfold finally, try_catch. unfold bind at 1.
  match goal with
  | |- context [for_of ?l ?b (?c1, w)] =>
      destruct (upload_loop (companyId c) l c1 w)
        as (r & w1 & evs & -> & Htrace & _ & Hquiet & _)
  end.
  destruct r as [detail | []]; run_handler.
  - do 3 eexists. split; [reflexivity|]. simpl.
    split; [rewrite Htrace; by rewrite <- !app_assoc|].
    split; [by apply quiet_snoc | by left].
  - do 3 eexists. split; [reflexivity|]. simpl.
    split; [rewrite Htrace; by rewrite <- !app_assoc|].
    split; [by apply quiet_snoc | by right].
Qed.

(** The wizard reaches its last step only through a binding that
    resolved, and keeps the id the binding gave. *)
Lemma handleConnectDB_does (c : Component) (w : World) :
  does handleConnectDB c w
    (λ c' evs,
       quiet evs
       ∧ (step c' = step c
          ∨ step c' = 4 ∧ companyId c' = companyId c
            ∧ database_bound evs (companyId c) (dbConnectionId c'))).
Proof.
  unfold does, handleConnectDB.
  unfold bind at 1, getState at 1; simpl.
  unfold bind at 1, setLoading at 1, setState at 1; simpl.
  unfold finally, try_catch. unfold bind at 1.
  match goal with
  | |- context [Api.post ?u ?b (?c1, w)] =>
      destruct (api_post_run u b c1 w) as (w1 & -> & Htrace & _)
  end.
  destruct (next_reply w) as [d | status detail]; run_handler.
  - do 3 eexists. split; [reflexivity|]. simpl.
    split; [rewrite Htrace; by rewrite <- !app_assoc|].
    split; [repeat constructor|]. right. split; [done|]. split; [done|].
    eexists _, d. split; [|reflexivity]. simpl. apply list_elem_of_here.
  - do 3 eexists. split; [reflexivity|]. simpl.
    split; [rewrite Htrace; by rewrite <- !app_assoc|].
    split; [|by left]. simpl. constructor; [done|].
    apply quiet_snoc; [apply signed_out_no_provision | done].
Qed.

Lemma handleProvision_does (c : Component) (w : World) :
  does handleProvision c w
    (λ c' evs,
       step c' = step c ∧ companyId c' = companyId c
       ∧ dbConnectionId c' = dbConnectionId c
       ∧ ∃ rest,
           evs = EvPost (Api.provision_url (companyId c) (dbConnectionId c)) BEmpty
                   (next_reply w) :: rest
           ∧ quiet rest).
Proof.
  unfold does, handleProvision.
  unfold bind at 1, getState at 1; simpl.
  unfold bind at 1, setLoading at 1, setState at 1; simpl.
  unfold finally, try_catch. unfold bind at 1.
  match goal with
  | |- context [Api.post ?u ?b (?c1, w)] =>
      destruct (api_post_run u b c1 w) as (w1 & -> & Htrace & _)
  end.
  destruct (next_reply w) as [d | status detail]; run_handler.
  - do 3 eexists. split; [reflexivity|]. simpl.
    split; [rewrite Htrace; by rewrite <- !app_assoc|].
    do 3 (split; [done|]). eexists. split; [reflexivity|]. repeat constructor.
  - do 3 eexists. split; [reflexivity|]. simpl.
    split; [rewrite Htrace; by rewrite <- !app_assoc|].
    do 3 (split; [done|]). eexists. split; [reflexivity|].
    apply quiet_snoc; [apply signed_out_no_provision | done].
Qed.

Lemma database_bound_app_r (t evs : list Event) (companyId dbId : string) :
  database_bound evs companyId dbId → database_bound (t ++ evs) companyId dbId.
Proof.
  intros (body & d & Hin & Hid). exists body, d. split; [|exact Hid].
  apply elem_of_app. by right.
Qed.

Lemma does_mono (h : M Component unit) (c : Component) (w : World)
    (P Q : Component → list Event → Prop) :
  does h c w P → (∀ c' evs, P c' evs → Q c' evs) → does h c w Q.
Proof. intros (c' & w' & evs & Hrun & Htrace & HP) HPQ. exists c', w', evs. auto. Qed.

(** A handler that does not call the provisioner keeps the guard. *)
Lemma guarded_after_quiet (h : M Component unit) (c : Component) (w : World) :
  provisioning_guarded (mkApp (Some c) w) →
  does h c w (λ c' evs,
    quiet evs
    ∧ (step c' = 4 →
       database_bound (trace w ++ evs) (companyId c') (dbConnectionId c'))) →
  provisioning_guarded (after_handler w (h (c, w))).
Proof.
  intros [Hprov _] (c' & w' & evs & -> & Htrace & Hquiet & Hbound).
  unfold after_handler.
  assert (provisions_after_binding (trace w')) as Hprov'
    by (rewrite Htrace; by apply provisions_after_binding_quiet).
  destruct (String.eqb (location w') (location w)); split; simpl; try done.
  by rewrite Htrace.
Qed.

(** A handler that only changes the component, and stays off the last
    step. *)
Lemma guarded_after_local (h : M Component unit) (c c' : Component) (w : World) :
  provisioning_guarded (mkApp (Some c) w) →
  h (c, w) = (inr tt, (c', w)) →
  step c' ≠ 4 →
  provisioning_guarded (after_handler w (h (c, w))).
Proof.
  intros Hinv Hrun Hstep. apply guarded_after_quiet; [exact Hinv|].
  exists c', w, []. split; [exact Hrun|]. split; [by rewrite app_nil_r|].
  split; [constructor | done].
Qed.

Lemma guarded_after_provision (c : Component) (w : World) :
  provisioning_guarded (mkApp (Some c) w) →
  step c = 4 →
  provisioning_guarded (after_handler w (handleProvision (c, w))).
Proof.
  intros [Hprov Hbound] Hstep. simpl in Hprov, Hbound. specialize (Hbound Hstep).
  destruct (handleProvision_does c w)
    as (c' & w' & evs & -> & Htrace & Hstep' & Hcid & Hdb & rest & -> & Hquiet).
  unfold after_handler.
  assert (provisions_after_binding (trace w')) as Hprov'
    by (rewrite Htrace; by apply provisions_after_binding_provision).
  destruct (String.eqb (location w') (location w)); split; simpl; try done.
  intros _. rewrite Htrace, Hcid, Hdb. by apply database_bound_app.
Qed.

(** Typing into an entry the page rendered. *)
Lemma updateTextPolicy_rendered (idx : nat) (field : PolicyField) (value : string)
    (c : Component) (w : World) :
  Nat.ltb idx (length (textPolicies c)) = true →
  updateTextPolicy idx field value (c, w)
  = (inr tt,
     (mkComponent (step c) (loading c) (companyId c) (registrationDone c) (company c)
        (alter (set_field field value) idx (textPolicies c))
        (docFiles c) (dbConfig c) (dbConnectionId c), w)).
Proof.
  intros Hidx. unfold updateTextPolicy, bind, getState; simpl. by rewrite Hidx.
Qed.

Lemma app_step_guarded (a : Action) (s : App) :
  provisioning_guarded s → provisioning_guarded (app_step a s).
Proof.
  intros Hinv. destruct s as [[c|] w]; [|exact Hinv].
  unfold app_step. cbv zeta. cbn [mounted world].
  destruct a;
    repeat lazymatch goal with
           | |- provisioning_guarded (if ?b then _ else _) =>
               destruct b eqn:?; [|exact Hinv]
           | |- provisioning_guarded (match step c with _ => _ end) =>
               destruct (step c) as [|[|[|[|?]]]] eqn:?; try exact Hinv
           end;
    repeat match goal with
           | Heq : Nat.eqb _ _ = true |- _ => apply Nat.eqb_eq in Heq
           | Heq : _ && _ = true |- _ => apply andb_prop in Heq as [? ?]
           end.
  - by eapply guarded_after_local; [| reflexivity | simpl; congruence].
  - apply guarded_after_quiet; [exact Hinv|].
    eapply does_mono; [apply handleRegisterCompany_does|]. simpl.
    intros c' evs [Hq Hs]. split; [exact Hq|]. intros H4. destruct Hs; congruence.
  - by eapply guarded_after_local; [| reflexivity | simpl; congruence].
  - by eapply guarded_after_local; [| reflexivity | simpl; congruence].
  - eapply guarded_after_local;
      [exact Hinv | by apply updateTextPolicy_rendered | simpl; congruence].
  - apply guarded_after_quiet; [exact Hinv|].
    eapply does_mono; [apply handleSaveTextPolicies_does|]. simpl.
    intros c' evs [Hq Hs]. split; [exact Hq|]. intros H4. destruct Hs; congruence.
  - by eapply guarded_after_local; [| reflexivity | simpl; congruence].
  - apply guarded_after_quiet; [exact Hinv|].
    eapply does_mono; [apply handleUploadDocs_does|]. simpl.
    intros c' evs [Hq Hs]. split; [exact Hq|]. intros H4. destruct Hs; congruence.
  - by eapply guarded_after_local; [| reflexivity | simpl; congruence].
  - apply guarded_after_quiet; [exact Hinv|].
    eapply does_mono; [apply handleConnectDB_does|]. simpl.
    intros c' evs [Hq Hs]. split; [exact Hq|]. intros H4.
    destruct Hs as [Hs | (_ & Hcid & Hbound)]; [congruence|].
    rewrite Hcid. by apply database_bound_app_r.
  - by apply guarded_after_provision.
  - by eapply guarded_after_local; [| reflexivity | simpl; congruence].
  - by eapply guarded_after_local; [| reflexivity | simpl; congruence].
  - by eapply guarded_after_local; [| reflexivity | simpl; congruence].
Qed.

(** Along every run of the wizard, each request to the provisioner is
    for a database connection that a resolved binding had created. *)
Lemma wizard_provisions_after_binding (user_company_id : option string)
    (store : gmap string string) (path : string) (replies : list Reply)
    (actions : list Action) :
  provisioning_guarded (run actions (start user_company_id store path replies)).
Proof.
  unfold run.
  assert (provisioning_guarded (start user_company_id store path replies)) as Hstart.
  { split; simpl; [|discriminate].
    intros before url r after Heq. by destruct before. }
  revert Hstart. generalize (start user_company_id store path replies).
  induction actions as [|a actions IH]; intros s Hs; [exact Hs|].
  simpl. apply IH. by apply app_step_guarded.
Qed.

End WizardRequests.

(** ** Provisioning needs a binding *)

Section Provisioning.
Import Onboarding.

(** C6. The provisioner is only asked for a database connection that
    exists, and a finalize without a binding reaches neither the
    provisioner nor success.  In [handleSubmit] a request to the
    provisioner comes only after the binding request of the same
    finalize, which opened it and resolved, and is for the id that
    binding returned.  The page finalizes only with the database field
    filled in (the form's required input), and then the finalize
    reaches the login page only if the binding request resolved.
    Policies are optional: with none, a binding and a provisioning that
    both resolve take the finalize to success.  Along every run of the
    wizard, each request to the provisioner is for a connection that a
    resolved binding had created. *)
Theorem provisioning_only_after_binding :
  (∀ c w,
     ∃ c' w' evs,
       handleSubmit (c, w) = (inr tt, (c', w'))
       ∧ trace w' = (trace w ++ evs)%list
       ∧ provision_follows_binding c evs
       ∧ (form_submits c = true →
          EvNavigate "/login" ∈ evs →
          ∃ d, head evs = Some (database_request c (Resolved d))))
  ∧ (∀ c w d p rest,
       googleConnected c = true →
       form_submits c = true →
       truthy (trim (policiesText (formData c))) = false →
       policyFile (formData c) = None →
       backend w = Resolved d :: Resolved p :: rest →
       truthy (data_id d) = true →
       ∃ c' w',
         handleSubmit (c, w) = (inr tt, (c', w'))
         ∧ posts (trace w')
           = (posts (trace w) ++ [database_request c (Resolved d);
                                  provision_request c (data_id d) (Resolved p)])%list
         ∧ location w' = "/login"
         ∧ backend w' = rest)
  ∧ (∀ user_company_id store path replies actions,
       Wizard.provisioning_guarded
         (Wizard.run actions (Wizard.start user_company_id store path replies))).
Proof.
  split; [|split].
  - intros c w.
    destruct (handleSubmit_events c w) as (c' & w' & evs & Hrun & Htrace & Hprov & Hok & _).
    exists c', w', evs. do 3 (split; [done|]).
    intros Hform Hlogin. by apply Hok.
  - apply handleSubmit_database_only.
  - apply wizard_provisions_after_binding.
Qed.

End Provisioning.

(** ** The provisioner's result *)

Section ProvisioningResult.
Import Provisioner.

Variable generate : Employee → string.
Variable deliver : Employee → string → option string.

(** The loop of the provisioner keeps the counts and the failure list
    in step with the employees it has gone through. *)
Lemma provision_loop (employees done : list Employee) (acc : ProvisioningResult) :
  generatedCount acc = length done →
  deliveredCount acc + length (failures acc) = generatedCount acc →
  Forall (failure_of generate deliver done) (failures acc) →
  let r := fold_left (provision_one generate deliver) employees acc in
  generatedCount r = length (done ++ employees)
  ∧ deliveredCount r + length (failures r) = generatedCount r
  ∧ Forall (failure_of generate deliver (done ++ employees)) (failures r)
  ∧ result_companyId r = result_companyId acc
  ∧ result_databaseId r = result_databaseId acc.
Proof.
  revert done acc.
  induction employees as [|e employees IH]; intros done acc Hgen Hsum Hfail.
  - simpl. rewrite app_nil_r. auto.
  - simpl.
    assert (∀ f, failure_of generate deliver done f →
                 failure_of generate deliver (done ++ [e]) f) as Hmono.
    { intros f (e' & Hin & Href & Hwhy). exists e'. split; [|done].
      apply elem_of_app. by left. }
    replace (done ++ e :: employees)%list with ((done ++ [e]) ++ employees)%list
      by (by rewrite <- app_assoc).
    assert (result_companyId (provision_one generate deliver acc e)
            = result_companyId acc
            ∧ result_databaseId (provision_one generate deliver acc e)
              = result_databaseId acc) as [Hcid Hdb]
      by (unfold provision_one; destruct (deliver e (generate e)); done).
    rewrite <- Hcid, <- Hdb.
    apply IH; unfold provision_one;
      destruct (deliver e (generate e)) as [why|] eqn:Hdeliver; simpl;
      rewrite ?length_app; simpl; try lia.
    + apply Forall_app. split.
      * eapply Forall_impl; [exact Hfail | exact Hmono].
      * constructor; [|constructor]. exists e. split; [|done].
        apply elem_of_app. right. apply list_elem_of_here.
    + eapply Forall_impl; [exact Hfail | exact Hmono].
Qed.

(** C9. Every result of the provisioner carries the number of
    credentials generated, the number delivered and the list of
    failures; each failure names an employee of the bound source by its
    reference and gives the reason its delivery failed; and the number
    delivered is at most the number generated (together with the
    failures it makes up exactly the number generated, one per
    employee). *)
Theorem delivered_at_most_generated (companyId databaseId : string)
    (employees : list Employee) :
  let r := provisionCredentials generate deliver companyId databaseId employees in
  (deliveredCount r ≤ generatedCount r)%nat
  ∧ generatedCount r = length employees
  ∧ deliveredCount r + length (failures r) = generatedCount r
  ∧ Forall (failure_of generate deliver employees) (failures r).
Proof.
  intros r.
  destruct (provision_loop employees []
              (mkProvisioningResult companyId databaseId 0 0 []))
    as (Hgen & Hsum & Hfail & _); [reflexivity | reflexivity | constructor |].
  fold (provisionCredentials generate deliver companyId databaseId employees) in *.
  fold r in Hgen, Hsum, Hfail. simpl in Hgen, Hfail.
  repeat split; try done. lia.
Qed.

End ProvisioningResult.

(** ** The worked examples *)

Section Examples.
Import Onboarding OAuthCallback Browser Scenarios.
#[local] Existing Instance SampleCodec.codec.

Lemma resume_yields_ConfiguringResources_witness :
  ∃ c', restore (stale, returning "Acme||Jane Doe|a@acme.com||") = (inr tt, (c', returning "Acme||Jane Doe|a@acme.com||"))
        ∧ currentStep c' = ConfiguringResources
        ∧ globalCompanyId c' = Some "C1"
        ∧ googleConnected c' = true.
Proof.
  apply (resume_yields_ConfiguringResources stale (returning "Acme||Jane Doe|a@acme.com||") "C1");
    [reflexivity | discriminate | reflexivity].
Defined.

Lemma corrupt_snapshot_is_swallowed_witness :
  restore (initial, returning "{not json")
  = (inr tt, (mkComponent 2 initialFormData (Some "C1") true false, returning "{not json"))
  ∧ currentStep (mkComponent 2 initialFormData (Some "C1") true false)
    = ConfiguringResources.
Proof.
  apply (corrupt_snapshot_is_swallowed (returning "{not json") "C1" "{not json");
    [reflexivity | discriminate | reflexivity | reflexivity | reflexivity].
Defined.

Lemma handleNext_validation_witness :
  handleNext (initial, no_context)
  = (inr tt, (initial, log (EvToast ToastError MSG_REQUIRED) no_context)).
Proof.
  exact (proj1 (handleNext_validation initial no_context eq_refl) eq_refl).
Defined.

Lemma denied_callback_preserves_session_witness :
  ∃ w',
    processOAuth denied (tt, pending) = (inr tt, (tt, w'))
    ∧ fails_with AuthorizationDenied pending w'
    ∧ localStorage w' = localStorage pending
    ∧ backend w' = backend pending
    ∧ location w' = "/onboarding"
    ∧ showing (mount_onboarding w') = Some CollectingProfile.
Proof.
  exact (denied_callback_preserves_session denied pending eq_refl).
Defined.

Lemma callback_without_context_fails_witness :
  ∃ w',
    processOAuth granted (tt, no_context) = (inr tt, (tt, w'))
    ∧ localStorage w' = localStorage no_context
    ∧ backend w' = backend no_context
    ∧ fails_with AuthorizationMissingContext no_context w'.
Proof.
  exact (callback_without_context_fails granted no_context eq_refl).
Defined.

Lemma redirect_after_persist_witness :
  let w := world (run register_acme (start (mkWorld ∅ "" [company_C1] []))) in
  ∃ w',
    handleGoogleOAuth (awaiting, w) = (inr tt, (awaiting, w'))
    ∧ localStorage w !! KEY_COMPANY = Some "C1"
    ∧ trace w' = (trace w ++ [EvSetItem KEY_FORM (JSON_stringify acme);
                              EvLocationHref oauthUrl])%list
    ∧ localStorage w' !! KEY_COMPANY = Some "C1"
    ∧ localStorage w' !! KEY_FORM = Some (JSON_stringify acme)
    ∧ location w' = oauthUrl.
Proof.
  exact (redirect_after_persist register_acme (mkWorld ∅ "" [company_C1] []) awaiting
           eq_refl).
Defined.

Lemma registration_short_circuits_witness :
  (∃ c' w',
     run [ClickBack; TypeForm acme; ClickNext]
         (mkApp (OnboardingPage (mkComponent 2 acme (Some "C1") true false))
                (returning ""))
     = mkApp (OnboardingPage c') w'
     ∧ globalCompanyId c' = Some "C1"
     ∧ registrations (trace w') = registrations (trace (returning ""))
     ∧ localStorage w' !! KEY_COMPANY = localStorage (returning "") !! KEY_COMPANY)
  ∧ (∀ cid, localStorage (returning "") !! KEY_COMPANY = Some cid → cid ≠ "" →
            localStorage (returning "") !! KEY_GOOGLE = Some "true" →
            ∃ c', mount_onboarding (returning "")
                  = mkApp (OnboardingPage c') (returning "")
                  ∧ globalCompanyId c' = Some cid).
Proof.
  apply (registration_short_circuits (mkComponent 2 acme (Some "C1") true false)
           (returning "") [ClickBack; TypeForm acme; ClickNext]);
    [reflexivity | reflexivity | repeat constructor].
Defined.

(** C3, the claim as written, fails after a declined authorization.
    Acme is registered as C1 and the user declines at the provider; back
    on the onboarding page the store still holds C1, yet the page holds
    no company id, "Next Step" calls the registrar a second time and
    the store's company id is replaced by C2.  The second request goes
    out all the same when the backend turns the duplicate down. *)
Lemma registrar_called_again_after_decline :
  let s1 := run_sample register_acme (fresh [company_C1; company_C2]) in
  let s2 := run_sample decline s1 in
  let s3 := run_sample start_over s2 in
  let t3 := run_sample (register_acme ++ decline ++ start_over)
                       (fresh [company_C1; already_exists]) in
  localStorage (world s2) !! KEY_COMPANY = Some "C1"
  ∧ length (registrations (trace (world s2))) = 1
  ∧ localStorage (world s3) !! KEY_COMPANY = Some "C2"
  ∧ length (registrations (trace (world s3))) = 2
  ∧ length (registrations (trace (world t3))) = 2.
Proof. vm_compute. repeat split. Qed.

(** C4, the claim as written, fails on its last part.  Acme is
    registered and the page shows the consent button; the user declines
    at the provider.  The store keeps the company id, but the page that
    comes back shows the profile step, not the consent step. *)
Lemma declined_session_restarts_at_profile :
  let s1 := run_sample register_acme (fresh [company_C1]) in
  let s2 := run_sample decline s1 in
  showing s1 = Some AwaitingAuthorization
  ∧ localStorage (world s2) !! KEY_COMPANY = Some "C1"
  ∧ showing s2 = Some CollectingProfile
  ∧ showing s2 ≠ Some AwaitingAuthorization.
Proof. vm_compute. repeat split. discriminate. Qed.

(** C5, the claim as written, fails for a callback that carries an
    error indicator: with no company id in the store the failure it
    reports is the denial, not the missing context. *)
Lemma denied_callback_without_context :
  localStorage no_context !! KEY_COMPANY = None
  ∧ ∃ w',
      processOAuth denied (tt, no_context) = (inr tt, (tt, w'))
      ∧ fails_with AuthorizationDenied no_context w'
      ∧ ¬ fails_with AuthorizationMissingContext no_context w'.
Proof.
  split; [reflexivity|]. eexists. split; [reflexivity|].
  split; [reflexivity|]. unfold fails_with. simpl. discriminate.
Qed.


Lemma provisioning_only_after_binding_witness :
  ∃ c' w',
    handleSubmit (with_sheet, binding_then_provisioning) = (inr tt, (c', w'))
    ∧ posts (trace w')
      = [database_request with_sheet database_D1;
         provision_request with_sheet "D1" provisioned]
    ∧ location w' = "/login"
    ∧ backend w' = [].
Proof.
  exact (proj1 (proj2 provisioning_only_after_binding)
           with_sheet binding_then_provisioning
           (mkData "D1" "Primary Employee DB" 0 0) (mkData "" "" 10 9) []
           eq_refl eq_refl eq_refl eq_refl eq_refl eq_refl).
Defined.

(** The finalize of Acme with the sheet S1: the binding gives D1, the
    provisioner is asked for D1, and the browser ends on the login
    page. *)
Example finalize_binds_then_provisions :
  let '(r, (c', w')) := handleSubmit (with_sheet, binding_then_provisioning) in
  r = inr tt
  ∧ posts (trace w')
    = [database_request with_sheet database_D1;
       provision_request with_sheet "D1" provisioned]
  ∧ location w' = "/login".
Proof. vm_compute. repeat split. Qed.


Lemma delivered_at_most_generated_witness :
  let r := Provisioner.provisionCredentials one_password refuse_E7 "C1" "D1" ten_employees in
  (Provisioner.deliveredCount r ≤ Provisioner.generatedCount r)%nat
  ∧ Provisioner.generatedCount r = 10
  ∧ Provisioner.deliveredCount r + length (Provisioner.failures r)
    = Provisioner.generatedCount r
  ∧ Forall (Provisioner.failure_of one_password refuse_E7 ten_employees)
           (Provisioner.failures r).
Proof.
  exact (delivered_at_most_generated one_password refuse_E7 "C1" "D1" ten_employees).
Defined.

(** The helpers on the values the pages build. *)
Example encoded_scopes :
  encodeURIComponent scopes
  = "https%3A%2F%2Fmail.google.com%2F%20https%3A%2F%2Fwww.googleapis.com%2Fauth%2Fspreadsheets%20https%3A%2F%2Fwww.googleapis.com%2Fauth%2Fdrive".
Proof. reflexivity. Qed.

Example document_titles :
  map Wizard.strip_extension
      ["handbook.pdf"; "leave.policy.txt"; "README"; ".env"; "v1.2/notes"; "draft."]
  = ["handbook"; "leave.policy"; "README"; ""; "v1.2/notes"; "draft."].
Proof. reflexivity. Qed.

Example blank_policies :
  map (λ text, truthy (trim text)) [""; "   "; "  Leave: 20 days  "]
  = [false; false; true].
Proof. reflexivity. Qed.

(** The run of the design's end-to-end example: ten credentials, nine
    delivered, employee E7 turned down for its address. *)
Example provision_ten_employees :
  Provisioner.provisionCredentials one_password refuse_E7 "C1" "D1" ten_employees
  = Provisioner.mkProvisioningResult "C1" "D1" 10 9
      [Provisioner.mkDeliveryFailure "E7" "invalid_email"].
Proof. reflexivity. Qed.

(** The whole flow on the onboarding page: Acme is registered as C1, the
    consent is granted, the sheet S1 is bound as D1 and the employees are
    provisioned; the four requests go out in this order, the session is
    cleared and the browser ends on the login page. *)
Example end_to_end :
  let s := run_sample
             (register_acme
                ++ [ClickSignInWithGoogle; ProviderRedirectsBack granted;
                    TypeForm acme_with_sheet; SubmitFinalize])
             (fresh [company_C1; exchanged; database_D1; provisioned]) in
  page s = LoginPage
  ∧ map (λ e, match e with EvPost url _ _ => url | _ => "" end) (posts (trace (world s)))
    = [register_url; OAuthCallback.exchange_url; databases_url "C1";
       provision_url "C1" "D1"]
  ∧ localStorage (world s) = ∅.
Proof. vm_compute. repeat split. Qed.

End Examples.

(** * Sessions, the wizard between two actions, signing in and out *)

(** ** The finalize, request by request *)

Section FinalizeShape.
Import Onboarding OAuthCallback Browser Session.
Context `{JsonCodec FormData}.

Lemma handleSubmit_shape (c : Component) (w : World) :
  ∃ w' evs,
    handleSubmit (c, w)
    = (inr tt,
       (mkComponent (step c) (formData c) (globalCompanyId c) (googleConnected c)
          (if googleConnected c then false else isLoading c), w'))
    ∧ trace w' = (trace w ++ evs)%list
    ∧ backend w' = drop (length (posts evs)) (backend w)
    ∧ StronglySorted lt (map request_rank (posts evs))
    ∧ Forall (addressed_to (id_text (globalCompanyId c))) evs
    ∧ (googleConnected c = false → evs = [EvToast ToastError MSG_GRANT_FIRST])
    ∧ if reaches_login evs
      then localStorage w' = cleared (localStorage w)
           ∧ location w' = "/login"
           ∧ forallb answered evs = true
      else localStorage w' = localStorage w
           ∧ location w' = location w
           ∧ ∃ msg, last evs = Some (EvToast ToastError msg).
Proof.
  destruct c as [st fd gid connected busy].
  unfold handleSubmit, cleared. run_handler.
  destruct connected; simpl.
  2: { do 2 eexists. split; [reflexivity|]. split; [reflexivity|].
       split; [by rewrite drop_0|]. split; [constructor|].
       split; [repeat constructor|]. split; [done|]. simpl. eauto. }
  unfold axios_post; simpl.
  destruct (truthy (dbUrl fd)); simpl;
  destruct (truthy (trim (policiesText fd))); simpl;
  destruct (policyFile fd); simpl;
  unfold next_reply; simpl;
  destruct (backend w) as [|[d1|? ?] [|[d2|? ?] [|[d3|? ?] [|[d4|? ?] ?]]]]; simpl;
  try (destruct (truthy (data_id d1)); simpl);
  (do 2 eexists; split; [reflexivity|]; simpl;
   split; [rewrite <- ?app_assoc; simpl; reflexivity|];
   split; [reflexivity|];
   split; [repeat constructor|];
   split; [repeat constructor; by eexists|];
   split; [discriminate|];
   simpl; eauto).
Qed.

(** A connected page with the database field filled in opens its
    finalize with the binding request. *)
Lemma handleSubmit_opens_with_binding (c : Component) (w : World) :
  googleConnected c = true →
  form_submits c = true →
  ∃ c' w' rest,
    handleSubmit (c, w) = (inr tt, (c', w'))
    ∧ trace w' = (trace w ++ database_request c (next_reply w) :: rest)%list.
Proof.
  destruct c as [st fd gid connected busy]. unfold form_submits. simpl.
  intros -> Hdb.
  unfold handleSubmit, database_request. run_handler. rewrite Hdb. simpl.
  unfold axios_post; simpl.
  destruct (truthy (trim (policiesText fd))); simpl;
  destruct (policyFile fd); simpl;
  unfold next_reply; simpl;
  destruct (backend w) as [|[d1|? ?] [|[d2|? ?] [|[d3|? ?] [|[d4|? ?] ?]]]]; simpl;
  try (destruct (truthy (data_id d1)); simpl);
  (do 3 eexists; split; [reflexivity|]; simpl;
   rewrite <- ?app_assoc; simpl; reflexivity).
Qed.

End FinalizeShape.

(** ** The session across pages *)

Section SessionFacts.
Import Onboarding OAuthCallback Browser Session.
Context `{JsonCodec FormData}.

(** X1. One finalize sends at most one request of each kind, in the
    order database binding, text policy, policy document, provisioning,
    each to the endpoint of its kind under the company id the page
    holds.  A page that is not connected sends nothing. *)
Theorem finalize_requests_in_order (c : Component) (w : World) :
  ∃ c' w' evs,
    handleSubmit (c, w) = (inr tt, (c', w'))
    ∧ trace w' = (trace w ++ evs)%list
    ∧ StronglySorted lt (map request_rank (posts evs))
    ∧ Forall (addressed_to (id_text (globalCompanyId c))) evs
    ∧ (googleConnected c = false → posts evs = []).
Proof.
  destruct (handleSubmit_shape c w)
    as (w' & evs & Hrun & Htrace & Hbackend & Hsorted & Haddr & Hoff & _).
  eexists _, w', evs. split; [exact Hrun|]. do 3 (split; [done|]).
  intros Hc. by rewrite (Hoff Hc).
Qed.

(** A page mounted on a store without a company id, or without the
    granted flag, is the initial page. *)
Lemma mount_fresh (w : World) :
  truthy_opt (localStorage w !! KEY_COMPANY)
  && bool_decide (localStorage w !! KEY_GOOGLE = Some "true") = false →
  mount_onboarding w = mkApp (OnboardingPage initial) w.
Proof.
  intros Hno. unfold mount_onboarding, restore. run_handler. rewrite Hno.
  by destruct w.
Qed.

(** X2. A finalize is all or nothing for the session.  Either every
    request it sent was answered and it got to the login page: then the
    three session keys are gone from the store, and the onboarding page
    opened next is the initial one.  Or it stopped at an error report:
    then the store and the location are as they were and the page keeps
    its form and its company id, ready for another try. *)
Theorem finalize_all_or_nothing (c : Component) (w : World) :
  ∃ c' w' evs,
    handleSubmit (c, w) = (inr tt, (c', w'))
    ∧ trace w' = (trace w ++ evs)%list
    ∧ formData c' = formData c
    ∧ globalCompanyId c' = globalCompanyId c
    ∧ if reaches_login evs
      then localStorage w' = cleared (localStorage w)
           ∧ location w' = "/login"
           ∧ forallb answered evs = true
           ∧ app_step OpenOnboarding (mkApp LoginPage w')
             = mkApp (OnboardingPage initial) (at_location "/onboarding" w')
      else localStorage w' = localStorage w
           ∧ location w' = location w
           ∧ ∃ msg, last evs = Some (EvToast ToastError msg).
Proof.
  destruct (handleSubmit_shape c w)
    as (w' & evs & Hrun & Htrace & _ & _ & _ & _ & Hend).
  eexists _, w', evs. split; [exact Hrun|]. do 3 (split; [done|]).
  destruct (reaches_login evs); [|exact Hend].
  destruct Hend as (Hls & Hloc & Hans). do 3 (split; [done|]).
  unfold app_step; simpl. apply mount_fresh; simpl.
  rewrite Hls. unfold cleared.
  rewrite lookup_delete_ne, lookup_delete_ne, lookup_delete_eq by done. reflexivity.
Qed.

(** Every branch of [processOAuth] ends on the onboarding page; the
    granted flag is written when the exchange resolved. *)
Lemma processOAuth_lands (params : URLSearchParams) (w : World) :
  ∃ w',
    processOAuth params (tt, w) = (inr tt, (tt, w'))
    ∧ location w' = "/onboarding"
    ∧ localStorage w'
      = if exchange_succeeds params w
        then <[KEY_GOOGLE:="true"]> (localStorage w)
        else localStorage w.
Proof.
  unfold exchange_succeeds.
  destruct (truthy_opt (params_get "error" params)) eqn:Herr;
    [rewrite processOAuth_failure by auto; by eexists|].
  destruct (truthy_opt (params_get "code" params)) eqn:Hcode;
    [|rewrite processOAuth_failure by auto; by eexists].
  destruct (truthy_opt (localStorage w !! KEY_COMPANY)) eqn:Hcid;
    [|rewrite processOAuth_failure by auto; by eexists].
  destruct (params_get "code" params) as [code|] eqn:Hget; [|discriminate].
  destruct (localStorage w !! KEY_COMPANY) as [cid|] eqn:Hstore; [|discriminate].
  assert (code ≠ "") as Hne by (by destruct code).
  assert (cid ≠ "") as Hne' by (by destruct cid).
  pose proof (processOAuth_exchange params w code cid Herr Hget Hne Hstore Hne') as Hrun.
  simpl in Hrun. rewrite Hrun.
  destruct (next_reply w) as [d | status detail]; by eexists.
Qed.

(** X3. The callback page always comes back to the onboarding page,
    whatever the query and the store: [processOAuth] returns, its last
    effect is the navigation to [/onboarding], it sends at most one
    request, and the only thing it ever writes is the granted flag,
    which it writes exactly when the exchange resolved. *)
Theorem processOAuth_always_returns (params : URLSearchParams) (w : World) :
  ∃ w' evs,
    processOAuth params (tt, w) = (inr tt, (tt, w'))
    ∧ trace w' = (trace w ++ evs)%list
    ∧ last evs = Some (EvNavigate "/onboarding")
    ∧ location w' = "/onboarding"
    ∧ (length (posts evs) ≤ 1)%nat
    ∧ localStorage w'
      = if exchange_succeeds params w
        then <[KEY_GOOGLE:="true"]> (localStorage w)
        else localStorage w.
Proof.
  unfold exchange_succeeds.
  destruct (truthy_opt (params_get "error" params)) eqn:Herr.
  { rewrite processOAuth_failure by auto.
    do 2 eexists. split; [reflexivity|]. split; [reflexivity|]. repeat split. simpl. lia. }
  destruct (truthy_opt (params_get "code" params)) eqn:Hcode.
  2: { rewrite processOAuth_failure by auto.
       do 2 eexists. split; [reflexivity|]. split; [reflexivity|]. repeat split.
       simpl. lia. }
  destruct (truthy_opt (localStorage w !! KEY_COMPANY)) eqn:Hcid.
  2: { rewrite processOAuth_failure by auto.
       do 2 eexists. split; [reflexivity|]. split; [reflexivity|]. repeat split.
       simpl. lia. }
  destruct (params_get "code" params) as [code|] eqn:Hget; [|discriminate].
  destruct (localStorage w !! KEY_COMPANY) as [cid|] eqn:Hstore; [|discriminate].
  assert (code ≠ "") as Hne by (by destruct code).
  assert (cid ≠ "") as Hne' by (by destruct cid).
  pose proof (processOAuth_exchange params w code cid Herr Hget Hne Hstore Hne') as Hrun.
  simpl in Hrun. rewrite Hrun.
  destruct (next_reply w) as [d | status detail]; simpl;
    (do 2 eexists; split; [reflexivity|]; split; [reflexivity|]; repeat split; simpl; lia).
Qed.

(** X4. What the onboarding page shows after any callback: the resource
    step when the store holds a company id and either held the granted
    flag already or the exchange has just resolved; the profile step in
    every other case, a failed exchange included. *)
Theorem callback_then_page (params : URLSearchParams) (s : App) :
  let store := localStorage (world s) in
  showing (app_step (ProviderRedirectsBack params) s)
  = Some (if truthy_opt (store !! KEY_COMPANY)
             && (bool_decide (store !! KEY_GOOGLE = Some "true")
                 || exchange_succeeds params (world s))
          then ConfiguringResources else CollectingProfile).
Proof.
  intros store. unfold app_step.
  destruct (processOAuth_lands params (at_location "/oauth/callback" (world s)))
    as (w' & -> & Hloc & Hls).
  rewrite Hloc. simpl. rewrite mount_shows, Hls.
  change (exchange_succeeds params (at_location "/oauth/callback" (world s)))
    with (exchange_succeeds params (world s)).
  simpl. fold store.
  destruct (exchange_succeeds params (world s)) eqn:Hex.
  - unfold exchange_succeeds in Hex.
    apply andb_prop in Hex as [Hex _]. apply andb_prop in Hex as [_ Hcid].
    rewrite lookup_insert_ne by done. rewrite lookup_insert_eq.
    fold store in Hcid. rewrite Hcid. rewrite bool_decide_eq_true_2 by done.
    by rewrite orb_true_r.
  - by rewrite orb_false_r.
Qed.

End SessionFacts.

(** ** What holds of the onboarding page along every run *)

Section SessionRuns.
Import Onboarding OAuthCallback Browser Session.
Context `{JsonCodec FormData}.

Lemma after_handler_here r (c : Component) (w : World) :
  location w = "/onboarding" →
  after_handler (r, (c, w)) = mkApp (OnboardingPage c) w.
Proof. intros Hloc. unfold after_handler. by rewrite Hloc. Qed.

Lemma mount_backed (w : World) :
  location w = "/onboarding" → session_backed (mount_onboarding w).
Proof.
  intros Hloc. unfold mount_onboarding, session_backed, restore. run_handler.
  destruct (truthy_opt (localStorage w !! KEY_COMPANY)) eqn:Hcid; simpl; [|done].
  destruct (bool_decide (localStorage w !! KEY_GOOGLE = Some "true")) eqn:Hflag; simpl;
    [|done].
  apply bool_decide_eq_true_1 in Hflag.
  destruct (truthy_opt (localStorage w !! KEY_FORM)); simpl; [|done].
  unfold JSON_parse_or_throw.
  destruct (localStorage w !! KEY_FORM) as [text|]; simpl; [|done].
  destruct (JSON_parse text); done.
Qed.

Lemma oauthUrl_elsewhere :
  String.eqb oauthUrl "/onboarding" = false ∧ String.eqb oauthUrl "/login" = false.
Proof. split; reflexivity. Qed.

Ltac backed :=
  unfold session_backed; cbn [page world isLoading googleConnected globalCompanyId
                              location localStorage log];
  split; [done|]; split; [done|];
  first [assumption | done
        | (let Hc := fresh in
           intros Hc;
           match goal with Hconn : _ → _ ∧ _ |- _ => destruct (Hconn Hc) end;
           by split)].

Lemma app_step_backed (a : Action) (s : App) :
  session_backed s → session_backed (app_step a s).
Proof.
  intros Hs. destruct s as [pg w]. unfold app_step; cbn [page world].
  destruct a; destruct pg as [c| |];
    try exact Hs; try (by apply mount_backed); try exact I;
    try (match goal with
         | |- context [processOAuth ?p (tt, ?x)] =>
             destruct (processOAuth_lands p x) as (w' & -> & Hloc & _);
             rewrite Hloc; simpl; by apply mount_backed
         end).
  - destruct Hs as (Hloc & Hbusy & Hconn). cbn [page world] in *.
    unfold setFormData, setState; cbn [fst snd].
    rewrite (after_handler_here (inr tt)) by done. backed.
  - destruct Hs as (Hloc & Hbusy & Hconn). cbn [page world] in *.
    destruct (Nat.eqb (step c) 1) eqn:Hstep; [|done].
    destruct (profile_incomplete (formData c)) eqn:Hbad.
    + apply Nat.eqb_eq in Hstep. rewrite (handleNext_invalid c w Hstep Hbad).
      rewrite after_handler_here by exact Hloc. backed.
    + assert (Nat.eqb (step c) 1 && profile_incomplete (formData c) = false) as Hok
        by (by rewrite Hstep, Hbad).
      destruct (truthy_opt (globalCompanyId c)) eqn:Hid.
      * rewrite (handleNext_known c w Hok Hid).
        rewrite after_handler_here by exact Hloc. backed.
      * pose proof (handleNext_registers c w Hok Hid) as Hrun. simpl in Hrun.
        rewrite Hrun.
        assert (googleConnected c = false) as Hoff.
        { destruct (googleConnected c); [|done]. destruct Hconn as [Hid' _]; [done|].
          congruence. }
        destruct (next_reply w); rewrite after_handler_here by exact Hloc;
          unfold session_backed; simpl; rewrite Hoff; by repeat split.
  - destruct Hs as (Hloc & Hbusy & Hconn). cbn [page world] in *.
    destruct (negb (Nat.eqb (step c) 1) && googleConnected c); [|done].
    unfold setStep, setState; cbn [fst snd].
    rewrite (after_handler_here (inr tt)) by done. backed.
  - destruct Hs as (Hloc & Hbusy & Hconn). cbn [page world] in *.
    destruct (negb (Nat.eqb (step c) 1) && negb (googleConnected c)); [|done].
    rewrite handleGoogleOAuth_run.
    destruct (truthy_opt (globalCompanyId c)).
    + unfold after_handler; cbn [location].
      destruct oauthUrl_elsewhere as [-> ->]. exact I.
    + rewrite after_handler_here by done. backed.
  - destruct Hs as (Hloc & Hbusy & Hconn). cbn [page world] in *.
    destruct (negb (Nat.eqb (step c) 1) && googleConnected c); [|done].
    destruct (handleSubmit_shape c w)
      as (w' & evs & -> & _ & _ & _ & _ & _ & Hend).
    destruct (reaches_login evs).
    + destruct Hend as (_ & Hlogin & _).
      unfold after_handler. rewrite Hlogin. exact I.
    + destruct Hend as (Hls & Hloc' & _).
      rewrite after_handler_here by (by rewrite Hloc').
      unfold session_backed.
      cbn [page world isLoading googleConnected globalCompanyId].
      split; [by rewrite Hloc'|].
      split; [by destruct (googleConnected c)|]. by rewrite Hls.
Qed.

Lemma run_backed (actions : list Action) (s : App) :
  session_backed s → session_backed (run actions s).
Proof.
  revert s. induction actions as [|a actions IH]; intros s Hs; [exact Hs|].
  simpl. apply IH. by apply app_step_backed.
Qed.

End SessionRuns.

Section SessionTheorems.
Import Onboarding OAuthCallback Browser Session.
Context `{JsonCodec FormData}.

(** The mount effect on a store with a granted session and a snapshot
    that parses. *)
Lemma restore_snapshot (c : Component) (w : World) (cid text : string) (fd : FormData) :
  localStorage w !! KEY_COMPANY = Some cid → cid ≠ "" →
  localStorage w !! KEY_GOOGLE = Some "true" →
  localStorage w !! KEY_FORM = Some text → text ≠ "" →
  JSON_parse text = Some fd →
  restore (c, w) = (inr tt, (mkComponent 2 fd (Some cid) true (isLoading c), w)).
Proof.
  intros Hcid Hne Hflag Hform Hne' Hparse. unfold restore. run_handler.
  rewrite Hcid, Hflag, Hform. destruct cid; [done|]. destruct text; [done|]. simpl.
  unfold JSON_parse_or_throw. rewrite Hparse. simpl. by destruct w.
Qed.

(** X5. Between two actions the onboarding page is never left busy:
    on every page the browser can reach, [isLoading] is off again,
    whether the last request resolved or was rejected, and the browser
    is on the page's route. *)
Theorem onboarding_never_left_busy (actions : list Action) (w0 : World) (c : Component) :
  page (run actions (start w0)) = OnboardingPage c →
  isLoading c = false ∧ location (world (run actions (start w0))) = "/onboarding".
Proof.
  intros Hpage.
  pose proof (run_backed actions (start w0) I) as Hinv.
  unfold session_backed in Hinv. rewrite Hpage in Hinv. tauto.
Qed.

(** X6. Reloading the page on the resource step keeps the session: on
    every reachable page that shows the resource fields, the store
    holds the page's company id and the granted flag, so the page
    mounted by a reload is on step 2 again, connected, with the same
    company id, and the store is not touched. *)
Theorem reload_keeps_connected_session (actions : list Action) (w0 : World)
    (c : Component) :
  let s := run actions (start w0) in
  page s = OnboardingPage c →
  googleConnected c = true →
  ∃ cid c',
    cid ≠ ""
    ∧ globalCompanyId c = Some cid
    ∧ localStorage (world s) !! KEY_COMPANY = Some cid
    ∧ localStorage (world s) !! KEY_GOOGLE = Some "true"
    ∧ app_step OpenOnboarding s = mkApp (OnboardingPage c') (world s)
    ∧ globalCompanyId c' = Some cid
    ∧ currentStep c' = ConfiguringResources.
Proof.
  intros s Hpage Hconn.
  pose proof (run_backed actions (start w0) I) as Hinv.
  pose proof (run_persisted actions (start w0) I) as Hstore.
  fold s in Hinv, Hstore.
  unfold session_backed in Hinv. unfold company_persisted in Hstore.
  rewrite Hpage in Hinv, Hstore.
  destruct Hinv as (Hloc & _ & Hback). destruct (Hback Hconn) as [Hid Hflag].
  specialize (Hstore Hid).
  destruct (globalCompanyId c) as [cid|] eqn:Hgid; [|discriminate].
  assert (cid ≠ "") as Hne by (by destruct cid).
  assert (at_location "/onboarding" (world s) = world s) as Hsame
    by (unfold at_location; rewrite <- Hloc; by destruct (world s)).
  destruct (restore_granted initial (world s) cid Hstore Hne Hflag) as (fd & Hrun & _).
  exists cid, (mkComponent 2 fd (Some cid) true false).
  do 4 (split; [done|]).
  unfold app_step, mount_onboarding. rewrite Hsame, Hrun. done.
Qed.

(** X7. On every page the browser can reach, a finalize addresses its
    requests to the company of the session: the connected page holds a
    non-empty company id, the store holds the same id, every request of
    [handleSubmit] goes to an endpoint under that id, and with the
    database field filled in, as the form requires, the finalize does
    send: it opens with the binding request to that company. *)
Theorem finalize_goes_to_stored_company (actions : list Action) (w0 : World)
    (c : Component) :
  let s := run actions (start w0) in
  page s = OnboardingPage c →
  googleConnected c = true →
  ∃ cid c' w' evs,
    cid ≠ ""
    ∧ globalCompanyId c = Some cid
    ∧ localStorage (world s) !! KEY_COMPANY = Some cid
    ∧ handleSubmit (c, world s) = (inr tt, (c', w'))
    ∧ trace w' = (trace (world s) ++ evs)%list
    ∧ Forall (addressed_to cid) evs
    ∧ (form_submits c = true →
       head evs
       = Some (EvPost (databases_url cid)
                 (BDatabase "Primary Employee DB" None "google_sheets"
                            (dbUrl (formData c)) None)
                 (next_reply (world s)))).
Proof.
  intros s Hpage Hconn.
  pose proof (run_backed actions (start w0) I) as Hinv.
  pose proof (run_persisted actions (start w0) I) as Hstore.
  fold s in Hinv, Hstore.
  unfold session_backed in Hinv. unfold company_persisted in Hstore.
  rewrite Hpage in Hinv, Hstore.
  destruct Hinv as (Hloc & _ & Hback). destruct (Hback Hconn) as [Hid Hflag].
  specialize (Hstore Hid).
  destruct (globalCompanyId c) as [cid|] eqn:Hgid; [|discriminate].
  assert (cid ≠ "") as Hne by (by destruct cid).
  destruct (handleSubmit_shape c (world s))
    as (w' & evs & Hrun & Htrace & _ & _ & Haddr & _).
  rewrite Hgid in Haddr. simpl in Haddr.
  exists cid. eexists _, w', evs. do 6 (split; [done|]).
  intros Hform.
  destruct (handleSubmit_opens_with_binding c (world s) Hconn Hform)
    as (c2 & w2 & rest & Hrun2 & Htrace2).
  rewrite Hrun in Hrun2. injection Hrun2 as _ Hw. subst w2.
  rewrite Htrace in Htrace2. apply app_inv_head in Htrace2. subst evs.
  unfold database_request. by rewrite Hgid.
Qed.

(** X8. The form survives a granted consent.  From a reachable page
    that shows the consent button and holds a company id, the click on
    "Sign in with Google" followed by a callback with a code, whose
    exchange resolves, ends on the onboarding page at step 2, connected,
    with the same company id and with the very form the user had typed,
    provided the snapshot written before the redirect reads back as the
    form. *)
Theorem form_survives_granted_consent (actions : list Action) (w0 : World)
    (c : Component) (params : URLSearchParams) (cid : string) (d : Data)
    (replies : list Reply) :
  let s := run actions (start w0) in
  let snapshot := JSON_stringify (formData c) in
  page s = OnboardingPage c →
  currentStep c = AwaitingAuthorization →
  globalCompanyId c = Some cid → cid ≠ "" →
  JSON_parse snapshot = Some (formData c) → snapshot ≠ "" →
  truthy_opt (params_get "error" params) = false →
  truthy_opt (params_get "code" params) = true →
  backend (world s) = Resolved d :: replies →
  ∃ w',
    run [ClickSignInWithGoogle; ProviderRedirectsBack params] s
    = mkApp (OnboardingPage (mkComponent 2 (formData c) (Some cid) true false)) w'
    ∧ localStorage w'
      = <[KEY_GOOGLE:="true"]> (<[KEY_FORM:=snapshot]> (localStorage (world s)))
    ∧ backend w' = replies.
Proof.
  intros s snapshot Hpage Hstep Hgid Hne Hparse Hne' Herr Hcode Hreply.
  pose proof (run_persisted actions (start w0) I) as Hstore.
  fold s in Hstore. unfold company_persisted in Hstore. rewrite Hpage in Hstore.
  rewrite Hgid in Hstore. specialize (Hstore ltac:(by destruct cid)).
  destruct s as [pg w]. cbn [page world] in *. subst pg.
  unfold currentStep in Hstep.
  destruct (Nat.eqb (step c) 1) eqn:Hone; [discriminate|].
  destruct (googleConnected c) eqn:Hconn; [discriminate|].
  unfold run; cbn [fold_left]. unfold app_step at 2; cbn [page world].
  rewrite Hone, Hconn. cbn [negb andb].
  rewrite handleGoogleOAuth_run, Hgid.
  replace (truthy_opt (Some cid)) with true by (by destruct cid).
  unfold after_handler; cbn [location].
  destruct oauthUrl_elsewhere as [-> ->].
  unfold app_step; cbn [page world].
  destruct (params_get "code" params) as [code|] eqn:Hget; [|discriminate].
  assert (code ≠ "") as Hcne by (by destruct code).
  match goal with
  | |- context [processOAuth params (tt, ?y)] => set (x := y)
  end.
  assert (localStorage x !! KEY_COMPANY = Some cid) as Hx
    by (subst x; simpl; by rewrite lookup_insert_ne).
  assert (next_reply x = Resolved d) as Hnext
    by (subst x; unfold next_reply; simpl; by rewrite Hreply).
  pose proof (processOAuth_exchange params x code cid Herr Hget Hcne Hx Hne) as Hrun.
  cbn zeta in Hrun. rewrite Hrun, Hnext. cbn [location].
  change (String.eqb "/onboarding" "/onboarding") with true. cbn iota.
  unfold mount_onboarding.
  rewrite (restore_snapshot initial _ cid snapshot (formData c)); try done.
  - eexists. split; [reflexivity|]. split; [reflexivity|].
    subst x. simpl. by rewrite Hreply.
  - simpl. rewrite lookup_insert_ne by done. exact Hx.
  - simpl. apply lookup_insert_eq.
  - simpl. rewrite lookup_insert_ne by done. subst x. simpl. apply lookup_insert_eq.
Qed.

(** X9. "Register here" on the login page always opens a fresh
    onboarding: whatever session the store held, the three session keys
    are removed, every other key is kept, and the onboarding page mounts
    in its initial state, on the profile step with no company id. *)
Theorem register_here_starts_afresh (w : World) :
  ∃ w',
    app_step ClickRegisterHere (mkApp LoginPage w) = mkApp (OnboardingPage initial) w'
    ∧ localStorage w' = cleared (localStorage w)
    ∧ location w' = "/onboarding"
    ∧ backend w' = backend w
    ∧ trace w' = (trace w ++ [EvRemoveItem KEY_COMPANY; EvRemoveItem KEY_GOOGLE;
                              EvRemoveItem KEY_FORM; EvNavigate "/onboarding"])%list.
Proof.
  unfold app_step; cbn [page world]. run_handler.
  eexists. split.
  - apply mount_fresh; simpl.
    rewrite lookup_delete_ne, lookup_delete_ne, lookup_delete_eq by done. reflexivity.
  - simpl. rewrite <- !app_assoc. done.
Qed.

(** X10. A registration is persisted before the page moves on, and
    leaves nothing behind when it fails.  When [handleNext] registers
    (profile filled in, no company id at hand) it sends exactly one
    request.  If it resolves, the new id and the form snapshot are in
    the store, the page holds the id and shows step 2, and no other key
    changed.  If it is rejected, the store is as it was, the page keeps
    its step, its form and its missing id, and the error reported is the
    backend's detail or the default text.  Either way the page is not
    left busy. *)
Theorem registration_is_persisted_or_undone (c : Component) (w : World) :
  step c = 1 →
  profile_incomplete (formData c) = false →
  truthy_opt (globalCompanyId c) = false →
  ∃ c' w' evs,
    handleNext (c, w) = (inr tt, (c', w'))
    ∧ trace w' = (trace w ++ evs)%list
    ∧ length (posts evs) = 1
    ∧ isLoading c' = false
    ∧ formData c' = formData c
    ∧ location w' = location w
    ∧ match next_reply w with
      | Resolved d =>
          step c' = 2
          ∧ globalCompanyId c' = Some (data_id d)
          ∧ localStorage w' !! KEY_COMPANY = Some (data_id d)
          ∧ localStorage w' !! KEY_FORM = Some (JSON_stringify (formData c))
          ∧ ∀ k, k ≠ KEY_COMPANY → k ≠ KEY_FORM →
                 localStorage w' !! k = localStorage w !! k
      | Rejected _ detail =>
          step c' = 1
          ∧ globalCompanyId c' = globalCompanyId c
          ∧ localStorage w' = localStorage w
          ∧ last evs = Some (EvToast ToastError (or_else detail MSG_REGISTRATION_FAILED))
      end.
Proof.
  intros Hstep Hgood Hid.
  assert (Nat.eqb (step c) 1 && profile_incomplete (formData c) = false) as Hok
    by (rewrite Hgood; apply andb_false_r).
  pose proof (handleNext_registers c w Hok Hid) as Hrun. simpl in Hrun. rewrite Hrun.
  destruct (next_reply w) as [d | status detail].
  - do 3 eexists. split; [reflexivity|]. split; [reflexivity|].
    do 4 (split; [reflexivity|]). simpl.
    do 2 (split; [reflexivity|]).
    split; [rewrite lookup_insert_ne by done; apply lookup_insert_eq|].
    split; [apply lookup_insert_eq|].
    intros k Hk1 Hk2. by rewrite !lookup_insert_ne.
  - do 3 eexists. split; [reflexivity|]. split; [reflexivity|].
    do 4 (split; [reflexivity|]). simpl. done.
Qed.

End SessionTheorems.

(** ** The wizard's requests through the client *)

Section WizardClient.
Import Wizard WizardFacts.

Lemma api_post_eq {C} (url : string) (body : Body) (c : C) (w : World) :
  Api.post url body (c, w)
  = (match next_reply w with
     | Resolved d => inr d
     | Rejected _ detail => inl detail
     end, (c, after_post url body w)).
Proof.
  unfold Api.post, after_post, unauthorized, signed_out_store, Api.signed_out; simpl.
  destruct (next_reply w) as [d | status detail]; simpl; [reflexivity|].
  destruct (bool_decide (status = Some 401)); run_handler; [|reflexivity].
  by rewrite <- !app_assoc.
Qed.

Lemma after_post_store (url : string) (body : Body) (w : World) :
  if unauthorized (next_reply w)
  then store_signed_out w (after_post url body w)
  else store_kept w (after_post url body w).
Proof.
  unfold after_post, store_signed_out, store_kept; simpl.
  by destruct (unauthorized (next_reply w)).
Qed.

Lemma save_policy_shape (companyId : string) (policy : TextPolicy)
    (c : Component) (w : World) :
  save_policy companyId policy (c, w)
  = if complete policy
    then (awaited (next_reply w),
          (c, after_post (Api.policies_text_url companyId) (policy_body policy) w))
    else (inr tt, (c, w)).
Proof.
  unfold save_policy, complete, policy_body.
  destruct (truthy (title policy) && truthy (content policy)); [|reflexivity].
  unfold bind. rewrite api_post_eq. by destruct (next_reply w).
Qed.

Lemma upload_document_shape (companyId : string) (file : File)
    (c : Component) (w : World) :
  upload_document companyId file (c, w)
  = (awaited (next_reply w),
     (c, after_post (Api.policies_document_url companyId) (document_body file) w)).
Proof.
  unfold upload_document, bind. rewrite api_post_eq. by destruct (next_reply w).
Qed.

Section Loop.
Context {A : Type} (send : A → bool) (url : A → string) (bdy : A → Body).
Context (body : A → M Component unit).
Hypothesis bdy_named : ∀ x r, is_provision (EvPost (url x) (bdy x) r) = false.
Hypothesis body_shape : ∀ x c w,
  body x (c, w)
  = if send x then (awaited (next_reply w), (c, after_post (url x) (bdy x) w))
    else (inr tt, (c, w)).

(** A loop with at most one request per item: the requests go to the
    items that are sent, in order, and stop at the first rejection;
    the store is only touched by a sign-out. *)
Lemma for_of_run (items : list A) (c : Component) (w : World) :
  let t := tried (List.filter send items) (backend w) in
  ∃ r w' evs,
    for_of items body (c, w) = (r, (c, w'))
    ∧ trace w' = (trace w ++ evs)%list
    ∧ posts evs = map (λ x, EvPost (url (fst x)) (bdy (fst x)) (snd x)) t
    ∧ backend w' = drop (length t) (backend w)
    ∧ quiet evs
    ∧ if forallb (λ x, resolved (snd x)) t
      then r = inr tt ∧ store_kept w w'
      else (∃ detail, r = inl detail) ∧ (store_kept w w' ∨ store_signed_out w w').
Proof.
  revert w. induction items as [|x items IH]; intros w.
  - exists (inr tt), w, []. simpl. rewrite app_nil_r, drop_0. repeat split.
    constructor.
  - simpl for_of. unfold bind at 1. rewrite body_shape. simpl List.filter.
    destruct (send x).
    + simpl tried. fold (next_reply w).
      pose proof (after_post_store (url x) (bdy x) w) as Hstore.
      destruct (next_reply w) as [d | status detail] eqn:Hreply; simpl awaited.
      * simpl in Hstore. destruct Hstore as [Hls Hloc].
        destruct (IH (after_post (url x) (bdy x) w))
          as (r & w' & evs & -> & Htrace & Hposts & Hbackend & Hquiet & Hres).
        assert (backend (after_post (url x) (bdy x) w) = tail (backend w)) as Hb
          by reflexivity.
        rewrite Hb in Hposts, Hbackend, Hres.
        exists r, w', (EvPost (url x) (bdy x) (Resolved d) :: evs).
        split; [reflexivity|].
        split.
        { rewrite Htrace. unfold after_post. rewrite Hreply. simpl.
          by rewrite <- app_assoc. }
        split.
        { unfold posts. rewrite filter_cons_True by done. fold (posts evs).
          by rewrite Hposts. }
        split.
        { rewrite Hbackend. simpl length.
          destruct (backend w); simpl; [by rewrite !drop_nil | done]. }
        split; [constructor; [apply bdy_named | exact Hquiet]|].
        simpl.
        destruct (forallb (λ x0, resolved (snd x0)) (tried (List.filter send items)
                                                      (tail (backend w)))).
        -- destruct Hres as [-> [Hls' Hloc']]. split; [done|].
           split; congruence.
        -- destruct Hres as [Hr Hst]. split; [done|].
           destruct Hst as [[Hls' Hloc'] | [Hls' Hloc']].
           ++ left. split; congruence.
           ++ right. split; [|done]. by rewrite Hls', Hls.
      * exists (inl detail), (after_post (url x) (bdy x) w),
          (EvPost (url x) (bdy x) (Rejected status detail) :: Api.signed_out status).
        split; [reflexivity|].
        split; [unfold after_post; by rewrite Hreply|].
        split.
        { unfold posts. rewrite filter_cons_True by done.
          fold (posts (Api.signed_out status)). by rewrite posts_signed_out. }
        split; [simpl; by destruct (backend w)|].
        split; [constructor; [apply bdy_named | apply signed_out_no_provision]|].
        simpl. split; [eauto|].
        simpl in Hstore. destruct (bool_decide (status = Some 401)); auto.
    + destruct (IH w) as (r & w' & evs & -> & Htrace & Hposts & Hbackend & Hquiet & Hres).
      exists r, w', evs. done.
Qed.

End Loop.

End WizardClient.

Section WizardHandlers.
Import Wizard WizardFacts.

Lemma handleRegisterCompany_run (c : Component) (w : World) :
  let w1 := after_post Api.register_url (company_body (company c)) w in
  handleRegisterCompany (c, w)
  = (inr tt,
     match next_reply w with
     | Resolved d =>
         (mkComponent 1 false (data_id d) (registrationDone c) (company c)
            (textPolicies c) (docFiles c) (dbConfig c) (dbConnectionId c),
          log (EvToast ToastSuccess
                 ("Company " ++ dquote ++ data_name d ++ dquote
                  ++ " registered! ID: " ++ data_id d)) w1)
     | Rejected _ detail =>
         (mkComponent (step c) false (companyId c) (registrationDone c) (company c)
            (textPolicies c) (docFiles c) (dbConfig c) (dbConnectionId c),
          log (EvToast ToastError (or_else detail "Registration failed")) w1)
     end).
Proof.
  intros w1. unfold handleRegisterCompany.
  unfold bind at 1, getState at 1; simpl.
  unfold bind at 1, setLoading at 1, setState at 1; simpl.
  unfold finally, try_catch. unfold bind at 1.
  rewrite api_post_eq. fold w1.
  destruct (next_reply w) as [d | status detail]; reflexivity.
Qed.

Lemma handleConnectDB_run (c : Component) (w : World) :
  let payload :=
    BDatabase (db_title (dbConfig c)) (Some (db_description (dbConfig c)))
      (db_type (dbConfig c)) (spreadsheet_id (dbConfig c))
      (if truthy (sheet_name (dbConfig c)) then Some (sheet_name (dbConfig c)) else None) in
  let w1 := after_post (Api.databases_url (companyId c)) payload w in
  handleConnectDB (c, w)
  = (inr tt,
     match next_reply w with
     | Resolved d =>
         (mkComponent 4 false (companyId c) (registrationDone c) (company c)
            (textPolicies c) (docFiles c) (dbConfig c) (data_id d),
          log (EvToast ToastSuccess "Database connected & schema analyzed by AI!") w1)
     | Rejected _ detail =>
         (mkComponent (step c) false (companyId c) (registrationDone c) (company c)
            (textPolicies c) (docFiles c) (dbConfig c) (dbConnectionId c),
          log (EvToast ToastError (or_else detail "Connection failed")) w1)
     end).
Proof.
  intros payload w1. unfold handleConnectDB.
  unfold bind at 1, getState at 1; simpl.
  unfold bind at 1, setLoading at 1, setState at 1; simpl.
  unfold finally, try_catch. unfold bind at 1.
  rewrite api_post_eq. fold payload. fold w1.
  destruct (next_reply w) as [d | status detail]; reflexivity.
Qed.

Lemma handleProvision_run (c : Component) (w : World) :
  let w1 := after_post (Api.provision_url (companyId c) (dbConnectionId c)) BEmpty w in
  handleProvision (c, w)
  = (inr tt,
     match next_reply w with
     | Resolved d =>
         (mkComponent (step c) false (companyId c) true (company c)
            (textPolicies c) (docFiles c) (dbConfig c) (dbConnectionId c),
          log (EvToast ToastSuccess
                 ("Done! " ++ pretty (passwords_generated d)
                  ++ " passwords generated, " ++ pretty (emails_sent d)
                  ++ " emails sent.")) w1)
     | Rejected _ detail =>
         (mkComponent (step c) false (companyId c) (registrationDone c) (company c)
            (textPolicies c) (docFiles c) (dbConfig c) (dbConnectionId c),
          log (EvToast ToastError (or_else detail "Provisioning failed")) w1)
     end).
Proof.
  intros w1. unfold handleProvision.
  unfold bind at 1, getState at 1; simpl.
  unfold bind at 1, setLoading at 1, setState at 1; simpl.
  unfold finally, try_catch. unfold bind at 1.
  rewrite api_post_eq. fold w1.
  destruct (next_reply w) as [d | status detail]; reflexivity.
Qed.

End WizardHandlers.

Section WizardInvariants.
Import Wizard WizardFacts.

Lemma tried_prefix {A} (items : list A) (replies : list Reply) :
  map fst (tried items replies) = take (length (tried items replies)) items.
Proof.
  revert replies. induction items as [|x items IH]; intros replies; [reflexivity|].
  simpl. f_equal.
  destruct (match replies with r :: _ => r | [] => Rejected None None end); simpl.
  - apply IH.
  - by rewrite take_0.
Qed.

Lemma handleSaveTextPolicies_run (c : Component) (w : World) :
  let t := tried (List.filter complete (textPolicies c)) (backend w) in
  ∃ c' w' evs,
    handleSaveTextPolicies (c, w) = (inr tt, (c', w'))
    ∧ trace w' = (trace w ++ evs)%list
    ∧ posts evs = map (policy_event (companyId c)) t
    ∧ quiet evs
    ∧ frame 2 c w c' w'
    ∧ companyId c' = companyId c
    ∧ dbConnectionId c' = dbConnectionId c
    ∧ if forallb (λ x, resolved (snd x)) t
      then step c' = 2 ∧ last evs = Some (EvToast ToastSuccess "Text policies saved!")
      else step c' = step c
           ∧ last evs = Some (EvToast ToastError "Failed to save policies").
Proof.
  intros t. unfold handleSaveTextPolicies.
  unfold bind at 1, getState at 1; simpl.
  unfold bind at 1, setLoading at 1, setState at 1; simpl.
  unfold finally, try_catch. unfold bind at 1.
  match goal with
  | |- context [for_of ?l ?b (?c1, w)] =>
      destruct (for_of_run complete (λ _, Api.policies_text_url (companyId c))
                  policy_body (save_policy (companyId c))
                  (λ _ _, eq_refl) (save_policy_shape (companyId c)) l c1 w)
        as (r & w1 & evs & -> & Htrace & Hposts & _ & Hquiet & Hres)
  end.
  simpl in Hposts, Hres. fold t in Hposts, Hres.
  destruct (forallb (λ x, resolved (snd x)) t).
  - destruct Hres as [-> [Hls Hloc]]. run_handler.
    do 2 eexists. exists (evs ++ [EvToast ToastSuccess "Text policies saved!"])%list.
    split; [reflexivity|]. simpl.
    split; [by rewrite Htrace, <- app_assoc|].
    split; [by rewrite posts_app, Hposts, app_nil_r|].
    split; [by apply quiet_snoc|].
    split; [|split; [done|split; [done|split; [done|apply last_snoc]]]].
    split; [by repeat split|]. split; [done|]. left. split; [by split|by right].
  - destruct Hres as [[detail ->] Hst]. run_handler.
    do 2 eexists. exists (evs ++ [EvToast ToastError "Failed to save policies"])%list.
    split; [reflexivity|]. simpl.
    split; [by rewrite Htrace, <- app_assoc|].
    split; [by rewrite posts_app, Hposts, app_nil_r|].
    split; [by apply quiet_snoc|].
    split; [|split; [done|split; [done|split; [done|apply last_snoc]]]].
    split; [by repeat split|]. split; [done|].
    destruct Hst as [Hst | Hst]; [left | right]; split; auto.
Qed.

Lemma filter_all {A} (l : list A) : List.filter (λ _, true) l = l.
Proof. induction l as [|x l IH]; simpl; congruence. Qed.

Lemma handleUploadDocs_frame (c : Component) (w : World) :
  ∃ c' w' evs,
    handleUploadDocs (c, w) = (inr tt, (c', w'))
    ∧ trace w' = (trace w ++ evs)%list
    ∧ quiet evs
    ∧ frame 3 c w c' w'.
Proof.
  unfold handleUploadDocs.
  unfold bind at 1, getState at 1; simpl.
  unfold bind at 1, setLoading at 1, setState at 1; simpl.
  unfold finally, try_catch. unfold bind at 1.
  match goal with
  | |- context [for_of ?l ?b (?c1, w)] =>
      destruct (for_of_run (λ _, true) (λ _, Api.policies_document_url (companyId c))
                  document_body (upload_document (companyId c))
                  (λ _ _, eq_refl) (upload_document_shape (companyId c)) l c1 w)
        as (r & w1 & evs & -> & Htrace & _ & _ & Hquiet & Hres)
  end.
  simpl in Hres.
  destruct (forallb _ _).
  - destruct Hres as [-> [Hls Hloc]]. run_handler.
    do 3 eexists. split; [reflexivity|]. simpl.
    split; [by rewrite Htrace, <- app_assoc|].
    split; [by apply quiet_snoc|].
    split; [by repeat split|]. split; [done|]. left. split; [by split|by right].
  - destruct Hres as [[detail ->] Hst]. run_handler.
    do 3 eexists. split; [reflexivity|]. simpl.
    split; [by rewrite Htrace, <- app_assoc|].
    split; [by apply quiet_snoc|].
    split; [by repeat split|]. split; [done|].
    destruct Hst as [Hst | Hst]; [left | right]; split; auto.
Qed.

Lemma handleRegisterCompany_frame (c : Component) (w : World) :
  ∃ c' w' evs,
    handleRegisterCompany (c, w) = (inr tt, (c', w'))
    ∧ trace w' = (trace w ++ evs)%list
    ∧ quiet evs
    ∧ frame 1 c w c' w'.
Proof.
  pose proof (handleRegisterCompany_run c w) as Hrun. cbn zeta in Hrun. rewrite Hrun.
  pose proof (after_post_store Api.register_url (company_body (company c)) w) as Hst.
  destruct (next_reply w) as [d | status detail] eqn:Hreply.
  - do 3 eexists. split; [reflexivity|].
    split; [simpl; rewrite Hreply; by rewrite <- app_assoc|].
    split; [repeat constructor|].
    split; [by repeat split|]. split; [done|]. left. simpl in Hst. by split; [|right].
  - do 3 eexists. split; [reflexivity|].
    split; [simpl; rewrite Hreply; by rewrite <- app_assoc|].
    split; [constructor; [done|]; apply quiet_snoc;
            [apply signed_out_no_provision | done]|].
    split; [by repeat split|]. split; [done|].
    simpl in Hst. destruct (bool_decide (status = Some 401)); [right | left]; split; auto.
Qed.

Lemma handleConnectDB_frame (c : Component) (w : World) :
  ∃ c' w' evs,
    handleConnectDB (c, w) = (inr tt, (c', w'))
    ∧ trace w' = (trace w ++ evs)%list
    ∧ quiet evs
    ∧ frame 4 c w c' w'.
Proof.
  pose proof (handleConnectDB_run c w) as Hrun. cbn zeta in Hrun. rewrite Hrun.
  match type of Hrun with
  | context [after_post ?u ?b w] => pose proof (after_post_store u b w) as Hst
  end.
  destruct (next_reply w) as [d | status detail] eqn:Hreply.
  - do 3 eexists. split; [reflexivity|].
    split; [simpl; rewrite Hreply; by rewrite <- app_assoc|].
    split; [repeat constructor|].
    split; [by repeat split|]. split; [done|]. left. simpl in Hst. by split; [|right].
  - do 3 eexists. split; [reflexivity|].
    split; [simpl; rewrite Hreply; by rewrite <- app_assoc|].
    split; [constructor; [done|]; apply quiet_snoc;
            [apply signed_out_no_provision | done]|].
    split; [by repeat split|]. split; [done|].
    simpl in Hst. destruct (bool_decide (status = Some 401)); [right | left]; split; auto.
Qed.

Lemma provisioned_count_app (t evs : list Event) :
  provisioned_count (t ++ evs) = provisioned_count t + provisioned_count evs.
Proof. unfold provisioned_count. by rewrite List.filter_app, length_app. Qed.

Lemma provisioned_count_quiet (evs : list Event) :
  quiet evs → provisioned_count evs = 0.
Proof.
  induction 1 as [|e evs He _ IH]; [reflexivity|].
  unfold provisioned_count in *. simpl.
  destruct e as [url [] [] | | | | |]; simpl in *; try done.
Qed.

Lemma signed_out_store_idemp (store : gmap string string) :
  signed_out_store (signed_out_store store) = signed_out_store store.
Proof.
  unfold signed_out_store.
  apply map_eq. intros k.
  destruct (decide (k = Api.KEY_USER)) as [->|Hu];
    [by rewrite !lookup_delete_eq|].
  destruct (decide (k = Api.KEY_TOKEN)) as [->|Ht].
  - rewrite !(lookup_delete_ne _ Api.KEY_USER) by done. by rewrite !lookup_delete_eq.
  - by rewrite !lookup_delete_ne by done.
Qed.

End WizardInvariants.

(** ** What holds of the wizard along every run *)

Section WizardAlong.
Import Wizard WizardFacts.

Lemma after_handler_inv (store : gmap string string) (path : string)
    (w : World) r (c' : Component) (w' : World) :
  location w = path →
  settled (mkApp (Some c') w') →
  provisioned_once (mkApp (Some c') w') →
  store_of store (mkApp (Some c') w') →
  wizard_inv store path (after_handler w (r, (c', w'))).
Proof.
  intros Hpath Hsettled [Hmost Hcount] Hstore. unfold after_handler.
  destruct (String.eqb (location w') (location w)) eqn:Hloc.
  - apply String.eqb_eq in Hloc.
    split; [exact Hsettled|]. split; [by split|]. split; [exact Hstore|].
    unfold stays; simpl. congruence.
  - split; [exact I|]. split; [by split|]. split; [exact Hstore | exact I].
Qed.

Lemma inv_frame (store : gmap string string) (path : string) (k : nat)
    (c c' : Component) (w w' : World) (evs : list Event) r :
  wizard_inv store path (mkApp (Some c) w) →
  (k ≤ 4)%nat →
  trace w' = (trace w ++ evs)%list →
  quiet evs →
  frame k c w c' w' →
  wizard_inv store path (after_handler w (r, (c', w'))).
Proof.
  intros ((Hbusy & Hpol & Hstep) & (Hmost & Hcount) & Hstore & Hstays) Hk Htrace Hquiet
    ((Hl & _ & Hp & _ & _) & Hdone & Hst).
  simpl in Hbusy, Hpol, Hstep, Hmost, Hcount, Hstore, Hstays.
  assert (provisioned_count (trace w') = provisioned_count (trace w)) as Hsame.
  { rewrite Htrace, provisioned_count_app, (provisioned_count_quiet evs Hquiet). lia. }
  apply after_handler_inv; [exact Hstays | | |].
  - repeat split; simpl; [done | congruence |].
    destruct Hst as [[_ [-> | ->]] | [_ ->]]; lia.
  - split; simpl; rewrite Hsame; [done|]. by rewrite Hdone.
  - unfold store_of in *; simpl in Hstore |- *.
    destruct Hst as [[[Hls Hloc] _] | [[Hls Hloc] _]].
    + rewrite Hls, Hloc. destruct Hstore as [? | [? ?]]; auto.
    + right. split; [|done]. rewrite Hls.
      destruct Hstore as [-> | [-> _]]; [done | apply signed_out_store_idemp].
Qed.

Lemma inv_local (store : gmap string string) (path : string)
    (c c' : Component) (w : World) r :
  wizard_inv store path (mkApp (Some c) w) →
  loading c' = loading c →
  textPolicies c' ≠ [] →
  (step c' ≤ 4)%nat →
  registrationDone c' = registrationDone c →
  wizard_inv store path (after_handler w (r, (c', w))).
Proof.
  intros ((Hbusy & Hpol & Hstep) & (Hmost & Hcount) & Hstore & Hstays) Hl Hp Hs Hd.
  simpl in Hbusy, Hpol, Hstep, Hmost, Hcount, Hstore, Hstays.
  apply after_handler_inv; [exact Hstays | | |].
  - repeat split; simpl; [congruence | done | done].
  - split; simpl; [done|]. by rewrite Hd.
  - exact Hstore.
Qed.

Lemma inv_provision (store : gmap string string) (path : string)
    (c : Component) (w : World) :
  wizard_inv store path (mkApp (Some c) w) →
  registrationDone c = false →
  wizard_inv store path (after_handler w (handleProvision (c, w))).
Proof.
  intros ((Hbusy & Hpol & Hstep) & (Hmost & Hcount) & Hstore & Hstays) Hdone.
  simpl in Hbusy, Hpol, Hstep, Hmost, Hcount, Hstore, Hstays. rewrite Hdone in Hcount.
  pose proof (handleProvision_run c w) as Hrun. cbn zeta in Hrun. rewrite Hrun.
  pose proof (after_post_store (Api.provision_url (companyId c) (dbConnectionId c))
                BEmpty w) as Hst.
  assert (∀ status, provisioned_count (Api.signed_out status) = 0) as Hso
    by (intros status; apply provisioned_count_quiet, signed_out_no_provision).
  destruct (next_reply w) as [d | status detail] eqn:Hreply.
  - simpl in Hst. destruct Hst as [Hls Hloc].
    apply after_handler_inv; [exact Hstays | | |].
    + by repeat split.
    + assert (provisioned_count
                (trace (log (EvToast ToastSuccess
                   ("Done! " ++ pretty (passwords_generated d)
                    ++ " passwords generated, " ++ pretty (emails_sent d)
                    ++ " emails sent."))
                   (after_post (Api.provision_url (companyId c) (dbConnectionId c))
                      BEmpty w))) = 1) as Hone.
      { simpl. rewrite Hreply. rewrite !provisioned_count_app, Hcount. reflexivity. }
      split; cbn [world mounted registrationDone]; rewrite Hone; done.
    + unfold store_of in *; simpl in Hstore |- *. rewrite Hreply; simpl. exact Hstore.
  - apply after_handler_inv; [exact Hstays | | |].
    + by repeat split.
    + assert (provisioned_count
                (trace (log (EvToast ToastError (or_else detail "Provisioning failed"))
                   (after_post (Api.provision_url (companyId c) (dbConnectionId c))
                      BEmpty w))) = 0) as Hzero.
      { simpl. rewrite Hreply. rewrite !provisioned_count_app, Hcount.
        change (provisioned_count
                  (EvPost (Api.provision_url (companyId c) (dbConnectionId c)) BEmpty
                     (Rejected status detail) :: Api.signed_out status))
          with (provisioned_count (Api.signed_out status)).
        by rewrite Hso. }
      split; cbn [world mounted registrationDone]; rewrite Hzero; [lia|].
      by rewrite Hdone.
    + unfold store_of in *. simpl in Hst, Hstore. cbn [world localStorage location log].
      destruct (bool_decide (status = Some 401)).
      * destruct Hst as [Hls Hloc]. right. split; [|exact Hloc]. rewrite Hls.
        destruct Hstore as [-> | [-> _]]; [done | apply signed_out_store_idemp].
      * destruct Hst as [Hls Hloc]. rewrite Hls, Hloc. exact Hstore.
Qed.

End WizardAlong.

(** Run a handler that only sets cells of the wizard. *)
Ltac run_setter :=
  unfold Wizard.addTextPolicy, Wizard.removeTextPolicy, Wizard.updateTextPolicy,
    Wizard.handleFileChange,
    Wizard.setCompany, Wizard.setDbConfig, Wizard.setStep, Wizard.setTextPolicies,
    Wizard.setDocFiles,
    bind, getState, setState;
  cbn [fst snd].

Section WizardTheorems.
Import Wizard WizardFacts.

Lemma app_step_inv (store : gmap string string) (path : string) (a : Action) (s : App) :
  wizard_inv store path s → wizard_inv store path (app_step a s).
Proof.
  intros Hinv. destruct s as [[c|] w]; [|exact Hinv].
  pose proof Hinv as ((Hbusy & Hpol & Hstep) & _).
  cbn [mounted] in Hbusy, Hpol, Hstep.
  unfold app_step. cbv zeta. cbn [mounted world].
  destruct a;
    repeat lazymatch goal with
           | |- wizard_inv _ _ (if ?b then _ else _) =>
               destruct b eqn:?; [|exact Hinv]
           | |- wizard_inv _ _ (match step c with _ => _ end) =>
               destruct (step c) as [|[|[|[|?]]]] eqn:?; try exact Hinv
           end;
    repeat match goal with
           | Heq : Nat.eqb _ _ = true |- _ => apply Nat.eqb_eq in Heq
           | Heq : Nat.ltb _ _ = true |- _ => apply Nat.ltb_lt in Heq
           | Heq : _ && _ = true |- _ => apply andb_prop in Heq as [? ?]
           end.
  - run_setter. by apply (inv_local store path c).
  - destruct (handleRegisterCompany_frame c w) as (c' & w' & evs & -> & Ht & Hq & Hf).
    by apply (inv_frame store path 1 c c' w w' evs); [| lia | | |].
  - run_setter.
    apply (inv_local store path c); simpl; try done.
    by destruct (textPolicies c).
  - run_setter.
    apply (inv_local store path c); simpl; try done.
    intros Hnil. apply (f_equal length) in Hnil.
    rewrite length_app, length_take, length_drop in Hnil. simpl in Hnil. lia.
  - rewrite updateTextPolicy_rendered by (by apply Nat.ltb_lt).
    apply (inv_local store path c); simpl; try done.
    intros Hnil. apply (f_equal length) in Hnil.
    rewrite length_alter in Hnil. simpl in Hnil. lia.
  - destruct (handleSaveTextPolicies_run c w)
      as (c' & w' & evs & -> & Ht & _ & Hq & Hf & _).
    by apply (inv_frame store path 2 c c' w w' evs); [| lia | | |].
  - run_setter. by apply (inv_local store path c).
  - destruct (handleUploadDocs_frame c w) as (c' & w' & evs & -> & Ht & Hq & Hf).
    by apply (inv_frame store path 3 c c' w w' evs); [| lia | | |].
  - run_setter. by apply (inv_local store path c).
  - destruct (handleConnectDB_frame c w) as (c' & w' & evs & -> & Ht & Hq & Hf).
    by apply (inv_frame store path 4 c c' w w' evs); [| lia | | |].
  - apply inv_provision; [exact Hinv|]. by destruct (registrationDone c).
  - run_setter. apply (inv_local store path c); simpl; try done. lia.
  - run_setter. apply (inv_local store path c); simpl; try done. lia.
  - run_setter. apply (inv_local store path c); simpl; try done. lia.
Qed.

Lemma run_inv (store : gmap string string) (path : string)
    (actions : list Action) (s : App) :
  wizard_inv store path s → wizard_inv store path (run actions s).
Proof.
  revert s. induction actions as [|a actions IH]; intros s Hs; [exact Hs|].
  simpl. apply IH. by apply app_step_inv.
Qed.

Lemma start_inv (user_company_id : option string) (store : gmap string string)
    (path : string) (replies : list Reply) :
  wizard_inv store path (start user_company_id store path replies).
Proof.
  split; [|split; [|split]].
  - split; [reflexivity|]. split; [discriminate|]. simpl. lia.
  - split; [unfold provisioned_count; simpl; lia | reflexivity].
  - by left.
  - reflexivity.
Qed.

(** X11. "Save & Continue" passes over the text policies that lack a
    title or a content and sends the others, one request each, in the
    order of the list, stopping at the first that is rejected; the list
    itself is not changed.  The wizard moves to the document step only
    when every request resolved; otherwise it stays and reports "Failed
    to save policies", whatever detail the backend gave. *)
Theorem save_sends_complete_policies (c : Component) (w : World) :
  let wanted := List.filter complete (textPolicies c) in
  let t := tried wanted (backend w) in
  ∃ c' w' evs,
    handleSaveTextPolicies (c, w) = (inr tt, (c', w'))
    ∧ trace w' = (trace w ++ evs)%list
    ∧ posts evs = map (policy_event (companyId c)) t
    ∧ map fst t = take (length t) wanted
    ∧ textPolicies c' = textPolicies c
    ∧ loading c' = false
    ∧ if forallb (λ x, resolved (snd x)) t
      then step c' = 2 ∧ last evs = Some (EvToast ToastSuccess "Text policies saved!")
      else step c' = step c
           ∧ last evs = Some (EvToast ToastError "Failed to save policies").
Proof.
  intros wanted t.
  destruct (handleSaveTextPolicies_run c w)
    as (c' & w' & evs & Hrun & Ht & Hposts & _ & ((Hl & _ & Hp & _) & _) & _ & _ & Hres).
  exists c', w', evs. do 3 (split; [done|]).
  split; [apply tried_prefix|]. done.
Qed.

(** X12. The wizard keeps nothing in the browser's store.  Along every
    run the store is the one the wizard was opened with, or that store
    without the token and the user after a 401 has signed the user out;
    in that case the browser is on the login page and, unless the
    wizard was opened there, the wizard is gone. *)
Theorem wizard_keeps_nothing_in_store (user_company_id : option string)
    (store : gmap string string) (path : string) (replies : list Reply)
    (actions : list Action) :
  let s := run actions (start user_company_id store path replies) in
  localStorage (world s) = store
  ∨ localStorage (world s) = signed_out_store store
    ∧ location (world s) = "/login"
    ∧ (path ≠ "/login" → mounted s = None).
Proof.
  intros s.
  destruct (run_inv store path actions _
              (start_inv user_company_id store path replies))
    as (_ & _ & Hstore & Hstays).
  fold s in Hstore, Hstays.
  destruct Hstore as [Hsame | [Hout Hlogin]]; [by left|].
  right. do 2 (split; [done|]). intros Hpath.
  unfold stays in Hstays. destruct (mounted s); [congruence | done].
Qed.

(** X13. Between two actions the wizard is never left busy and never
    without a text policy to fill in: along every run [loading] is off
    again, whether the last request resolved or not, the list of text
    policies is not empty, and the step is one of the five. *)
Theorem wizard_settles (user_company_id : option string)
    (store : gmap string string) (path : string) (replies : list Reply)
    (actions : list Action) (c : Component) :
  mounted (run actions (start user_company_id store path replies)) = Some c →
  loading c = false ∧ textPolicies c ≠ [] ∧ (step c ≤ 4)%nat.
Proof.
  intros Hc.
  destruct (run_inv store path actions _
              (start_inv user_company_id store path replies)) as (Hsettled & _).
  unfold settled in Hsettled. by rewrite Hc in Hsettled.
Qed.

(** X14. The wizard provisions the employees at most once.  Along every
    run at most one provisioning request has resolved, and while the
    wizard is showing, one has resolved exactly when it shows its final
    screen ([registrationDone]); a rejected provisioning can be tried
    again. *)
Theorem wizard_provisions_at_most_once (user_company_id : option string)
    (store : gmap string string) (path : string) (replies : list Reply)
    (actions : list Action) :
  let s := run actions (start user_company_id store path replies) in
  (provisioned_count (trace (world s)) ≤ 1)%nat
  ∧ ∀ c, mounted s = Some c →
         provisioned_count (trace (world s)) = if registrationDone c then 1 else 0.
Proof.
  intros s.
  destruct (run_inv store path actions _
              (start_inv user_company_id store path replies))
    as (_ & (Hmost & Hcount) & _).
  fold s in Hmost, Hcount. split; [exact Hmost|].
  intros c Hc. by rewrite Hc in Hcount.
Qed.

End WizardTheorems.

(** ** Editing in the wizard *)

Section WizardEdits.
Import Wizard WizardFacts.

(** X15. The wizard's registration checks nothing and remembers
    nothing.  Whatever the company form holds, empty fields included,
    and whatever company id the wizard already has, a click on
    "Register" sends exactly one request with the form as it is.  When
    it resolves, the wizard moves to the policy step and the id of the
    response replaces the one it had; when it is rejected, the wizard
    stays with the id it had and reports the backend's detail or
    "Registration failed". *)
Theorem wizard_registration_is_unguarded (c : Component) (w : World) :
  ∃ c' w' rest,
    handleRegisterCompany (c, w) = (inr tt, (c', w'))
    ∧ trace w'
      = (trace w ++ EvPost Api.register_url (company_body (company c)) (next_reply w)
           :: rest)%list
    ∧ posts rest = []
    ∧ kept c c'
    ∧ match next_reply w with
      | Resolved d => step c' = 1 ∧ companyId c' = data_id d
      | Rejected _ detail =>
          step c' = step c
          ∧ companyId c' = companyId c
          ∧ last rest = Some (EvToast ToastError (or_else detail "Registration failed"))
      end.
Proof.
  pose proof (handleRegisterCompany_run c w) as Hrun. cbn zeta in Hrun. rewrite Hrun.
  destruct (next_reply w) as [d | status detail] eqn:Hreply.
  - do 3 eexists. split; [reflexivity|].
    split; [simpl; rewrite Hreply; by rewrite <- app_assoc|].
    split; [reflexivity|]. split; [by repeat split|]. done.
  - do 3 eexists. split; [reflexivity|].
    split; [simpl; rewrite Hreply; by rewrite <- app_assoc|].
    split; [by rewrite posts_app, posts_signed_out|].
    split; [by repeat split|]. do 2 (split; [reflexivity|]). apply last_snoc.
Qed.

(** X16. Editing the text policies touches one entry.  Removing the
    entry at [idx] shifts the later entries down by one and leaves the
    earlier ones in place.  Typing into a field of an entry of the list
    ([idx] below its length, as for every entry the page renders) sets
    that field of that entry and leaves its other fields, the other
    entries and the length of the list alone; past the end of the list
    the assignment throws and nothing changes.  Adding appends one blank
    entry.  None of them sends a request or touches the world. *)
Theorem policy_edits_touch_one_entry (c : Component) (w : World)
    (idx : nat) (field : PolicyField) (value : string) :
  (∃ c', removeTextPolicy idx (c, w) = (inr tt, (c', w))
         ∧ ∀ i, textPolicies c' !! i
                = if Nat.ltb i idx then textPolicies c !! i
                  else textPolicies c !! S i)
  ∧ ((idx < length (textPolicies c))%nat →
     ∃ c', updateTextPolicy idx field value (c, w) = (inr tt, (c', w))
           ∧ length (textPolicies c') = length (textPolicies c)
           ∧ textPolicies c' !! idx = set_field field value <$> textPolicies c !! idx
           ∧ ∀ i, i ≠ idx → textPolicies c' !! i = textPolicies c !! i)
  ∧ ((length (textPolicies c) ≤ idx)%nat →
     updateTextPolicy idx field value (c, w) = (inl None, (c, w)))
  ∧ (∃ c', addTextPolicy (c, w) = (inr tt, (c', w))
           ∧ textPolicies c' = (textPolicies c ++ [mkTextPolicy "" "" ""])%list).
Proof.
  split; [|split; [|split]].
  - eexists. split; [unfold removeTextPolicy, setTextPolicies; by run_handler|].
    simpl. intros i. destruct (Nat.ltb i idx) eqn:Hlt.
    + apply Nat.ltb_lt in Hlt.
      destruct (decide (idx ≤ length (textPolicies c))%nat) as [Hle|Hgt].
      * rewrite lookup_app_l by (rewrite length_take; lia).
        by rewrite lookup_take_lt.
      * rewrite take_ge by lia. rewrite drop_ge by lia. by rewrite app_nil_r.
    + apply Nat.ltb_ge in Hlt.
      destruct (decide (idx ≤ length (textPolicies c))%nat) as [Hle|Hgt].
      * rewrite lookup_app_r by (rewrite length_take; lia).
        rewrite length_take, lookup_drop. f_equal. lia.
      * rewrite take_ge by lia. rewrite drop_ge by lia. rewrite app_nil_r.
        rewrite !lookup_ge_None_2 by lia. done.
  - intros Hidx. apply Nat.ltb_lt in Hidx.
    rewrite (updateTextPolicy_rendered idx field value c w Hidx).
    eexists. split; [reflexivity|].
    simpl. split; [apply length_alter|].
    split; [apply list_lookup_alter_eq|].
    intros i Hi. by apply list_lookup_alter_ne.
  - intros Hidx. apply Nat.ltb_ge in Hidx.
    unfold updateTextPolicy, bind, getState, throw; simpl. rewrite Hidx.
    by destruct c.
  - eexists. split; [unfold addTextPolicy, setTextPolicies; by run_handler|]. done.
Qed.




(** The characters an extension is made of. *)
Lemma extension_chars_app (s t : string) :
  extension_chars (s ++ t) = extension_chars s && extension_chars t.
Proof.
  induction s as [|a s IH]; [reflexivity|].
  simpl. rewrite IH.
  destruct a as [[] [] [] [] [] [] [] []]; reflexivity.
Qed.

(** X18. The title of an uploaded document is the file name without its
    last extension.  A name that ends in a dot followed by a non-empty
    extension without dot or slash loses exactly that extension, however
    many dots come before; a name without dot and slash is kept whole;
    and in every case the title is a prefix of the name. *)
Theorem strip_extension_drops_last_extension (base ext : string) :
  (ext ≠ "" → extension_chars ext = true →
   strip_extension (base ++ "." ++ ext) = base)
  ∧ (extension_chars base = true → strip_extension base = base)
  ∧ ∃ rest, base = strip_extension base ++ rest.
Proof.
  split; [|split].
  - intros Hne Hext. induction base as [|a base IH].
    + simpl. destruct ext; [done|]. simpl in *. by rewrite Hext.
    + change (String a base ++ "." ++ ext) with (String a (base ++ "." ++ ext)).
      cbn [strip_extension].
      replace (extension_chars (base ++ "." ++ ext)) with false.
      * rewrite andb_false_r. by rewrite IH.
      * rewrite extension_chars_app. simpl. by rewrite andb_false_r.
  - induction base as [|a base IH]; [reflexivity|].
    intros Hchars. simpl in *.
    destruct (Ascii.eqb a ".") eqn:Hdot.
    + apply Ascii.eqb_eq in Hdot. subst a. discriminate.
    + simpl. rewrite IH; [done|].
      destruct a as [[] [] [] [] [] [] [] []]; try done.
  - induction base as [|a base [rest IH]]; [by exists ""|].
    simpl. destruct (Ascii.eqb a "." && truthy base && extension_chars base).
    + by eexists.
    + exists rest.
      change (String a base = String a (strip_extension base ++ rest)). by f_equal.
Qed.

End WizardEdits.

(** ** Signing in and out *)

Section AuthFacts.
Import Auth Client.
Context `{JsonCodec User}.

Lemma restore_signed_in (c : Context) (w : World) (text token : string) (u : User) :
  localStorage w !! Api.KEY_USER = Some text → text ≠ "" →
  localStorage w !! Api.KEY_TOKEN = Some token → token ≠ "" →
  JSON_parse text = Some u →
  restore (c, w) = (inr tt, (mkContext (Some u) false, w)).
Proof.
  intros Huser Hne Htoken Hne' Hparse. unfold restore. run_handler.
  rewrite Huser, Htoken. destruct text; [done|]. destruct token; [done|]. simpl.
  rewrite Hparse. unfold setUser, setLoading. run_handler. by destruct w.
Qed.

Lemma restore_signed_out (c : Context) (w : World) :
  truthy_opt (localStorage w !! Api.KEY_USER)
  && truthy_opt (localStorage w !! Api.KEY_TOKEN) = false →
  restore (c, w) = (inr tt, (mkContext (user c) false, w)).
Proof.
  intros Hno. unfold restore. run_handler. rewrite Hno.
  unfold setLoading. run_handler. by destruct w.
Qed.

(** X19. A login survives a reload exactly when the response carried a
    token.  [login] on a resolved request stores the token and the
    user, changes no other key and holds the user; provided the stored
    text reads back as the user, a provider mounted afterwards holds
    that user again when the token is not empty, and no user when it
    is. *)
Theorem login_survives_reload (c : Context) (w : World) (u : User) :
  JSON_parse (JSON_stringify u) = Some u →
  JSON_stringify u ≠ "" →
  ∃ c' w',
    login (LoginResolved u) (c, w) = (inr u, (c', w'))
    ∧ user c' = Some u
    ∧ localStorage w'
      = <[Api.KEY_USER:=JSON_stringify u]> (<[Api.KEY_TOKEN:=access_token u]> (localStorage w))
    ∧ location w' = location w
    ∧ restore (initial, w')
      = (inr tt, (mkContext (if truthy (access_token u) then Some u else None) false, w')).
Proof.
  intros Hlaw Hne. unfold login, authAPI_login, setUser. run_handler.
  do 2 eexists. split; [reflexivity|]. simpl. do 3 (split; [reflexivity|]).
  destruct (truthy (access_token u)) eqn:Htoken.
  - apply (restore_signed_in _ _ (JSON_stringify u) (access_token u)); simpl; try done.
    + apply lookup_insert_eq.
    + rewrite lookup_insert_ne by done. apply lookup_insert_eq.
    + by destruct (access_token u).
  - apply (restore_signed_out initial); simpl.
    rewrite lookup_insert_eq. rewrite lookup_insert_ne by done. rewrite lookup_insert_eq.
    destruct (access_token u); [|discriminate]. apply andb_false_r.
Qed.

(** X20. Signing out ends the session for good.  [handleLogout]
    removes the token and the user from the store and nothing else,
    drops the user, sends no request and goes to the login page, which
    the router then shows; a provider mounted afterwards holds no user,
    and every protected route sends it to the login page. *)
Theorem logout_ends_session (c : Context) (w : World) (children : Element) :
  ∃ c' w',
    handleLogout (c, w) = (inr tt, (c', w'))
    ∧ user c' = None
    ∧ localStorage w' = signed_out_store (localStorage w)
    ∧ location w' = "/login"
    ∧ posts (trace w') = posts (trace w)
    ∧ AppRoutes (route_of (location w')) c' = ShowLoginPage
    ∧ restore (initial, w') = (inr tt, (mkContext None false, w'))
    ∧ ProtectedRoute (mkContext None false) children = Navigate "/login".
Proof.
  unfold handleLogout, logout, setUser. run_handler.
  do 2 eexists. split; [reflexivity|]. simpl. do 3 (split; [reflexivity|]).
  split; [by rewrite <- !app_assoc, posts_app, app_nil_r|].
  split; [reflexivity|]. split; [|reflexivity].
  apply (restore_signed_out initial); simpl. by rewrite lookup_delete_eq.
Qed.

(** X21. A 401 ends the session as a logout does.  When the backend
    answers any request of the client with a 401, the interceptor has
    removed the token and the user and sent the browser to the login
    page by the time the caller sees the rejection; a provider mounted
    afterwards holds no user. *)
Theorem unauthorized_reply_ends_session {C} (url : string) (body : Body)
    (c : C) (w : World) (detail : option string) :
  next_reply w = Rejected (Some 401) detail →
  ∃ w',
    Api.post url body (c, w) = (inl detail, (c, w'))
    ∧ localStorage w' = signed_out_store (localStorage w)
    ∧ location w' = "/login"
    ∧ restore (initial, w') = (inr tt, (mkContext None false, w')).
Proof.
  intros Hreply. rewrite api_post_eq, Hreply.
  eexists. split; [reflexivity|].
  unfold after_post. rewrite Hreply. simpl. do 2 (split; [reflexivity|]).
  apply (restore_signed_out initial); simpl.
  unfold signed_out_store. by rewrite lookup_delete_eq.
Qed.

End AuthFacts.

Section LoginFacts.
Import Auth Login Client.
Context `{JsonCodec User}.

(** X22. A login lands on a page the router lets the user in to.  When
    the request resolves, the page greets the user and navigates to
    [/onboarding] if the role chosen in the form is hr or admin and to
    [/chat] otherwise, whatever role the response carries; the context
    holds the user by then, so, once the provider has loaded, the
    protected route it lands on shows its page.  When the request is
    rejected, the page reports the backend's detail or the default text
    and shows the support card; the user of the context is unchanged.
    Either way the page is not left busy. *)
Theorem login_lands_inside (c : Component) (w : World) (r : LoginReply) :
  ∃ c' w' evs,
    handleSubmit r (c, w) = (inr tt, (c', w'))
    ∧ trace w' = (trace w ++ evs)%list
    ∧ loading c' = false
    ∧ form c' = form c
    ∧ match r with
      | LoginResolved u =>
          Auth.user (auth c') = Some u
          ∧ location w'
            = (if String.eqb (form_role (form c)) "hr"
                  || String.eqb (form_role (form c)) "admin"
               then "/onboarding" else "/chat")
          ∧ last evs = Some (EvNavigate (location w'))
          ∧ (Auth.loading (auth c) = false →
             protected (AppRoutes (route_of (location w')) (auth c')) = true)
      | LoginRejected status detail =>
          auth c' = auth c
          ∧ showSupport c' = true
          ∧ last evs
            = Some (EvToast ToastError (or_else detail "Login failed. Check your credentials."))
          ∧ if bool_decide (status = Some 401)
            then localStorage w' = signed_out_store (localStorage w)
                 ∧ location w' = "/login"
            else localStorage w' = localStorage w ∧ location w' = location w
      end.
Proof.
  destruct c as [[u0 busy] l s f].
  unfold handleSubmit, useAuth, login, authAPI_login, setUser, Login.setLoading,
    setShowSupport.
  destruct r as [u | status detail]; run_handler.
  - destruct (String.eqb (form_role f) "hr" || String.eqb (form_role f) "admin");
      run_handler;
      (do 3 eexists; split; [reflexivity|]; simpl;
       split; [rewrite <- ?app_assoc; reflexivity|];
       do 2 (split; [reflexivity|]);
       do 2 (split; [reflexivity|]); split; [reflexivity|];
       by intros ->).
  - destruct (bool_decide (status = Some 401)); run_handler;
      (do 3 eexists; split; [reflexivity|]; simpl;
       split; [rewrite <- ?app_assoc; reflexivity|]; by repeat split).
Qed.

End LoginFacts.

Section BellFacts.
Import Bell.

Lemma unread_after_mark (id' : string) (l : list Notification) :
  length (List.filter (λ n, negb (is_read n))
            (map (λ n, if String.eqb (id n) id' then read n else n) l))
  + unread_with id' l
  = length (List.filter (λ n, negb (is_read n)) l).
Proof.
  unfold unread_with. induction l as [|n l IH]; [reflexivity|].
  simpl. destruct (String.eqb (id n) id'); simpl.
  - destruct (is_read n); simpl; lia.
  - destruct (is_read n); simpl; lia.
Qed.

Lemma marked_none_unread (id' : string) (l : list Notification) :
  unread_with id' (map (λ n, if String.eqb (id n) id' then read n else n) l) = 0.
Proof.
  unfold unread_with. induction l as [|n l IH]; [reflexivity|].
  simpl. destruct (String.eqb (id n) id') eqn:Hid; simpl.
  - rewrite Hid. simpl. exact IH.
  - rewrite Hid. simpl. exact IH.
Qed.

Lemma marked_same_ids (id' : string) (l : list Notification) :
  map id (map (λ n, if String.eqb (id n) id' then read n else n) l) = map id l.
Proof.
  induction l as [|n l IH]; [reflexivity|].
  simpl. rewrite IH. by destruct (String.eqb (id n) id').
Qed.

(** X23. A click on a notification marks it read only once the backend
    has confirmed it.  [markRead] never throws, sends one request and
    reports nothing.  When the request resolves, every notification
    with that id is read and the others are as they were: the list
    keeps its ids and their order, and the unread count goes down by
    the number of unread notifications with that id, so it never goes
    up.  When the request is rejected, the list is unchanged. *)
Theorem markRead_marks (id' : string) (c : Component) (w : World) :
  ∃ c',
    markRead id' (c, w)
    = (inr tt, (c', Client.after_post (markRead_url id') BEmpty w))
    ∧ isOpen c' = isOpen c
    ∧ map id (notifications c') = map id (notifications c)
    ∧ (unreadCount c' ≤ unreadCount c)%nat
    ∧ match next_reply w with
      | Resolved _ =>
          notifications c'
          = map (λ n, if String.eqb (id n) id' then read n else n) (notifications c)
          ∧ unreadCount c' + unread_with id' (notifications c) = unreadCount c
          ∧ unread_with id' (notifications c') = 0
      | Rejected _ _ => notifications c' = notifications c
      end.
Proof.
  unfold markRead, try_catch, bind. rewrite api_post_eq.
  destruct (next_reply w) as [d | status detail].
  - unfold setNotifications, setState. cbn [fst snd].
    eexists. split; [reflexivity|]. cbn [notifications isOpen].
    split; [reflexivity|]. split; [apply marked_same_ids|].
    pose proof (unread_after_mark id' (notifications c)) as Hcount.
    unfold unreadCount. cbn [notifications].
    split; [lia|]. split; [reflexivity|]. split; [exact Hcount|].
    apply marked_none_unread.
  - exists c. unfold ret. split; [by destruct c|]. by repeat split.
Qed.

End BellFacts.

(** ** Worked examples of the sessions *)

Section SessionExamples.
Import Onboarding OAuthCallback Browser Scenarios Session Sessions.
#[local] Existing Instance SampleCodec.codec.
#[local] Existing Instance SampleUserCodec.codec.

Lemma onboarding_never_left_busy_witness :
  isLoading awaiting = false
  ∧ location (world (run register_acme (start before_acme))) = "/onboarding".
Proof.
  exact (onboarding_never_left_busy register_acme before_acme awaiting eq_refl).
Defined.

Lemma reload_keeps_connected_session_witness :
  let s := run [OpenOnboarding] (start granted_acme) in
  ∃ cid c',
    cid ≠ ""
    ∧ globalCompanyId connected = Some cid
    ∧ localStorage (world s) !! KEY_COMPANY = Some cid
    ∧ localStorage (world s) !! KEY_GOOGLE = Some "true"
    ∧ app_step OpenOnboarding s = mkApp (OnboardingPage c') (world s)
    ∧ globalCompanyId c' = Some cid
    ∧ currentStep c' = ConfiguringResources.
Proof.
  exact (reload_keeps_connected_session [OpenOnboarding] granted_acme connected
           eq_refl eq_refl).
Defined.

Lemma finalize_goes_to_stored_company_witness :
  let s := run [OpenOnboarding; TypeForm acme_with_sheet]
               (start binding_then_provisioning) in
  ∃ cid c' w' evs,
    cid ≠ ""
    ∧ globalCompanyId with_sheet = Some cid
    ∧ localStorage (world s) !! KEY_COMPANY = Some cid
    ∧ handleSubmit (with_sheet, world s) = (inr tt, (c', w'))
    ∧ trace w' = (trace (world s) ++ evs)%list
    ∧ Forall (addressed_to cid) evs
    ∧ head evs
      = Some (EvPost (databases_url cid)
                (BDatabase "Primary Employee DB" None "google_sheets" "S1" None)
                database_D1).
Proof.
  intros s.
  assert (page (run [OpenOnboarding; TypeForm acme_with_sheet]
                    (start binding_then_provisioning))
          = OnboardingPage with_sheet) as Hpage by (vm_compute; reflexivity).
  destruct (finalize_goes_to_stored_company [OpenOnboarding; TypeForm acme_with_sheet]
              binding_then_provisioning with_sheet Hpage eq_refl)
    as (cid & c' & w' & evs & Hne & Hid & Hstore & Hrun & Htrace & Haddr & Hhead).
  exists cid, c', w', evs. do 6 (split; [assumption|]). exact (Hhead eq_refl).
Defined.

Lemma form_survives_granted_consent_witness :
  let s := run register_acme (start before_consent) in
  ∃ w',
    run [ClickSignInWithGoogle; ProviderRedirectsBack granted] s
    = mkApp (OnboardingPage (mkComponent 2 acme (Some "C1") true false)) w'
    ∧ localStorage w'
      = <[KEY_GOOGLE:="true"]>
          (<[KEY_FORM:=JSON_stringify acme]> (localStorage (world s)))
    ∧ backend w' = [].
Proof.
  apply (form_survives_granted_consent register_acme before_consent awaiting granted
           "C1" (mkData "" "" 0 0) []);
    [reflexivity | reflexivity | reflexivity | discriminate | reflexivity
    | discriminate | reflexivity | reflexivity | reflexivity].
Defined.

Lemma registration_is_persisted_or_undone_witness :
  ∃ c' w' evs,
    handleNext (typed, registrar_answers) = (inr tt, (c', w'))
    ∧ trace w' = (trace registrar_answers ++ evs)%list
    ∧ length (posts evs) = 1
    ∧ isLoading c' = false
    ∧ formData c' = acme
    ∧ location w' = "/onboarding"
    ∧ step c' = 2
    ∧ globalCompanyId c' = Some "C1"
    ∧ localStorage w' !! KEY_COMPANY = Some "C1"
    ∧ localStorage w' !! KEY_FORM = Some (JSON_stringify acme)
    ∧ ∀ k, k ≠ KEY_COMPANY → k ≠ KEY_FORM →
           localStorage w' !! k = localStorage registrar_answers !! k.
Proof.
  exact (registration_is_persisted_or_undone typed registrar_answers
           eq_refl eq_refl eq_refl).
Defined.

Lemma wizard_settles_witness :
  Wizard.loading (Wizard.initial None) = false
  ∧ Wizard.textPolicies (Wizard.initial None) ≠ []
  ∧ (Wizard.step (Wizard.initial None) ≤ 4)%nat.
Proof.
  exact (wizard_settles None ∅ "/register" [Rejected (Some 500) None]
           [Wizard.ClickRegister] (Wizard.initial None) eq_refl).
Defined.


Lemma policy_edits_touch_one_entry_witness :
  ∃ c',
    Wizard.updateTextPolicy 0 Wizard.FTitle "Leave" (on_documents, first_upload_fails)
    = (inr tt, (c', first_upload_fails))
    ∧ length (Wizard.textPolicies c') = 1
    ∧ Wizard.textPolicies c' !! 0 = Some (Wizard.mkTextPolicy "Leave" "" "")
    ∧ ∀ i, i ≠ 0 → Wizard.textPolicies c' !! i = Wizard.textPolicies on_documents !! i.
Proof.
  exact (proj1 (proj2 (policy_edits_touch_one_entry on_documents first_upload_fails
                         0 Wizard.FTitle "Leave")) (le_n 1)).
Defined.

Lemma login_survives_reload_witness :
  ∃ c' w',
    Auth.login (Auth.LoginResolved jane) (Auth.initial, no_context) = (inr jane, (c', w'))
    ∧ Auth.user c' = Some jane
    ∧ localStorage w'
      = <[Api.KEY_USER:="tok-1|hr|Jane Doe|C1"]> (<[Api.KEY_TOKEN:="tok-1"]> ∅)
    ∧ location w' = "/oauth/callback"
    ∧ Auth.restore (Auth.initial, w') = (inr tt, (signed_in, w')).
Proof.
  exact (login_survives_reload Auth.initial no_context jane eq_refl
           ltac:(discriminate)).
Defined.

Lemma unauthorized_reply_ends_session_witness :
  ∃ w',
    Api.post (Bell.markRead_url "7") BEmpty (tt, expired)
    = (inl (Some "Token expired"), (tt, w'))
    ∧ localStorage w' = Client.signed_out_store (localStorage expired)
    ∧ location w' = "/login"
    ∧ Auth.restore (Auth.initial, w') = (inr tt, (Auth.mkContext None false, w')).
Proof.
  exact (unauthorized_reply_ends_session (Bell.markRead_url "7") BEmpty tt expired
           (Some "Token expired") eq_refl).
Defined.

(** The session of Jane: she signs in as HR and lands on the wizard;
    a request answered with a 401 signs her out, and the reload that
    follows finds no user. *)
Example jane_signs_in_and_is_signed_out :
  let '(r, (c1, w1)) :=
    Login.handleSubmit (Auth.LoginResolved jane)
      (Login.mkComponent Auth.initial false false (Login.mkForm "hr" "C1" "E1" "pw"),
       mkWorld ∅ "/login" [Rejected (Some 401) None] []) in
  let '(r2, (c2, w2)) := Bell.markRead "7" (Bell.mkComponent [] false, w1) in
  let '(r3, (c3, w3)) := Auth.restore (Auth.initial, w2) in
  location w1 = "/onboarding"
  ∧ Auth.user (Login.auth c1) = Some jane
  ∧ localStorage w1 !! Api.KEY_TOKEN = Some "tok-1"
  ∧ r2 = inr tt
  ∧ location w2 = "/login"
  ∧ localStorage w2 = ∅
  ∧ c3 = Auth.mkContext None false.
Proof. vm_compute. repeat split. Qed.

End SessionExamples.
